(** * Whiteboard: relay server and canvas client

    A shallow embedding of the collaborative whiteboard:
    - the relay server (socket.io handlers over [drawingActionsHistory]),
    - the React [Canvas] component (action interpreter, snapshot history,
      gesture handlers and socket handlers).

    JavaScript values are modelled by [JsVal]; an action is the object the
    client emits, with an absent property read as [JUndef].  A number is
    the rational a finite double denotes; what the arithmetic of doubles
    returns is a parameter of the model ([Doubles]), and so is the
    judgement of the 2D context on the arguments of [arc]. *)

From Stdlib Require Import List ZArith QArith String Bool Lia.
Import ListNotations.
Local Open Scope string_scope.
Local Open Scope list_scope.
Local Open Scope Z_scope.

Set Implicit Arguments.

(* ================================================================== *)
(** ** JavaScript values *)

Module Js.

Inductive JsVal : Type :=
| JUndef
| JNull
| JBool (b : bool)
| JNum (q : Q)
| JNaN
| JStr (s : string).

(** ToBoolean: [undefined], [null], [false], [0], [NaN] and the empty
    string are falsy. *)
Definition truthy (v : JsVal) : bool :=
  match v with
  | JUndef | JNull | JNaN => false
  | JBool b => b
  | JNum q => negb (Qeq_bool q 0)
  | JStr s => negb (String.eqb s "")
  end.

(** [a || b] *)
Definition or (a b : JsVal) : JsVal := if truthy a then a else b.

(** [v === 'lit'] for a string literal. *)
Definition is_str (v : JsVal) (lit : string) : bool :=
  match v with
  | JStr s => String.eqb s lit
  | _ => false
  end.

(** [Array.prototype.slice(0, end)] on a list, [end] any integer. *)
Definition slice0 {A} (l : list A) (e : Z) : list A :=
  let len := Z.of_nat (List.length l) in
  let fin := if e <? 0 then Z.max (len + e) 0 else Z.min e len in
  firstn (Z.to_nat fin) l.

(** [arr[i]] for an integer index: [undefined] out of range. *)
Definition index {A} (l : list A) (i : Z) : option A :=
  if i <? 0 then None else nth_error l (Z.to_nat i).

(** The arithmetic the program does on numbers.  The operands are finite
    doubles and so is each result here (pointer coordinates are far from
    the overflow range); which double IEEE 754 rounds to is left to the
    instance. *)
Record Doubles : Type := mkDoubles {
  dsub : Q -> Q -> Q;              (* a - b *)
  dadd : Q -> Q -> Q;              (* a + b *)
  dsquare : Q -> Q;                (* Math.pow(a, 2) *)
  dsqrt : Q -> Q                   (* Math.sqrt(a) *)
}.

End Js.
Import Js.

(* ================================================================== *)
(** ** Action model *)

(** The object carried by a [drawing-action] message.  Every property the
    program reads is a field; a missing property is [JUndef]. *)
Record Action : Type := mkAction {
  a_type : JsVal;
  a_tool : JsVal;
  a_x : JsVal;
  a_y : JsVal;
  a_width : JsVal;
  a_height : JsVal;
  a_radius : JsVal;
  a_color : JsVal;
  a_lineWidth : JsVal;
  a_text : JsVal;
  a_font : JsVal;
  a_emitterSocketId : JsVal
}.

(** [{}] *)
Definition emptyAction : Action :=
  mkAction JUndef JUndef JUndef JUndef JUndef JUndef
           JUndef JUndef JUndef JUndef JUndef JUndef.

(** [{ type: "clear" }] *)
Definition clearAction : Action :=
  mkAction (JStr "clear") JUndef JUndef JUndef JUndef JUndef
           JUndef JUndef JUndef JUndef JUndef JUndef.

(* ================================================================== *)
(** ** Relay server *)

Module Server.

Definition SocketId := string.

Definition MAX_HISTORY_LENGTH : nat := 200.

(** Messages the server sends. *)
Inductive Msg : Type :=
| InitialDrawingHistory (actions : list Action)
| DrawingAction (data : Action).

(** An outgoing message together with the socket it is delivered to. *)
Definition Delivery : Type := (SocketId * Msg)%type.

(** What reaches the server. *)
Inductive Event : Type :=
| Connection (s : SocketId)
| OnDrawingAction (s : SocketId) (data : Action)
| OnClearCanvas (s : SocketId)
| Disconnect (s : SocketId).

Record State : Type := mkState {
  drawingActionsHistory : list Action;
  sockets : list SocketId          (* the connected sockets *)
}.

Definition init : State := mkState [] [].

(** [push(a)] followed by the guarded [shift()]. *)
Definition push_bounded (h : list Action) (a : Action) : list Action :=
  let h1 := h ++ [a] in
  if (MAX_HISTORY_LENGTH <? List.length h1)%nat then tl h1 else h1.

(** [socket.emit]: to that socket only. *)
Definition emit (s : SocketId) (m : Msg) : list Delivery := [(s, m)].

(** [socket.broadcast.emit]: to every connected socket except [s]. *)
Definition broadcast_emit (st : State) (s : SocketId) (m : Msg)
  : list Delivery :=
  map (fun r => (r, m))
      (filter (fun r => negb (String.eqb r s)) (sockets st)).

Definition step (st : State) (e : Event) : State * list Delivery :=
  match e with
  | Connection s =>
      let st' := mkState (drawingActionsHistory st) (sockets st ++ [s]) in
      (st',
       if (0 <? List.length (drawingActionsHistory st))%nat
       then emit s (InitialDrawingHistory (drawingActionsHistory st))
       else [])
  | OnDrawingAction s data =>
      let st' := mkState (push_bounded (drawingActionsHistory st) data)
                         (sockets st) in
      (st', broadcast_emit st' s (DrawingAction data))
  | OnClearCanvas s =>
      let st' := mkState (push_bounded (drawingActionsHistory st) clearAction)
                         (sockets st) in
      (st', broadcast_emit st' s (DrawingAction clearAction))
  | Disconnect s =>
      (mkState (drawingActionsHistory st)
               (filter (fun r => negb (String.eqb r s)) (sockets st)),
       [])
  end.

(** Messages are handled one at a time, each to completion. *)
Fixpoint run (st : State) (evs : list Event) : State * list Delivery :=
  match evs with
  | [] => (st, [])
  | e :: rest =>
      let '(st1, out1) := step st e in
      let '(st2, out2) := run st1 rest in
      (st2, out1 ++ out2)
  end.

(** The action an event appends to the history, if any. *)
Definition appended (e : Event) : list Action :=
  match e with
  | OnDrawingAction _ data => [data]
  | OnClearCanvas _ => [clearAction]
  | _ => []
  end.

(** The last [n] elements of a list. *)
Definition lastn {A} (n : nat) (l : list A) : list A :=
  skipn (List.length l - n) l.

End Server.

(* ================================================================== *)
(** ** Canvas client *)

Module Canvas.

(** A point of the canvas, as [getMousePos] returns it. *)
Record Pos : Type := mkPos { px : Q; py : Q }.

(** Calls and property writes on the 2D context.  Arguments are passed
    on as the program computes them; nothing is validated here. *)
Inductive CtxOp : Type :=
| SetStrokeStyle (v : JsVal)
| SetFillStyle (v : JsVal)
| SetLineWidth (v : JsVal)
| SetLineCap (v : JsVal)
| SetFont (v : JsVal)
| BeginPath
| MoveTo (x y : JsVal)
| LineTo (x y : JsVal)
| Stroke
| ClosePath
| StrokeRect (x y w h : JsVal)
| Arc (x y r : JsVal)            (* arc(x, y, r, 0, 2 * Math.PI) *)
| ArcHalf (x y d : JsVal)        (* arc(x, y, d / 2, 0, Math.PI * 2, false) *)
| Fill
| FillText (t x y : JsVal)
| ClearRect                      (* clearRect(0, 0, canvas.width, canvas.height) *)
| DrawImage (src : string).      (* drawImage(img, 0, 0), img loaded from src *)

(** The calls that put or remove pixels. *)
Definition paints (op : CtxOp) : bool :=
  match op with
  | Stroke | StrokeRect _ _ _ _ | Fill | FillText _ _ _
  | ClearRect | DrawImage _ => true
  | _ => false
  end.

(** The canvas with its 2D context: the current compositing mode and
    every call that returned so far, each with the mode it ran under.  A
    call that raises leaves the context as it was and is not recorded. *)
Record Context2D : Type := mkCtx {
  globalCompositeOperation : string;
  calls : list (string * CtxOp)
}.

Definition source_over : string := "source-over".
Definition destination_out : string := "destination-out".

Definition blank : Context2D := mkCtx source_over [].

Definition call (op : CtxOp) (x : Context2D) : Context2D :=
  mkCtx (globalCompositeOperation x)
        (calls x ++ [(globalCompositeOperation x, op)]).

Definition setComposite (m : string) (x : Context2D) : Context2D :=
  mkCtx m (calls x).

(** How a function that works on the context ends: it returns, or an
    exception of the context leaves it; either way the context is left
    in some state. *)
Inductive Outcome : Type :=
| Returned (x : Context2D)
| Raised (x : Context2D).

Definition contextOf (o : Outcome) : Context2D :=
  match o with
  | Returned x | Raised x => x
  end.

Definition raised (o : Outcome) : bool :=
  match o with
  | Returned _ => false
  | Raised _ => true
  end.

(** The [useState] values of one render. *)
Record ReactState : Type := mkReact {
  isDrawing : bool;
  tool : string;
  color : string;
  lineWidth : Q;
  eraserWidth : Q;
  startPos : Pos;
  currentPos : Pos;
  history : list string;
  historyStep : Z;
  previewMode : bool
}.

Definition initialState : ReactState :=
  mkReact false "pen" "#000000" 5 10 (mkPos 0 0) (mkPos 0 0) [] (-1) false.

(** State variables holding an array or an object: a setter call always
    installs a new reference, which the dependency check of an effect
    sees even when the contents are equal. *)
Record Touched : Type := mkTouched {
  t_history : bool;
  t_startPos : bool;
  t_currentPos : bool
}.

Definition untouched : Touched := mkTouched false false false.

(** Messages the client sends. *)
Inductive Emit : Type :=
| EmitDrawingAction (data : Action)
| EmitClearCanvas.

Record Client : Type := mkClient {
  state : ReactState;               (* the current state *)
  sockRender : ReactState;          (* the render the socket effect closed over *)
  touched : Touched;
  isApplyingRemoteAction : bool;
  context : option Context2D;       (* canvasRef.current with its 2D context;
                                       None while the ref is null *)
  socket : option string;           (* socketRef.current, with its id *)
  outbox : list Emit
}.

(** The canvas of a client, blank while there is none. *)
Definition canvasOf (c : Client) : Context2D :=
  match context c with
  | Some x => x
  | None => blank
  end.

(** *** Field updates *)

Definition withState (f : ReactState -> ReactState) (c : Client) : Client :=
  mkClient (f (state c)) (sockRender c) (touched c)
           (isApplyingRemoteAction c) (context c) (socket c) (outbox c).

Definition withTouched (f : Touched -> Touched) (c : Client) : Client :=
  mkClient (state c) (sockRender c) (f (touched c))
           (isApplyingRemoteAction c) (context c) (socket c) (outbox c).

Definition setApplying (b : bool) (c : Client) : Client :=
  mkClient (state c) (sockRender c) (touched c) b
           (context c) (socket c) (outbox c).

Definition withContext (f : Context2D -> Context2D) (c : Client) : Client :=
  mkClient (state c) (sockRender c) (touched c) (isApplyingRemoteAction c)
           (option_map f (context c)) (socket c) (outbox c).

(** The context of a client that has one, after a call left it as [x]. *)
Definition setContext (x : Context2D) : Client -> Client :=
  withContext (fun _ => x).

(** [if (socketRef.current) socketRef.current.emit(...)] *)
Definition emit (m : Emit) (c : Client) : Client :=
  match socket c with
  | Some _ =>
      mkClient (state c) (sockRender c) (touched c)
               (isApplyingRemoteAction c) (context c) (socket c)
               (outbox c ++ [m])
  | None => c
  end.

Definition setIsDrawing (b : bool) : Client -> Client :=
  withState (fun s => mkReact b (tool s) (color s) (lineWidth s)
    (eraserWidth s) (startPos s) (currentPos s) (history s)
    (historyStep s) (previewMode s)).

Definition setTool (t : string) : Client -> Client :=
  withState (fun s => mkReact (isDrawing s) t (color s) (lineWidth s)
    (eraserWidth s) (startPos s) (currentPos s) (history s)
    (historyStep s) (previewMode s)).

Definition setStartPos (p : Pos) (c : Client) : Client :=
  withTouched (fun t => mkTouched (t_history t) true (t_currentPos t))
    (withState (fun s => mkReact (isDrawing s) (tool s) (color s)
       (lineWidth s) (eraserWidth s) p (currentPos s) (history s)
       (historyStep s) (previewMode s)) c).

Definition setCurrentPos (p : Pos) (c : Client) : Client :=
  withTouched (fun t => mkTouched (t_history t) (t_startPos t) true)
    (withState (fun s => mkReact (isDrawing s) (tool s) (color s)
       (lineWidth s) (eraserWidth s) (startPos s) p (history s)
       (historyStep s) (previewMode s)) c).

Definition setHistory (h : list string) (c : Client) : Client :=
  withTouched (fun t => mkTouched true (t_startPos t) (t_currentPos t))
    (withState (fun s => mkReact (isDrawing s) (tool s) (color s)
       (lineWidth s) (eraserWidth s) (startPos s) (currentPos s) h
       (historyStep s) (previewMode s)) c).

(** [setHistoryStep(f)] with an updater; [setHistoryStep(v)] is the
    constant updater. *)
Definition setHistoryStep (f : Z -> Z) : Client -> Client :=
  withState (fun s => mkReact (isDrawing s) (tool s) (color s)
    (lineWidth s) (eraserWidth s) (startPos s) (currentPos s) (history s)
    (f (historyStep s)) (previewMode s)).

Definition setPreviewMode (b : bool) : Client -> Client :=
  withState (fun s => mkReact (isDrawing s) (tool s) (color s)
    (lineWidth s) (eraserWidth s) (startPos s) (currentPos s) (history s)
    (historyStep s) b).

(** *** The component's functions *)

Section Component.

(** [canvas.toDataURL()], the export of the raster as a data URL. *)
Variable toDataURL : Context2D -> string.

(** The arithmetic of doubles. *)
Variable fp : Doubles.

(** [context.arc] raises an IndexSizeError when its radius is negative
    (and the other arguments are finite); whether a given call raises is
    the context's judgement of the arguments, converted to numbers.  It
    is asked for the two [arc] calls of the interpreter, whose arguments
    come off the wire.  The gesture handlers and the preview call [arc]
    with the result of [Math.sqrt], never negative, and their other
    calls do not raise on any argument. *)
Variable arcThrows : CtxOp -> bool.

Definition isEraser (t : string) : bool := String.eqb t "eraser".

(** The test the interpreter makes before and after rendering:
    [data.tool === 'eraser' || (data.type === 'eraser' && data.tool !== 'pen')]. *)
Definition erases (data : Action) : bool :=
  is_str (a_tool data) "eraser"
  || (is_str (a_type data) "eraser" && negb (is_str (a_tool data) "pen")).

(** [applyDrawingAction(data, context)] on an available context, with
    the [color], [lineWidth] and [eraserWidth] of render [r].  Nothing
    in it catches an exception: when [arc] raises, the calls after it
    and the restore of the compositing mode are not made. *)
Definition applyDrawingActionOutcome (r : ReactState) (data : Action)
           (x : Context2D) : Outcome :=
  let cur := JStr (color r) in
  let x := call (SetStrokeStyle (Js.or (a_color data) cur)) x in
  let x := call (SetFillStyle (Js.or (a_color data) cur)) x in
  let x := call (SetLineWidth
             (Js.or (a_lineWidth data)
                (if is_str (a_tool data) "eraser"
                 then JNum (eraserWidth r) else JNum (lineWidth r)))) x in
  let x := call (SetLineCap (JStr "round")) x in
  let x := call (SetFont (Js.or (a_font data) (JStr "16px Arial"))) x in
  let originalCompositeOperation := globalCompositeOperation x in
  let x :=
    if erases data
    then call (SetLineWidth (Js.or (a_lineWidth data) (JNum (eraserWidth r))))
              (setComposite destination_out x)
    else x in
  let restore x :=
    if erases data then setComposite originalCompositeOperation x else x in
  if is_str (a_type data) "start" then
    Returned (restore (call (MoveTo (a_x data) (a_y data)) (call BeginPath x)))
  else if is_str (a_type data) "draw" then
    Returned (restore (call Stroke (call (LineTo (a_x data) (a_y data)) x)))
  else if is_str (a_type data) "stop" then
    Returned (restore (call ClosePath x))
  else if is_str (a_type data) "rect" then
    Returned (restore
      (call (StrokeRect (a_x data) (a_y data) (a_width data) (a_height data))
            x))
  else if is_str (a_type data) "circle" then
    let x := call BeginPath x in
    let arc := Arc (a_x data) (a_y data) (a_radius data) in
    if arcThrows arc then Raised x
    else Returned (restore (call Stroke (call arc x)))
  else if is_str (a_type data) "text" then
    Returned (restore (call (FillText (a_text data) (a_x data) (a_y data)) x))
  else if is_str (a_type data) "eraser" then
    let x := call BeginPath x in
    let arc := ArcHalf (a_x data) (a_y data)
                 (Js.or (a_lineWidth data) (JNum (eraserWidth r))) in
    if arcThrows arc then Raised x
    else Returned (restore (call Fill (call arc x)))
  else if is_str (a_type data) "clear" then
    Returned (restore (call ClearRect x))
  else Returned (restore x).

(** The context the call leaves, however it ends. *)
Definition applyDrawingAction (r : ReactState) (data : Action)
           (x : Context2D) : Context2D :=
  contextOf (applyDrawingActionOutcome r data x).

(** [actions.forEach(action => applyDrawingAction(action, context))]: an
    exception ends the loop. *)
Fixpoint applyEach (r : ReactState) (actions : list Action) (x : Context2D)
  : Outcome :=
  match actions with
  | [] => Returned x
  | action :: rest =>
      match applyDrawingActionOutcome r action x with
      | Returned x' => applyEach r rest x'
      | Raised x' => Raised x'
      end
  end.

(** [saveHistory()] of render [r]. *)
Definition saveHistory (r : ReactState) (c : Client) : Client :=
  match context c with
  | None => c
  | Some x =>
      let dataURL := toDataURL x in
      let newHistory := slice0 (history r) (historyStep r + 1) ++ [dataURL] in
      setHistoryStep (fun _ => Z.of_nat (List.length newHistory) - 1)
                     (setHistory newHistory c)
  end.

(** [restoreHistory()] of render [r]; the image is taken to load, and
    its [onload] to run, before the next event. *)
Definition restoreHistory (r : ReactState) (c : Client) : Client :=
  if (historyStep r <? 0)
     || (Z.of_nat (List.length (history r)) <=? historyStep r)
  then c
  else
    match Js.index (history r) (historyStep r) with
    | Some src => withContext (fun x => call (DrawImage src) (call ClearRect x)) c
    | None => c
    end.

Definition handleUndo (r : ReactState) (c : Client) : Client :=
  if 0 <? historyStep r
  then setHistoryStep (fun prevStep => prevStep - 1) c
  else c.

Definition handleRedo (r : ReactState) (c : Client) : Client :=
  if historyStep r <? Z.of_nat (List.length (history r)) - 1
  then setHistoryStep (fun prevStep => prevStep + 1) c
  else c.

Definition handleClear (r : ReactState) (c : Client) : Client :=
  match context c with
  | None => c
  | Some _ =>
      emit EmitClearCanvas (saveHistory r (withContext (call ClearRect) c))
  end.

(** [getMousePos(nativeEvent)], [p] being the point of the event
    relative to the canvas; [canvasRef.current] is null exactly when
    [context c] is [None]. *)
Definition getMousePos (p : Pos) (c : Client) : Pos :=
  match context c with
  | None => mkPos 0 0
  | Some _ => p
  end.

Definition currentLineWidth (r : ReactState) : Q :=
  if isEraser (tool r) then eraserWidth r else lineWidth r.

(** The action objects the gesture handlers build. *)
Definition textAction (r : ReactState) (text : JsVal) (p : Pos) : Action :=
  mkAction (JStr "text") (JStr (tool r)) (JNum (px p)) (JNum (py p))
           JUndef JUndef JUndef (JStr (color r))
           (JNum (currentLineWidth r)) text (JStr "16px Arial") JUndef.

Definition startAction (r : ReactState) (p : Pos) : Action :=
  mkAction (JStr "start") (JStr (tool r)) (JNum (px p)) (JNum (py p))
           JUndef JUndef JUndef (JStr (color r))
           (JNum (currentLineWidth r)) JUndef JUndef JUndef.

Definition penDrawAction (r : ReactState) (p : Pos) : Action :=
  mkAction (JStr "draw") (JStr (tool r)) (JNum (px p)) (JNum (py p))
           JUndef JUndef JUndef (JStr (color r))
           (JNum (currentLineWidth r)) JUndef JUndef JUndef.

Definition eraserDrawAction (r : ReactState) (p : Pos) : Action :=
  mkAction (JStr "draw") (JStr (tool r)) (JNum (px p)) (JNum (py p))
           JUndef JUndef JUndef JUndef
           (JNum (currentLineWidth r)) JUndef JUndef JUndef.

Definition stopAction (r : ReactState) : Action :=
  mkAction (JStr "stop") (JStr (tool r)) JUndef JUndef
           JUndef JUndef JUndef JUndef JUndef JUndef JUndef JUndef.

Definition rectAction (r : ReactState) (w h : Q) : Action :=
  mkAction (JStr "rect") (JStr (tool r))
           (JNum (px (startPos r))) (JNum (py (startPos r)))
           (JNum w) (JNum h) JUndef (JStr (color r))
           (JNum (currentLineWidth r)) JUndef JUndef JUndef.

Definition circleAction (r : ReactState) (radius : Q) : Action :=
  mkAction (JStr "circle") (JStr (tool r))
           (JNum (px (startPos r))) (JNum (py (startPos r)))
           JUndef JUndef (JNum radius) (JStr (color r))
           (JNum (currentLineWidth r)) JUndef JUndef JUndef.

(** [startDrawing] of render [r]; [text] is what [prompt] returns when
    the text tool asks for it. *)
Definition startDrawing (r : ReactState) (p : Pos) (text : JsVal)
           (c : Client) : Client :=
  if isApplyingRemoteAction c then c else
  let p := getMousePos p c in
  let c := setCurrentPos p (setStartPos p c) in
  match context c with
  | None => c
  | Some _ =>
      let c := withContext (fun x =>
                 call (SetLineWidth (JNum (currentLineWidth r)))
                   (call (SetFillStyle (JStr (color r)))
                      (call (SetStrokeStyle (JStr (color r))) x))) c in
      if String.eqb (tool r) "text" then
        if truthy text then
          let c := withContext (fun x =>
                     call (FillText text (JNum (px p)) (JNum (py p)))
                          (call (SetFont (JStr "16px Arial")) x)) c in
          emit (EmitDrawingAction (textAction r text p)) (saveHistory r c)
        else c
      else
        let c := setIsDrawing true c in
        if String.eqb (tool r) "pen" || String.eqb (tool r) "eraser" then
          let c := withContext (fun x =>
                     call (MoveTo (JNum (px p)) (JNum (py p)))
                          (call BeginPath x)) c in
          let c := if isEraser (tool r)
                   then withContext (setComposite destination_out) c
                   else c in
          emit (EmitDrawingAction (startAction r p)) c
        else if String.eqb (tool r) "rectangle" || String.eqb (tool r) "circle"
        then setPreviewMode true c
        else c
  end.

Definition draw (r : ReactState) (p : Pos) (c : Client) : Client :=
  if negb (isDrawing r) || isApplyingRemoteAction c then c else
  let p := getMousePos p c in
  let c := setCurrentPos p c in
  match context c with
  | None => c
  | Some _ =>
      let c := withContext (fun x =>
                 setComposite
                   (if isEraser (tool r) then destination_out else source_over)
                   (call (SetLineWidth (JNum (currentLineWidth r)))
                      (call (SetStrokeStyle (JStr (color r))) x))) c in
      let stroke := withContext (fun x =>
                      call Stroke (call (LineTo (JNum (px p)) (JNum (py p))) x)) in
      if String.eqb (tool r) "pen" then
        emit (EmitDrawingAction (penDrawAction r p)) (stroke c)
      else if String.eqb (tool r) "eraser" then
        emit (EmitDrawingAction (eraserDrawAction r p)) (stroke c)
      else c
  end.

(** [Math.sqrt(Math.pow(b.x - a.x, 2) + Math.pow(b.y - a.y, 2))] *)
Definition distance (a b : Pos) : Q :=
  dsqrt fp (dadd fp (dsquare fp (dsub fp (px b) (px a)))
                    (dsquare fp (dsub fp (py b) (py a)))).

Definition stopDrawing (r : ReactState) (p : Pos) (c : Client) : Client :=
  if isApplyingRemoteAction c then c else
  if negb (isDrawing r) && negb (String.eqb (tool r) "rectangle")
     && negb (String.eqb (tool r) "circle")
  then c else
  let p := getMousePos p c in
  match context c with
  | None => c
  | Some _ =>
      let c :=
        if String.eqb (tool r) "pen" || String.eqb (tool r) "eraser" then
          let c := withContext (call ClosePath) c in
          let c := if isEraser (tool r)
                   then withContext (setComposite source_over) c
                   else c in
          emit (EmitDrawingAction (stopAction r)) c
        else if String.eqb (tool r) "rectangle" then
          let rectWidth := dsub fp (px p) (px (startPos r)) in
          let rectHeight := dsub fp (py p) (py (startPos r)) in
          let c := withContext (fun x =>
                     call (StrokeRect (JNum (px (startPos r)))
                             (JNum (py (startPos r)))
                             (JNum rectWidth) (JNum rectHeight))
                       (call (SetLineWidth (JNum (currentLineWidth r)))
                          (call (SetStrokeStyle (JStr (color r))) x))) c in
          emit (EmitDrawingAction (rectAction r rectWidth rectHeight)) c
        else if String.eqb (tool r) "circle" then
          let radius := distance (startPos r) p in
          let c := withContext (fun x =>
                     call Stroke
                       (call (Arc (JNum (px (startPos r)))
                                (JNum (py (startPos r))) (JNum radius))
                          (call BeginPath
                             (call (SetLineWidth (JNum (currentLineWidth r)))
                                (call (SetStrokeStyle (JStr (color r))) x))))) c in
          emit (EmitDrawingAction (circleAction r radius)) c
        else c in
      setIsDrawing false (saveHistory r (setPreviewMode false c))
  end.

(** *** Socket listeners

    Both are registered by the socket effect, whose dependency list
    leaves [saveHistory] out: they keep the [saveHistory] and the
    [applyDrawingAction] of the render the effect last ran in. *)

Definition onInitialDrawingHistory (actions : list Action) (c : Client)
  : Client :=
  let r := sockRender c in
  match context c with
  | None => c
  | Some x =>
      let c := setApplying true c in
      match applyEach r actions (call ClearRect x) with
      | Raised x' => setContext x' c        (* the listener is left here *)
      | Returned x' =>
          let c := setApplying false (setContext x' c) in
          saveHistory r c
      end
  end.

(** [applyDrawingAction(data)] looks the context up itself and returns
    at once when there is none. *)
Definition onDrawingAction (data : Action) (c : Client) : Client :=
  let r := sockRender c in
  match socket c with
  | None => c
  | Some id =>
      if is_str (a_emitterSocketId data) id then c else
      let c := setApplying true c in
      match context c with
      | None => setApplying false (saveHistory r c)
      | Some x =>
          match applyDrawingActionOutcome r data x with
          | Raised x' => setContext x' c    (* the listener is left here *)
          | Returned x' =>
              let c := saveHistory r (setContext x' c) in
              setApplying false c
          end
      end
  end.

(** *** Effects *)

(** The effect for local drawing settings. *)
Definition settingsEffect (r : ReactState) : Client -> Client :=
  withContext (fun x =>
    call (SetFont (JStr "16px Arial"))
      (call (SetFillStyle (JStr (color r)))
         (call (SetLineWidth (JNum (currentLineWidth r)))
            (call (SetStrokeStyle (JStr (color r)))
               (call (SetLineCap (JStr "round")) x))))).

(** The component once mounted and connected as [id]: the socket effect
    has run in the first render and the settings effect has written the
    initial settings to the context; the other effects do nothing then
    but set the timer of [InitTimer]. *)
Definition mounted (id : string) : Client :=
  settingsEffect initialState
    (mkClient initialState initialState untouched false (Some blank)
              (Some id) []).

Definition inHistory (r : ReactState) : bool :=
  (0 <=? historyStep r)
  && (historyStep r <? Z.of_nat (List.length (history r))).

(** The effect that restores the canvas on undo and redo. *)
Definition restoreEffect (r : ReactState) (c : Client) : Client :=
  if (0 <? Z.of_nat (List.length (history r))) && inHistory r
  then restoreHistory r c
  else c.

(** [drawShapePreview()] of render [r], image loaded as in
    [restoreHistory]. *)
Definition drawShapePreview (r : ReactState) (c : Client) : Client :=
  if negb (isDrawing r)
     || (negb (String.eqb (tool r) "rectangle")
         && negb (String.eqb (tool r) "circle"))
     || negb (previewMode r)
  then c
  else
    match context c, Js.index (history r) (historyStep r) with
    | Some _, Some src =>
        if inHistory r then
          let c := withContext (fun x =>
                     call (SetLineWidth (JNum (lineWidth r)))
                       (call (SetStrokeStyle (JStr (color r)))
                          (call (DrawImage src) (call ClearRect x)))) c in
          if String.eqb (tool r) "rectangle" then
            withContext
              (call (StrokeRect (JNum (px (startPos r)))
                       (JNum (py (startPos r)))
                       (JNum (dsub fp (px (currentPos r)) (px (startPos r))))
                       (JNum (dsub fp (py (currentPos r)) (py (startPos r))))))
              c
          else if String.eqb (tool r) "circle" then
            withContext (fun x =>
              call Stroke
                (call (Arc (JNum (px (startPos r))) (JNum (py (startPos r)))
                         (JNum (distance (startPos r) (currentPos r))))
                   (call BeginPath x))) c
          else c
        else c
    | _, _ => c
    end.

(** The re-render that follows a handler: the effects whose
    dependencies changed since render [old] run, in the order the
    component declares them.  No handler below changes [color],
    [lineWidth] or [eraserWidth], the dependencies of the socket
    effect. *)
Definition commit (old : ReactState) (c : Client) : Client :=
  let new := state c in
  let t := touched c in
  let stepChanged := negb (historyStep old =? historyStep new) in
  let drawChanged :=
    negb (String.eqb (color old) (color new))
    || negb (Qeq_bool (lineWidth old) (lineWidth new)) in
  let settingsChanged :=
    drawChanged
    || negb (Qeq_bool (eraserWidth old) (eraserWidth new))
    || negb (String.eqb (tool old) (tool new)) in
  let previewChanged :=
    t_currentPos t || t_startPos t || t_history t || stepChanged
    || drawChanged
    || negb (Bool.eqb (isDrawing old) (isDrawing new))
    || negb (String.eqb (tool old) (tool new))
    || negb (Bool.eqb (previewMode old) (previewMode new)) in
  let c := if settingsChanged then settingsEffect new c else c in
  let c := if t_history t || stepChanged then restoreEffect new c else c in
  let c := if previewChanged then drawShapePreview new c else c in
  withTouched (fun _ => untouched) c.

(** *** Events *)

Inductive Event : Type :=
| InitTimer                                   (* the mount effect's timer *)
| SelectTool (t : string)
| MouseDown (p : Pos) (promptAnswer : JsVal)
| MouseMove (p : Pos)
| MouseUp (p : Pos)                           (* also mouseout *)
| Undo
| Redo
| Clear
| RecvInitialDrawingHistory (actions : list Action)
| RecvDrawingAction (data : Action).

(** The handler an event runs; JSX handlers belong to the current
    render. *)
Definition handle (e : Event) (c : Client) : Client :=
  let r := state c in
  match e with
  | InitTimer => saveHistory initialState c
  | SelectTool t => setTool t c
  | MouseDown p text => startDrawing r p text c
  | MouseMove p => draw r p c
  | MouseUp p => stopDrawing r p c
  | Undo => handleUndo r c
  | Redo => handleRedo r c
  | Clear => handleClear r c
  | RecvInitialDrawingHistory actions => onInitialDrawingHistory actions c
  | RecvDrawingAction data => onDrawingAction data c
  end.

Definition step (c : Client) (e : Event) : Client :=
  commit (state c) (handle e c).

Definition run (c : Client) (evs : list Event) : Client :=
  fold_left step evs c.

(** *** Views used in the proofs *)

(** The five style writes that open every interpreter call. *)
Definition styleWrites (r : ReactState) (data : Action) : list CtxOp :=
  [ SetStrokeStyle (Js.or (a_color data) (JStr (color r)));
    SetFillStyle (Js.or (a_color data) (JStr (color r)));
    SetLineWidth
      (Js.or (a_lineWidth data)
         (if is_str (a_tool data) "eraser"
          then JNum (eraserWidth r) else JNum (lineWidth r)));
    SetLineCap (JStr "round");
    SetFont (Js.or (a_font data) (JStr "16px Arial")) ].

(** Whether the interpreter's [arc] raises on the action. *)
Definition raises (r : ReactState) (data : Action) : bool :=
  if is_str (a_type data) "start" || is_str (a_type data) "draw"
     || is_str (a_type data) "stop" || is_str (a_type data) "rect"
  then false
  else if is_str (a_type data) "circle" then
    arcThrows (Arc (a_x data) (a_y data) (a_radius data))
  else if is_str (a_type data) "text" then false
  else if is_str (a_type data) "eraser" then
    arcThrows (ArcHalf (a_x data) (a_y data)
                 (Js.or (a_lineWidth data) (JNum (eraserWidth r))))
  else false.

(** No action of the list makes [arc] raise. *)
Definition applies (r : ReactState) (actions : list Action) : bool :=
  forallb (fun a => negb (raises r a)) actions.

(** An event whose actions, if it brings any, the surface accepts when
    they are applied with the settings of render [r]. *)
Definition accepted (r : ReactState) (e : Event) : bool :=
  match e with
  | RecvInitialDrawingHistory actions => applies r actions
  | RecvDrawingAction data => negb (raises r data)
  | _ => true
  end.

(** The calls made once the compositing mode is settled; those of a
    circle and of an eraser point end before [arc] when it raises. *)
Definition shapeCalls (r : ReactState) (data : Action) : list CtxOp :=
  (if erases data
   then [SetLineWidth (Js.or (a_lineWidth data) (JNum (eraserWidth r)))]
   else [])
  ++
  (if is_str (a_type data) "start" then
     [BeginPath; MoveTo (a_x data) (a_y data)]
   else if is_str (a_type data) "draw" then
     [LineTo (a_x data) (a_y data); Stroke]
   else if is_str (a_type data) "stop" then
     [ClosePath]
   else if is_str (a_type data) "rect" then
     [StrokeRect (a_x data) (a_y data) (a_width data) (a_height data)]
   else if is_str (a_type data) "circle" then
     if raises r data then [BeginPath]
     else [BeginPath; Arc (a_x data) (a_y data) (a_radius data); Stroke]
   else if is_str (a_type data) "text" then
     [FillText (a_text data) (a_x data) (a_y data)]
   else if is_str (a_type data) "eraser" then
     if raises r data then [BeginPath]
     else [BeginPath;
           ArcHalf (a_x data) (a_y data)
             (Js.or (a_lineWidth data) (JNum (eraserWidth r)));
           Fill]
   else if is_str (a_type data) "clear" then
     [ClearRect]
   else []).

(** The mode those calls run under. *)
Definition renderMode (data : Action) (x : Context2D) : string :=
  if erases data then destination_out else globalCompositeOperation x.

(** The calls the interpreter adds for an action on a context whose
    mode is [m]. *)
Definition rendering (r : ReactState) (m : string) (data : Action)
  : list (string * CtxOp) :=
  map (pair m) (styleWrites r data)
  ++ map (pair (if erases data then destination_out else m))
         (shapeCalls r data).




(** The calls a context has received since it was [x]. *)
Definition callsSince (x x' : Context2D) : list (string * CtxOp) :=
  skipn (List.length (calls x)) (calls x').

(** Two clients that differ at most in the canvas and in the record of
    setter calls. *)
Definition sameOutsideCanvas (c c' : Client) : Prop :=
  state c' = state c
  /\ sockRender c' = sockRender c
  /\ isApplyingRemoteAction c' = isApplyingRemoteAction c
  /\ socket c' = socket c
  /\ outbox c' = outbox c.

(** *** Snapshot history invariant *)

Definition cursorOk (r : ReactState) : Prop :=
  (history r = [] -> historyStep r = -1)
  /\ (history r <> [] ->
      0 <= historyStep r < Z.of_nat (List.length (history r))).

End Component.

End Canvas.

(* ================================================================== *)
(** ** Concrete inputs used below *)

Module Examples.

Import Canvas.


(** [{ type: 'draw', x: 20, y: 20, lineWidth: 10, tool: 'eraser' }] *)
Definition remoteEraserDraw : Action :=
  mkAction (JStr "draw") (JStr "eraser") (JNum 20) (JNum 20) JUndef JUndef
           JUndef JUndef (JNum 10) JUndef JUndef JUndef.

(** [{ type: 'draw', x: 30, y: 30, color: '#ff0000', lineWidth: 5, tool: 'pen' }] *)
Definition remotePenDraw : Action :=
  mkAction (JStr "draw") (JStr "pen") (JNum 30) (JNum 30) JUndef JUndef
           JUndef (JStr "#ff0000") (JNum 5) JUndef JUndef JUndef.

(** A stand-in for [canvas.toDataURL()]: the number of calls made. *)
Definition countCalls (x : Context2D) : string :=
  String.concat "" (map (fun _ => "i") (calls x)).

(** The arithmetic on the small integers of the examples, which doubles
    hold exactly; [dsqrt] is a stand-in, no example takes a square
    root. *)
Definition exact : Doubles :=
  mkDoubles (fun a b => Qred (a - b)%Q) (fun a b => Qred (a + b)%Q)
            (fun a => Qred (a * a)%Q) (fun a => a).

(** The check of [arc] on numbers, as the HTML standard has it: among
    finite arguments a negative radius raises; with an argument that is
    not a finite number (a missing coordinate reads as NaN) [arc]
    returns without effect. *)
Definition negativeRadius (op : CtxOp) : bool :=
  match op with
  | Arc (JNum _) (JNum _) (JNum radius) => negb (Qle_bool 0 radius)
  | ArcHalf (JNum _) (JNum _) (JNum d) => negb (Qle_bool 0 (d / 2))
  | _ => false
  end.


(** [{ type: 'eraser', x: 10, y: 10, lineWidth: -4 }] *)
Definition badEraser : Action :=
  mkAction (JStr "eraser") JUndef (JNum 10) (JNum 10) JUndef JUndef
           JUndef JUndef (JNum (-4)) JUndef JUndef JUndef.

(** A client with the eraser selected and the button held down at
    (10, 10). *)
Definition erasingClient : Client :=
  run countCalls exact negativeRadius (mounted "A")
      [InitTimer; SelectTool "eraser"; MouseDown (mkPos 10 10) JNull].

(** A client that made two pen strokes. *)
Definition twoGestures : Client :=
  run countCalls exact negativeRadius (mounted "A")
      [InitTimer;
       MouseDown (mkPos 1 1) JNull; MouseMove (mkPos 2 2); MouseUp (mkPos 2 2);
       MouseDown (mkPos 3 3) JNull; MouseMove (mkPos 4 4); MouseUp (mkPos 4 4)].

(** [twoGestures] after one undo, and its canvas. *)
Definition undone : Client :=
  step countCalls exact negativeRadius twoGestures Undo.

(** The mounted client after the initial snapshot. *)
Definition fresh : Client :=
  run countCalls exact negativeRadius (mounted "A") [InitTimer].

(** The same with the text tool selected. *)
Definition textClient : Client :=
  run countCalls exact negativeRadius (mounted "A")
      [InitTimer; SelectTool "text"].

End Examples.

(* ================================================================== *)
(** ** The wire between client and server *)

Module Wire.

Import Server.

(** The two messages a client submits. *)
Definition isSubmission (e : Event) : bool :=
  match e with
  | OnDrawingAction _ _ | OnClearCanvas _ => true
  | _ => false
  end.

(** What socket [r] is sent when the server handles [e] as a
    submission: the action, unless [r] submitted it. *)
Definition relayedTo (r : SocketId) (e : Event) : list Msg :=
  match e with
  | OnDrawingAction s data =>
      if String.eqb s r then [] else [DrawingAction data]
  | OnClearCanvas s =>
      if String.eqb s r then [] else [DrawingAction clearAction]
  | _ => []
  end.

(** The messages among [out] that reach socket [r], in order. *)
Definition deliveredTo (r : SocketId) (out : list Delivery) : list Msg :=
  map snd (filter (fun d => String.eqb (fst d) r) out).

(** [socket.emit('drawing-action', data)] and
    [socket.emit('clear-canvas')] of the client, as the server event they
    raise on the socket [s] of that client. *)
Definition submit (s : SocketId) (m : Canvas.Emit) : Event :=
  match m with
  | Canvas.EmitDrawingAction data => OnDrawingAction s data
  | Canvas.EmitClearCanvas => OnClearCanvas s
  end.

(** A server message, as the listener it wakes in the client. *)
Definition receive (m : Msg) : Canvas.Event :=
  match m with
  | InitialDrawingHistory actions => Canvas.RecvInitialDrawingHistory actions
  | DrawingAction data => Canvas.RecvDrawingAction data
  end.

End Wire.

(* ================================================================== *)
(** ** Gestures and sessions *)

Module Gesture.

Import Canvas.

(** The events of one press, drag and release. *)
Definition dragEvents (p : Pos) (moves : list Pos) (q : Pos) : list Event :=
  MouseDown p JNull :: map MouseMove moves ++ [MouseUp q].

(** The action [draw] builds for a move, by tool. *)
Definition drawActionOf (r : ReactState) (q : Pos) : Action :=
  if String.eqb (tool r) "pen" then penDrawAction r q else eraserDrawAction r q.

(** Two renders with the same tool, colour and widths. *)
Definition sameSettings (r r' : ReactState) : Prop :=
  tool r' = tool r
  /\ color r' = color r
  /\ lineWidth r' = lineWidth r
  /\ eraserWidth r' = eraserWidth r.

(** A mounted, connected client between two events. *)
Definition ready (id : string) (c : Client) : Prop :=
  context c <> None
  /\ socket c = Some id
  /\ isApplyingRemoteAction c = false
  /\ touched c = untouched.

(** The action types the interpreter has a branch for. *)
Definition knownType (v : JsVal) : bool :=
  is_str v "start" || is_str v "draw" || is_str v "stop" || is_str v "rect"
  || is_str v "circle" || is_str v "text" || is_str v "eraser"
  || is_str v "clear".

(** A message as the handlers of render [r] build it: a drawing action
    names the current tool and carries no [emitterSocketId]. *)
Definition builtBy (r : ReactState) (m : Emit) : Prop :=
  match m with
  | EmitDrawingAction data =>
      a_tool data = JStr (tool r) /\ a_emitterSocketId data = JUndef
  | EmitClearCanvas => True
  end.

(** The rectangle and circle actions for a drag from [p] to [q] under
    the settings of render [r]. *)
Definition rectFrom (fp : Doubles) (r : ReactState) (p q : Pos) : Action :=
  mkAction (JStr "rect") (JStr "rectangle") (JNum (px p)) (JNum (py p))
           (JNum (dsub fp (px q) (px p))) (JNum (dsub fp (py q) (py p)))
           JUndef
           (JStr (color r)) (JNum (lineWidth r)) JUndef JUndef JUndef.

Definition circleFrom (fp : Doubles) (r : ReactState) (p q : Pos) : Action :=
  mkAction (JStr "circle") (JStr "circle") (JNum (px p)) (JNum (py p))
           JUndef JUndef
           (JNum (dsqrt fp (dadd fp (dsquare fp (dsub fp (px q) (px p)))
                                    (dsquare fp (dsub fp (py q) (py p))))))
           (JStr (color r)) (JNum (lineWidth r)) JUndef JUndef JUndef.

Definition shapeFrom (fp : Doubles) (r : ReactState) (p q : Pos) : Action :=
  if String.eqb (tool r) "rectangle" then rectFrom fp r p q
  else circleFrom fp r p q.

(** The property writes among the context calls. *)
Definition isStyleWrite (op : CtxOp) : bool :=
  match op with
  | SetStrokeStyle _ | SetFillStyle _ | SetLineWidth _ | SetLineCap _
  | SetFont _ => true
  | _ => false
  end.

(** The calls of a log that are not property writes. *)
Definition pathAndPaint (l : list (string * CtxOp)) : list (string * CtxOp) :=
  filter (fun mo => negb (isStyleWrite (snd mo))) l.

(** The actions a pen or eraser stroke sends. *)
Definition strokeActions (r : ReactState) (p : Pos) (moves : list Pos)
  : list Action :=
  startAction r p :: map (drawActionOf r) moves ++ [stopAction r].

(** The path through the press point and the moves, stroked segment by
    segment and closed. *)
Definition strokePath (p : Pos) (moves : list Pos) : list CtxOp :=
  BeginPath :: MoveTo (JNum (px p)) (JNum (py p))
  :: flat_map (fun q => [LineTo (JNum (px q)) (JNum (py q)); Stroke]) moves
  ++ [ClosePath].

(** The action types the gesture handlers build. *)
Definition sentType (v : JsVal) : bool :=
  is_str v "start" || is_str v "draw" || is_str v "stop" || is_str v "rect"
  || is_str v "circle" || is_str v "text".

(** The snapshots, the outbox and the canvas of a client. *)
Definition holdings (c : Client)
  : list string * list Emit * option Context2D :=
  (history (state c), outbox c, context c).

End Gesture.

(* ================================================================== *)
(** ** Colour and width controls *)

Module Controls.

Import Canvas.

(** The three inputs of the toolbar: the colour picker and the two
    sliders, with the value their [onChange] passes on. *)
Inductive Setting : Type :=
| Colour (value : string)
| LineWidth (value : Q)
| EraserWidth (value : Q).

(** [setColor], [setLineWidth], [setEraserWidth]. *)
Definition applySetting (s : Setting) : Client -> Client :=
  withState (fun r =>
    match s with
    | Colour v =>
        mkReact (isDrawing r) (tool r) v (lineWidth r) (eraserWidth r)
                (startPos r) (currentPos r) (history r) (historyStep r)
                (previewMode r)
    | LineWidth v =>
        mkReact (isDrawing r) (tool r) (color r) v (eraserWidth r)
                (startPos r) (currentPos r) (history r) (historyStep r)
                (previewMode r)
    | EraserWidth v =>
        mkReact (isDrawing r) (tool r) (color r) (lineWidth r) v
                (startPos r) (currentPos r) (history r) (historyStep r)
                (previewMode r)
    end).

(** The setter is given the value the state already has: no re-render. *)
Definition sameValue (s : Setting) (r : ReactState) : bool :=
  match s with
  | Colour v => String.eqb (color r) v
  | LineWidth v => Qeq_bool (lineWidth r) v
  | EraserWidth v => Qeq_bool (eraserWidth r) v
  end.

(** The socket effect run again: its cleanup disconnects the socket,
    [io(SOCKET_SERVER_URL)] gives a new one, known to the server as
    [newId], and the listeners registered on it belong to the current
    render. *)
Definition resubscribe (newId : string) (c : Client) : Client :=
  mkClient (state c) (state c) (touched c) (isApplyingRemoteAction c)
           (context c) (Some newId) (outbox c).


Section Change.

Variable fp : Doubles.

(** A change of the colour or of a width.  [color], [lineWidth] and
    [eraserWidth] are dependencies of [applyDrawingAction], itself a
    dependency of the socket effect, so a changed value runs that effect
    again along with the others of the re-render. *)
Definition changeSetting (s : Setting) (newId : string) (c : Client) : Client :=
  if sameValue s (state c) then c
  else commit fp (state c) (resubscribe newId (applySetting s c)).

End Change.

End Controls.

(* ================================================================== *)
(** ** More concrete inputs *)

Module MoreExamples.

Import Canvas Examples.

(** The mounted client with the rectangle tool selected. *)
Definition rectClient : Client :=
  run countCalls exact negativeRadius (mounted "A")
      [InitTimer; SelectTool "rectangle"].

(** The same with the button held down at (1, 1). *)
Definition dragging : Client :=
  run countCalls exact negativeRadius (mounted "A")
      [InitTimer; SelectTool "rectangle"; MouseDown (mkPos 1 1) JNull].

(** A component whose canvas is not there. *)
Definition noCanvas : Client :=
  mkClient initialState initialState untouched false None (Some "A") [].

(** Other settings than the initial ones. *)
Definition otherSettings : ReactState :=
  mkReact false "eraser" "#ff0000" 9 30 (mkPos 0 0) (mkPos 0 0) [] (-1) false.

(** A draw action that names socket A as its emitter. *)
Definition ownAction : Action :=
  mkAction (JStr "draw") (JStr "pen") (JNum 3) (JNum 3) JUndef JUndef
           JUndef (JStr "#000000") (JNum 5) JUndef JUndef (JStr "A").

(** A server with sockets A and B connected and an empty log. *)
Definition twoSockets : Server.State := Server.mkState [] ["A"; "B"].

End MoreExamples.

(* ================================================================== *)
(** * Properties of the relay server *)

Section ServerFacts.

Import Server.

Lemma lastn_all {A} (n : nat) (l : list A) :
  (List.length l <= n)%nat -> lastn n l = l.
Proof.
  intros H. unfold lastn.
  replace (List.length l - n)%nat with 0%nat by lia. reflexivity.
Qed.

Lemma lastn_length {A} (n : nat) (l : list A) :
  List.length (lastn n l) = Nat.min (List.length l) n.
Proof. unfold lastn. rewrite length_skipn. lia. Qed.

Lemma lastn_min {A} (n : nat) (l : list A) :
  lastn (Nat.min (List.length l) n) l = lastn n l.
Proof.
  unfold lastn. f_equal. lia.
Qed.

Lemma tl_skipn {A} (k : nat) (l : list A) :
  tl (skipn k l) = skipn (S k) l.
Proof.
  revert l. induction k as [|k IH]; intros [|x l]; simpl; auto.
Qed.

Lemma push_bounded_below (h : list Action) (a : Action) :
  (List.length h < MAX_HISTORY_LENGTH)%nat -> push_bounded h a = h ++ [a].
Proof.
  intros H. unfold push_bounded. cbv zeta.
  destruct (Nat.ltb_spec MAX_HISTORY_LENGTH (List.length (h ++ [a]))) as [L|L];
    [rewrite length_app in L; simpl in L; lia | reflexivity].
Qed.

Lemma push_bounded_full (h : list Action) (a : Action) :
  (MAX_HISTORY_LENGTH <= List.length h)%nat -> push_bounded h a = tl h ++ [a].
Proof.
  intros H. unfold push_bounded. cbv zeta.
  destruct (Nat.ltb_spec MAX_HISTORY_LENGTH (List.length (h ++ [a]))) as [L|L].
  - destruct h; [simpl in H; unfold MAX_HISTORY_LENGTH in H; lia | reflexivity].
  - rewrite length_app in L; simpl in L; lia.
Qed.

Lemma push_bounded_length (h : list Action) (a : Action) :
  (List.length h <= MAX_HISTORY_LENGTH)%nat ->
  (List.length (push_bounded h a) <= MAX_HISTORY_LENGTH)%nat.
Proof.
  intros H.
  destruct (Nat.eq_dec (List.length h) MAX_HISTORY_LENGTH) as [E|E].
  - rewrite push_bounded_full by lia.
    rewrite length_app. simpl.
    destruct h; simpl in *; [unfold MAX_HISTORY_LENGTH in E; lia | lia].
  - rewrite push_bounded_below by lia.
    rewrite length_app. simpl. lia.
Qed.

(** Appending to the last 200 of a sequence gives the last 200 of the
    extended sequence. *)
Lemma push_bounded_lastn (l : list Action) (a : Action) :
  push_bounded (lastn MAX_HISTORY_LENGTH l) a
  = lastn MAX_HISTORY_LENGTH (l ++ [a]).
Proof.
  destruct (Nat.lt_ge_cases (List.length l) MAX_HISTORY_LENGTH) as [L|L].
  - rewrite (@lastn_all _ MAX_HISTORY_LENGTH l) by lia.
    rewrite push_bounded_below by exact L.
    symmetry. apply lastn_all. rewrite length_app. simpl. lia.
  - rewrite push_bounded_full
      by (rewrite lastn_length; lia).
    unfold lastn. rewrite tl_skipn, length_app. simpl.
    replace (List.length l + 1 - MAX_HISTORY_LENGTH)%nat
      with (S (List.length l - MAX_HISTORY_LENGTH)) by lia.
    rewrite skipn_app.
    replace (S (List.length l - MAX_HISTORY_LENGTH) - List.length l)%nat
      with 0%nat by (unfold MAX_HISTORY_LENGTH in *; lia).
    reflexivity.
Qed.

Lemma step_history (st : State) (e : Event) (l : list Action) :
  drawingActionsHistory st = lastn MAX_HISTORY_LENGTH l ->
  drawingActionsHistory (fst (step st e))
  = lastn MAX_HISTORY_LENGTH (l ++ appended e).
Proof.
  intros H. destruct e; simpl; rewrite ?app_nil_r; auto;
    rewrite H; apply push_bounded_lastn.
Qed.

Lemma run_cons (st : State) (e : Event) (evs : list Event) :
  run st (e :: evs)
  = (fst (run (fst (step st e)) evs),
     snd (step st e) ++ snd (run (fst (step st e)) evs)).
Proof.
  simpl. destruct (step st e) as [st1 out1]. simpl.
  destruct (run st1 evs) as [st2 out2]. reflexivity.
Qed.

Lemma run_app (st : State) (evs1 evs2 : list Event) :
  fst (run st (evs1 ++ evs2)) = fst (run (fst (run st evs1)) evs2).
Proof.
  revert st. induction evs1 as [|e evs1 IH]; intros st.
  - reflexivity.
  - rewrite <- app_comm_cons, !run_cons. simpl. apply IH.
Qed.

Lemma run_history (evs : list Event) (st : State) (l : list Action) :
  drawingActionsHistory st = lastn MAX_HISTORY_LENGTH l ->
  drawingActionsHistory (fst (run st evs))
  = lastn MAX_HISTORY_LENGTH (l ++ flat_map appended evs).
Proof.
  revert st l. induction evs as [|e evs IH]; intros st l H.
  - simpl. rewrite app_nil_r. exact H.
  - rewrite run_cons. simpl fst.
    rewrite (IH _ (l ++ appended e)) by (apply step_history; exact H).
    rewrite <- app_assoc. reflexivity.
Qed.

Lemma flat_map_submissions (s : SocketId) (acts : list Action) :
  flat_map appended (map (OnDrawingAction s) acts) = acts.
Proof.
  induction acts as [|a acts IH]; simpl; [reflexivity | now rewrite IH].
Qed.

Lemma broadcast_emit_spec (st : State) (s r : SocketId) (m m' : Msg) :
  In (r, m') (broadcast_emit st s m)
  <-> (m' = m /\ In r (sockets st) /\ r <> s).
Proof.
  unfold broadcast_emit. rewrite in_map_iff. split.
  - intros [r0 [E I]]. inversion E; subst. apply filter_In in I.
    destruct I as [I N]. repeat split; auto.
    intros ->. rewrite String.eqb_refl in N. discriminate.
  - intros [-> [I N]]. exists r. split; [reflexivity|].
    apply filter_In. split; [exact I|].
    destruct (String.eqb_spec r s); [contradiction | reflexivity].
Qed.

End ServerFacts.

Section ServerClaims.

Import Server.

(** C1.  After one session has submitted the actions [acts] to a fresh
    server, a client that connects is sent one message, addressed to it
    alone: the replay of the last [min N 200] of [acts], a suffix of
    [acts] in submission order; nothing is sent when [acts] is empty.
    A replay is only ever delivered to a socket by its own connection
    event, carries the whole log, and is never empty; a connection
    produces at most one delivery. *)
Theorem C1_late_joiner_replay :
  forall (socks : list SocketId) (s joiner : SocketId) (acts : list Action),
    let st := fst (run (mkState [] socks) (map (OnDrawingAction s) acts)) in
    let replayed := lastn (Nat.min (List.length acts) 200) acts in
    snd (step st (Connection joiner))
    = match acts with
      | [] => []
      | _ :: _ => [(joiner, InitialDrawingHistory replayed)]
      end
    /\ List.length replayed = Nat.min (List.length acts) 200
    /\ (exists older, acts = older ++ replayed)
    /\ (forall st' e r l,
           In (r, InitialDrawingHistory l) (snd (step st' e)) ->
           e = Connection r /\ l = drawingActionsHistory st' /\ l <> [])
    /\ (forall st' r, (List.length (snd (step st' (Connection r))) <= 1)%nat).
Proof.
  intros socks s joiner acts st replayed.
  assert (Hh : drawingActionsHistory st = lastn MAX_HISTORY_LENGTH acts).
  { unfold st.
    rewrite run_history with (l := []) by reflexivity.
    rewrite flat_map_submissions. reflexivity. }
  assert (Hr : replayed = lastn MAX_HISTORY_LENGTH acts)
    by (unfold replayed; apply lastn_min).
  clearbody st replayed.
  split; [|split; [|split; [|split]]].
  - simpl. rewrite Hh, Hr.
    destruct acts as [|a acts']; [reflexivity|].
    destruct (lastn MAX_HISTORY_LENGTH (a :: acts')) eqn:E; [|reflexivity].
    apply (f_equal (@List.length _)) in E. rewrite lastn_length in E.
    simpl in E. unfold MAX_HISTORY_LENGTH in E. lia.
  - rewrite Hr, lastn_length. reflexivity.
  - exists (firstn (List.length acts - MAX_HISTORY_LENGTH) acts).
    rewrite Hr. unfold lastn. symmetry. apply firstn_skipn.
  - intros st' e r l H.
    destruct e as [s0|s0 d|s0|s0]; simpl in H.
    + destruct (drawingActionsHistory st') as [|a0 h0] eqn:E;
        simpl in H; [contradiction|].
      destruct H as [H|[]]. inversion H. subst.
      repeat split; congruence.
    + apply broadcast_emit_spec in H. destruct H as [H _]. discriminate.
    + apply broadcast_emit_spec in H. destruct H as [H _]. discriminate.
    + contradiction.
  - intros st' r. simpl. destruct (drawingActionsHistory st'); simpl; lia.
Qed.

(** C2.  A submitted action, and the clear action synthesised for a clear
    signal, is delivered to exactly the connected sockets other than the
    one it came from: never to its origin, and to every other one. *)
Theorem C2_no_echo_to_origin :
  forall (st : State) (s : SocketId) (data : Action),
    (forall r m,
        In (r, m) (snd (step st (OnDrawingAction s data)))
        <-> (m = DrawingAction data /\ In r (sockets st) /\ r <> s))
    /\ (forall r m,
        In (r, m) (snd (step st (OnClearCanvas s)))
        <-> (m = DrawingAction clearAction /\ In r (sockets st) /\ r <> s))
    /\ (forall m, ~ In (s, m) (snd (step st (OnDrawingAction s data))))
    /\ (forall m, ~ In (s, m) (snd (step st (OnClearCanvas s)))).
Proof.
  intros st s data.
  split; [|split; [|split]].
  - intros r m. simpl. rewrite broadcast_emit_spec. reflexivity.
  - intros r m. simpl. rewrite broadcast_emit_spec. reflexivity.
  - intros m H. simpl in H. apply broadcast_emit_spec in H. tauto.
  - intros m H. simpl in H. apply broadcast_emit_spec in H. tauto.
Qed.

(** C3.  In every state the server reaches, and after any further
    message: the log holds at most 200 entries; it is the last 200 of
    all actions appended so far, in arrival order; and a submit-action
    or clear signal appends its action, dropping the oldest entry first
    exactly when the log was full. *)
Theorem C3_history_log_bounded_fifo :
  forall (evs : list Event) (e : Event),
    let st := fst (run init evs) in
    let st' := fst (step st e) in
    (List.length (drawingActionsHistory st') <= 200)%nat
    /\ drawingActionsHistory st'
       = lastn 200 (flat_map appended (evs ++ [e]))
    /\ (forall a, appended e = [a] ->
          drawingActionsHistory st'
          = if (List.length (drawingActionsHistory st) <? 200)%nat
            then drawingActionsHistory st ++ [a]
            else tl (drawingActionsHistory st) ++ [a]).
Proof.
  intros evs e st st'.
  assert (Hst : drawingActionsHistory st
                = lastn MAX_HISTORY_LENGTH (flat_map appended evs)).
  { unfold st. apply run_history with (l := []). reflexivity. }
  assert (Hst' : drawingActionsHistory st'
                 = lastn MAX_HISTORY_LENGTH (flat_map appended (evs ++ [e]))).
  { unfold st'. rewrite flat_map_app. simpl. rewrite app_nil_r.
    apply step_history. exact Hst. }
  split; [|split].
  - rewrite Hst', lastn_length. unfold MAX_HISTORY_LENGTH. lia.
  - exact Hst'.
  - intros a Ha.
    assert (Hp : drawingActionsHistory st'
                 = push_bounded (drawingActionsHistory st) a).
    { unfold st'. destruct e; simpl in Ha; try discriminate;
        inversion Ha; subst; reflexivity. }
    rewrite Hp.
    assert (Hlen : (List.length (drawingActionsHistory st) <= 200)%nat).
    { rewrite Hst, lastn_length. unfold MAX_HISTORY_LENGTH. lia. }
    destruct (Nat.ltb_spec (List.length (drawingActionsHistory st)) 200).
    + apply push_bounded_below. exact H.
    + apply push_bounded_full. unfold MAX_HISTORY_LENGTH. lia.
Qed.

End ServerClaims.

(* ================================================================== *)
(** * Properties of the action interpreter *)

Section InterpreterFacts.

Import Canvas.

Variable arcThrows : CtxOp -> bool.

Local Abbreviation applyDrawingActionOutcome :=
  (applyDrawingActionOutcome arcThrows).
Local Abbreviation applyDrawingAction := (applyDrawingAction arcThrows).
Local Abbreviation applyEach := (applyEach arcThrows).
Local Abbreviation shapeCalls := (shapeCalls arcThrows).
Local Abbreviation raises := (raises arcThrows).
Local Abbreviation applies := (applies arcThrows).
Local Abbreviation rendering := (rendering arcThrows).

Lemma calls_call (op : CtxOp) (x : Context2D) :
  calls (call op x) = calls x ++ [(globalCompositeOperation x, op)].
Proof. reflexivity. Qed.

Lemma mode_call (op : CtxOp) (x : Context2D) :
  globalCompositeOperation (call op x) = globalCompositeOperation x.
Proof. reflexivity. Qed.

Ltac by_type data :=
  repeat match goal with
         | |- context [is_str (a_type data) ?lit] =>
             destruct (is_str (a_type data) lit)
         end;
  cbn [orb andb negb];
  repeat match goal with
         | |- context [arcThrows ?op] => destruct (arcThrows op)
         end.

(** The interpreter raises exactly when its [arc] does. *)
Lemma applyDrawingAction_raised (r : ReactState) (data : Action)
      (x : Context2D) :
  raised (applyDrawingActionOutcome r data x) = raises r data.
Proof.
  unfold Canvas.applyDrawingActionOutcome, Canvas.raises.
  by_type data; reflexivity.
Qed.

Lemma outcome_returned (r : ReactState) (data : Action) (x : Context2D) :
  raises r data = false ->
  applyDrawingActionOutcome r data x = Returned (applyDrawingAction r data x).
Proof.
  intros H. rewrite <- (applyDrawingAction_raised r data x) in H.
  unfold Canvas.applyDrawingAction.
  destruct (applyDrawingActionOutcome r data x); [reflexivity|discriminate].
Qed.


(** The interpreter only appends calls: the five style writes under the
    mode it found, then the calls of the action's type under
    [renderMode]. *)
Lemma applyDrawingAction_calls (r : ReactState) (data : Action) (x : Context2D) :
  calls (applyDrawingAction r data x)
  = calls x
    ++ map (pair (globalCompositeOperation x)) (styleWrites r data)
    ++ map (pair (renderMode data x)) (shapeCalls r data).
Proof.
  unfold Canvas.applyDrawingAction, Canvas.applyDrawingActionOutcome,
    Canvas.shapeCalls, Canvas.raises, renderMode, styleWrites.
  destruct (erases data); by_type data;
    cbn [contextOf calls call setComposite globalCompositeOperation map app];
    rewrite <- ?app_assoc; cbn [app]; reflexivity.
Qed.

(** The interpreter leaves the compositing mode as it found it, unless
    it raises while erasing. *)
Lemma applyDrawingAction_mode_gen (r : ReactState) (data : Action)
      (x : Context2D) :
  globalCompositeOperation (applyDrawingAction r data x)
  = if erases data && raises r data then destination_out
    else globalCompositeOperation x.
Proof.
  unfold Canvas.applyDrawingAction, Canvas.applyDrawingActionOutcome,
    Canvas.raises.
  destruct (erases data); by_type data; reflexivity.
Qed.

Lemma applyDrawingAction_mode (r : ReactState) (data : Action) (x : Context2D) :
  raises r data = false ->
  globalCompositeOperation (applyDrawingAction r data x)
  = globalCompositeOperation x.
Proof.
  intros H. rewrite applyDrawingAction_mode_gen, H, andb_false_r.
  reflexivity.
Qed.

(** Only a circle and an eraser point can raise. *)
Lemma raises_arc (r : ReactState) (data : Action) :
  raises r data = true ->
  is_str (a_type data) "circle" = true \/ is_str (a_type data) "eraser" = true.
Proof.
  unfold Canvas.raises.
  repeat match goal with
         | |- context [is_str (a_type data) ?lit] =>
             destruct (is_str (a_type data) lit)
         end; cbn [orb]; auto; discriminate.
Qed.

Lemma callsSince_app (x x' : Context2D) (new : list (string * CtxOp)) :
  calls x' = calls x ++ new -> callsSince x x' = new.
Proof.
  intros H. unfold callsSince. rewrite H, skipn_app, skipn_all, Nat.sub_diag.
  reflexivity.
Qed.

Lemma applyDrawingAction_since (r : ReactState) (data : Action) (x : Context2D) :
  callsSince x (applyDrawingAction r data x)
  = map (pair (globalCompositeOperation x)) (styleWrites r data)
    ++ map (pair (renderMode data x)) (shapeCalls r data).
Proof. apply callsSince_app, applyDrawingAction_calls. Qed.

Lemma applyEach_returned (r : ReactState) (actions : list Action)
      (x : Context2D) :
  applies r actions = true ->
  applyEach r actions x
  = Returned (fold_left (fun x a => applyDrawingAction r a x) actions x).
Proof.
  revert x. induction actions as [|a actions IH]; intros x H; simpl.
  - reflexivity.
  - simpl in H. apply andb_prop in H. destruct H as [Ha H].
    apply negb_true_iff in Ha.
    rewrite outcome_returned by exact Ha. apply IH, H.
Qed.

Lemma fold_apply_mode (r : ReactState) (actions : list Action) (x : Context2D) :
  applies r actions = true ->
  globalCompositeOperation
    (fold_left (fun x a => applyDrawingAction r a x) actions x)
  = globalCompositeOperation x.
Proof.
  revert x. induction actions as [|a actions IH]; intros x H; simpl.
  - reflexivity.
  - simpl in H. apply andb_prop in H. destruct H as [Ha H].
    apply negb_true_iff in Ha.
    rewrite IH by exact H. apply applyDrawingAction_mode, Ha.
Qed.


Lemma fold_apply_eq (r : ReactState) (actions : list Action) (x : Context2D) :
  applies r actions = true ->
  fold_left (fun x a => applyDrawingAction r a x) actions x
  = mkCtx (globalCompositeOperation x)
          (calls x
           ++ flat_map (rendering r (globalCompositeOperation x)) actions).
Proof.
  revert x. induction actions as [|a actions IH]; intros x H; simpl.
  - rewrite app_nil_r. destruct x; reflexivity.
  - simpl in H. apply andb_prop in H. destruct H as [Ha H].
    apply negb_true_iff in Ha.
    rewrite IH by exact H.
    rewrite applyDrawingAction_mode by exact Ha.
    rewrite applyDrawingAction_calls, <- !app_assoc. reflexivity.
Qed.



Lemma or_falsy (a b : JsVal) : truthy a = false -> Js.or a b = b.
Proof. intros H. unfold Js.or. now rewrite H. Qed.

End InterpreterFacts.

(* ================================================================== *)
(** * Claims about the action interpreter *)

Section InterpreterClaims.

Import Canvas Examples Gesture.

Variable arcThrows : CtxOp -> bool.

Local Abbreviation applyDrawingActionOutcome :=
  (applyDrawingActionOutcome arcThrows).
Local Abbreviation applyDrawingAction := (applyDrawingAction arcThrows).
Local Abbreviation shapeCalls := (shapeCalls arcThrows).
Local Abbreviation raises := (raises arcThrows).

Lemma is_str_other (v : JsVal) (a b : string) :
  is_str v a = true -> String.eqb a b = false -> is_str v b = false.
Proof.
  destruct v; simpl; try discriminate.
  intros H N. apply String.eqb_eq in H. subst. exact N.
Qed.




End InterpreterClaims.
(* ================================================================== *)
(** * Properties of the canvas client *)

Section ClientFacts.

Import Canvas.

Variable toDataURL : Context2D -> string.
Variable fp : Doubles.
Variable arcThrows : CtxOp -> bool.

Local Abbreviation saveHistory := (saveHistory toDataURL).
Local Abbreviation commit := (commit fp).
Local Abbreviation step := (step toDataURL fp arcThrows).
Local Abbreviation handle := (handle toDataURL fp arcThrows).
Local Abbreviation applyDrawingActionOutcome :=
  (applyDrawingActionOutcome arcThrows).
Local Abbreviation applyDrawingAction := (applyDrawingAction arcThrows).
Local Abbreviation applyEach := (applyEach arcThrows).
Local Abbreviation onDrawingAction := (onDrawingAction toDataURL arcThrows).
Local Abbreviation onInitialDrawingHistory :=
  (onInitialDrawingHistory toDataURL arcThrows).
Local Abbreviation shapeCalls := (shapeCalls arcThrows).
Local Abbreviation raises := (raises arcThrows).
Local Abbreviation applies := (applies arcThrows).
Local Abbreviation rendering := (rendering arcThrows).

Ltac split_ifs :=
  repeat match goal with
         | |- context [if ?b then _ else _] => destruct b
         | |- context [match ?o with Some _ => _ | None => _ end] => destruct o
         | |- context [match ?o with Returned _ => _ | Raised _ => _ end] =>
             destruct o
         end.

Lemma sameOutsideCanvas_refl (c : Client) : sameOutsideCanvas c c.
Proof. repeat split. Qed.

Lemma sameOutsideCanvas_trans (c1 c2 c3 : Client) :
  sameOutsideCanvas c1 c2 -> sameOutsideCanvas c2 c3 -> sameOutsideCanvas c1 c3.
Proof.
  unfold sameOutsideCanvas. intros (A & B & C & D & E) (A' & B' & C' & D' & E').
  repeat split; congruence.
Qed.

Lemma withContext_same (f : Context2D -> Context2D) (c : Client) :
  sameOutsideCanvas c (withContext f c).
Proof. repeat split. Qed.

Lemma withTouched_same (f : Touched -> Touched) (c : Client) :
  sameOutsideCanvas c (withTouched f c).
Proof. repeat split. Qed.

Lemma restoreHistory_same (r : ReactState) (c : Client) :
  sameOutsideCanvas c (restoreHistory r c).
Proof. unfold restoreHistory. split_ifs; repeat split. Qed.

Lemma restoreEffect_same (r : ReactState) (c : Client) :
  sameOutsideCanvas c (restoreEffect r c).
Proof.
  unfold restoreEffect. split_ifs;
    [apply restoreHistory_same | apply sameOutsideCanvas_refl].
Qed.

Lemma drawShapePreview_same (r : ReactState) (c : Client) :
  sameOutsideCanvas c (drawShapePreview fp r c).
Proof. unfold drawShapePreview. split_ifs; repeat split. Qed.

Lemma settingsEffect_same (r : ReactState) (c : Client) :
  sameOutsideCanvas c (settingsEffect r c).
Proof. repeat split. Qed.

(** The re-render changes nothing but the canvas, and forgets the
    setter calls. *)
Lemma commit_same (old : ReactState) (c : Client) :
  sameOutsideCanvas c (commit old c).
Proof.
  unfold Canvas.commit. cbv zeta.
  eapply sameOutsideCanvas_trans; [|apply withTouched_same].
  eapply sameOutsideCanvas_trans;
    [|destruct (_ || _ : bool);
      [apply drawShapePreview_same | apply sameOutsideCanvas_refl]].
  eapply sameOutsideCanvas_trans;
    [|destruct (_ || _ : bool);
      [apply restoreEffect_same | apply sameOutsideCanvas_refl]].
  destruct (_ || _ : bool);
    [apply settingsEffect_same | apply sameOutsideCanvas_refl].
Qed.

Lemma commit_state (old : ReactState) (c : Client) :
  state (commit old c) = state c.
Proof. apply commit_same. Qed.

Lemma commit_outbox (old : ReactState) (c : Client) :
  outbox (commit old c) = outbox c.
Proof. apply commit_same. Qed.

Lemma commit_touched (old : ReactState) (c : Client) :
  touched (commit old c) = untouched.
Proof. reflexivity. Qed.

Lemma Qeq_bool_same (q : Q) : Qeq_bool q q = true.
Proof. apply Qeq_bool_iff. reflexivity. Qed.

(** With no state change and no setter call, no effect runs. *)
Lemma commit_idle (c : Client) :
  touched c = untouched -> commit (state c) c = c.
Proof.
  intros H. unfold Canvas.commit. cbv zeta. rewrite H. simpl.
  rewrite Z.eqb_refl, !String.eqb_refl, !Qeq_bool_same, !Bool.eqb_reflx.
  simpl. destruct c; simpl in *. subst. reflexivity.
Qed.

(** *** The snapshot history under the handlers *)

Lemma slice0_firstn {A} (l : list A) (e : Z) :
  0 <= e -> slice0 l e = firstn (Z.to_nat e) l.
Proof.
  intros H. unfold slice0.
  destruct (Z.ltb_spec e 0) as [L|L]; [lia|].
  destruct (Z.le_gt_cases e (Z.of_nat (List.length l))) as [B|B].
  - rewrite Z.min_l by lia. reflexivity.
  - rewrite Z.min_r by lia. rewrite Nat2Z.id.
    rewrite !firstn_all2 by lia. reflexivity.
Qed.

Lemma saveHistory_history (r : ReactState) (c : Client) (x : Context2D) :
  context c = Some x ->
  history (state (saveHistory r c))
  = slice0 (history r) (historyStep r + 1) ++ [toDataURL x].
Proof. intros H. unfold Canvas.saveHistory. rewrite H. reflexivity. Qed.

Lemma saveHistory_step (r : ReactState) (c : Client) (x : Context2D) :
  context c = Some x ->
  historyStep (state (saveHistory r c))
  = Z.of_nat (List.length (history (state (saveHistory r c)))) - 1.
Proof. intros H. unfold Canvas.saveHistory. rewrite H. reflexivity. Qed.

Lemma saveHistory_none (r : ReactState) (c : Client) :
  context c = None -> saveHistory r c = c.
Proof. intros H. unfold Canvas.saveHistory. rewrite H. reflexivity. Qed.


Lemma saveHistory_outbox (r : ReactState) (c : Client) :
  outbox (saveHistory r c) = outbox c.
Proof. unfold Canvas.saveHistory. destruct (context c); reflexivity. Qed.


(** A cursor at the tip makes [handleRedo] return at once. *)
Lemma handleRedo_at_tip (c : Client) :
  historyStep (state c) = Z.of_nat (List.length (history (state c))) - 1 ->
  handleRedo (state c) c = c.
Proof.
  intros H. unfold handleRedo. rewrite H, Z.ltb_irrefl. reflexivity.
Qed.

Lemma handleUndo_at_zero (c : Client) :
  historyStep (state c) = 0 -> handleUndo (state c) c = c.
Proof. intros H. unfold handleUndo. rewrite H. reflexivity. Qed.

Lemma cursorOk_of_tip (r : ReactState) :
  history r <> [] ->
  historyStep r = Z.of_nat (List.length (history r)) - 1 ->
  cursorOk r.
Proof.
  intros N H. split; [contradiction|]. intros _.
  destruct (history r); [contradiction|]. simpl List.length in *. lia.
Qed.

Lemma saveHistory_cursorOk (r : ReactState) (c : Client) :
  cursorOk (state c) -> cursorOk (state (saveHistory r c)).
Proof.
  intros H. destruct (context c) as [x|] eqn:E.
  - apply cursorOk_of_tip.
    + rewrite (saveHistory_history r c E). intros K.
      apply app_eq_nil in K. destruct K as [_ K]. discriminate.
    + apply (saveHistory_step r c E).
  - rewrite saveHistory_none by exact E. exact H.
Qed.

Lemma handleUndo_cursorOk (c : Client) :
  cursorOk (state c) -> cursorOk (state (handleUndo (state c) c)).
Proof.
  intros [H0 H1]. unfold handleUndo.
  destruct (Z.ltb_spec 0 (historyStep (state c))) as [L|L]; [|split; assumption].
  destruct c as [[d t co lw ew sp cp h hs pm] sr tc ap cx sk ob].
  simpl in *. split; simpl.
  - intros ->. specialize (H0 eq_refl). lia.
  - intros N. specialize (H1 N). lia.
Qed.

Lemma handleRedo_cursorOk (c : Client) :
  cursorOk (state c) -> cursorOk (state (handleRedo (state c) c)).
Proof.
  intros [H0 H1]. unfold handleRedo.
  destruct (Z.ltb_spec (historyStep (state c))
              (Z.of_nat (List.length (history (state c))) - 1)) as [L|L];
    [|split; assumption].
  destruct c as [[d t co lw ew sp cp h hs pm] sr tc ap cx sk ob].
  simpl in *. split; simpl.
  - intros ->. simpl in L. specialize (H0 eq_refl). lia.
  - intros N. specialize (H1 N). lia.
Qed.

(** Updates that leave the snapshot history alone keep the invariant. *)
Lemma withContext_cursorOk (f : Context2D -> Context2D) (c : Client) :
  cursorOk (state c) -> cursorOk (state (withContext f c)).
Proof. exact (fun H => H). Qed.

Lemma setApplying_cursorOk (b : bool) (c : Client) :
  cursorOk (state c) -> cursorOk (state (setApplying b c)).
Proof. exact (fun H => H). Qed.

Lemma emit_cursorOk (m : Emit) (c : Client) :
  cursorOk (state c) -> cursorOk (state (emit m c)).
Proof. unfold emit. destruct (socket c); exact (fun H => H). Qed.

Lemma setIsDrawing_cursorOk (b : bool) (c : Client) :
  cursorOk (state c) -> cursorOk (state (setIsDrawing b c)).
Proof. exact (fun H => H). Qed.

Lemma setTool_cursorOk (t : string) (c : Client) :
  cursorOk (state c) -> cursorOk (state (setTool t c)).
Proof. exact (fun H => H). Qed.

Lemma setStartPos_cursorOk (p : Pos) (c : Client) :
  cursorOk (state c) -> cursorOk (state (setStartPos p c)).
Proof. exact (fun H => H). Qed.

Lemma setCurrentPos_cursorOk (p : Pos) (c : Client) :
  cursorOk (state c) -> cursorOk (state (setCurrentPos p c)).
Proof. exact (fun H => H). Qed.

Lemma setPreviewMode_cursorOk (b : bool) (c : Client) :
  cursorOk (state c) -> cursorOk (state (setPreviewMode b c)).
Proof. exact (fun H => H). Qed.

Create HintDb cursor.
Hint Resolve withContext_cursorOk setApplying_cursorOk emit_cursorOk
  setIsDrawing_cursorOk setTool_cursorOk setStartPos_cursorOk
  setCurrentPos_cursorOk setPreviewMode_cursorOk saveHistory_cursorOk
  handleUndo_cursorOk handleRedo_cursorOk : cursor.

Lemma fold_apply_cursorOk (r : ReactState) (actions : list Action) (c : Client) :
  cursorOk (state c) ->
  cursorOk (state (fold_left
                     (fun c action => withContext (applyDrawingAction r action) c)
                     actions c)).
Proof.
  revert c. induction actions as [|a actions IH]; intros c H; simpl.
  - exact H.
  - apply IH. auto with cursor.
Qed.

Lemma handle_cursorOk (e : Event) (c : Client) :
  cursorOk (state c) -> cursorOk (state (handle e c)).
Proof.
  intros H. destruct e; simpl.
  - auto with cursor.
  - auto with cursor.
  - unfold startDrawing. split_ifs; auto 12 with cursor.
  - unfold draw. split_ifs; auto 12 with cursor.
  - unfold stopDrawing. split_ifs; auto 12 with cursor.
  - auto with cursor.
  - auto with cursor.
  - unfold handleClear. split_ifs; auto with cursor.
  - unfold Canvas.onInitialDrawingHistory, setContext.
    split_ifs; auto with cursor.
  - unfold Canvas.onDrawingAction, setContext. split_ifs; auto with cursor.
Qed.

Lemma step_cursorOk (e : Event) (c : Client) :
  cursorOk (state c) -> cursorOk (state (step c e)).
Proof.
  intros H. unfold Canvas.step. rewrite commit_state.
  apply handle_cursorOk. exact H.
Qed.

Lemma emit_state (m : Emit) (c : Client) : state (emit m c) = state c.
Proof. unfold emit. destruct (socket c); reflexivity. Qed.

Lemma emit_context (m : Emit) (c : Client) : context (emit m c) = context c.
Proof. unfold emit. destruct (socket c); reflexivity. Qed.

Lemma commit_keeps_canvas (old : ReactState) (c : Client) :
  context c <> None -> context (commit old c) <> None.
Proof.
  intros H. unfold Canvas.commit, settingsEffect, restoreEffect,
    restoreHistory, drawShapePreview. cbv zeta.
  destruct (context c) as [x|] eqn:E; [clear H|contradiction].
  destruct c as [st sr tc ap cx sk ob]. simpl in E. subst cx.
  split_ifs; simpl; discriminate.
Qed.

(** Redo at the tip, between two events, changes nothing at all. *)
Lemma step_redo_at_tip (c : Client) :
  touched c = untouched ->
  historyStep (state c) = Z.of_nat (List.length (history (state c))) - 1 ->
  step c Redo = c.
Proof.
  intros T H. unfold Canvas.step. simpl.
  rewrite handleRedo_at_tip by exact H. apply commit_idle, T.
Qed.

Lemma step_undo_at_zero (c : Client) :
  touched c = untouched -> historyStep (state c) = 0 -> step c Undo = c.
Proof.
  intros T H. unfold Canvas.step. simpl.
  rewrite handleUndo_at_zero by exact H. apply commit_idle, T.
Qed.

(** A clear with a canvas at hand leaves the cursor at the tip. *)
Lemma step_clear_tip (c : Client) :
  context c <> None ->
  historyStep (state (step c Clear))
  = Z.of_nat (List.length (history (state (step c Clear)))) - 1.
Proof.
  intros H. unfold Canvas.step. rewrite commit_state. simpl.
  unfold handleClear.
  destruct (context c) as [x|] eqn:E; [|contradiction].
  rewrite emit_state.
  apply saveHistory_step with (x := call ClearRect x).
  simpl. rewrite E. reflexivity.
Qed.

(* ================================================================== *)
(** * Claims about the snapshot history *)

(** With a canvas to export, the [saveHistory] of render [r] keeps the
    entries of that render's history at indices 0 to its cursor, appends
    the new snapshot and moves the cursor to the last index; redo then
    returns at once.  In particular after an undo and a clear a redo
    changes nothing. *)
Lemma saveHistory_truncates (r : ReactState) (c : Client) (x : Context2D) :
    context c = Some x ->
    -1 <= historyStep r ->
    let c' := saveHistory r c in
    history (state c')
    = firstn (Z.to_nat (historyStep r + 1)) (history r) ++ [toDataURL x]
    /\ historyStep (state c') = Z.of_nat (List.length (history (state c'))) - 1
    /\ handleRedo (state c') c' = c'
    /\ (let c2 := step (step c Undo) Clear in step c2 Redo = c2).
Proof.
  intros Hx Hr c'.
  assert (Hs : historyStep (state c')
               = Z.of_nat (List.length (history (state c'))) - 1)
    by (apply (saveHistory_step r c Hx)).
  split; [|split; [|split]].
  - unfold c'. rewrite (saveHistory_history r c Hx).
    rewrite slice0_firstn by lia. reflexivity.
  - exact Hs.
  - apply handleRedo_at_tip, Hs.
  - intros c2. apply step_redo_at_tip; [reflexivity|].
    apply step_clear_tip. unfold Canvas.step. apply commit_keeps_canvas.
    simpl. unfold handleUndo. split_ifs; simpl; rewrite Hx; discriminate.
Qed.

(** C6.  The cursor invariant (cursor -1 on an empty history, within
    bounds otherwise) is kept by [saveHistory], [handleUndo],
    [handleRedo] and by every event; undo at cursor 0 and redo at the
    last index return the client as it was, canvas included. *)
Theorem C6_cursor_invariant :
  forall (c : Client),
    cursorOk (state c) ->
    (forall r, cursorOk (state (saveHistory r c)))
    /\ cursorOk (state (handleUndo (state c) c))
    /\ cursorOk (state (handleRedo (state c) c))
    /\ (forall e, cursorOk (state (step c e)))
    /\ (historyStep (state c) = 0 ->
        handleUndo (state c) c = c
        /\ (touched c = untouched -> step c Undo = c))
    /\ (historyStep (state c) = Z.of_nat (List.length (history (state c))) - 1 ->
        handleRedo (state c) c = c
        /\ (touched c = untouched -> step c Redo = c)).
Proof.
  intros c H.
  split; [|split; [|split; [|split; [|split]]]].
  - intros r. apply saveHistory_cursorOk, H.
  - apply handleUndo_cursorOk, H.
  - apply handleRedo_cursorOk, H.
  - intros e. apply step_cursorOk, H.
  - intros Z0. split; [apply handleUndo_at_zero, Z0|].
    intros T. apply step_undo_at_zero; assumption.
  - intros Tip. split; [apply handleRedo_at_tip, Tip|].
    intros T. apply step_redo_at_tip; assumption.
Qed.

(** Every state the mounted component reaches satisfies the invariant. *)
Lemma reachable_cursorOk (id : string) (evs : list Event) :
  cursorOk (state (run toDataURL fp arcThrows (mounted id) evs)).
Proof.
  unfold run.
  assert (H : cursorOk (state (mounted id)))
    by (split; [reflexivity | intros N; contradiction N; reflexivity]).
  revert H. generalize (mounted id).
  induction evs as [|e evs IH]; intros c H; simpl.
  - exact H.
  - apply IH, step_cursorOk, H.
Qed.

(* ================================================================== *)
(** * Claims about the socket listeners *)





(* ================================================================== *)
(** * Claims about undo and redo *)

Lemma index_some {A} (l : list A) (i : Z) (a : A) :
  Js.index l i = Some a -> 0 <= i < Z.of_nat (List.length l).
Proof.
  unfold Js.index. destruct (Z.ltb_spec i 0) as [L|L]; [discriminate|].
  intros H. assert (K : nth_error l (Z.to_nat i) <> None) by congruence.
  apply nth_error_Some in K. lia.
Qed.

(** The re-render after the cursor alone moved, with no gesture in
    progress: the snapshot under the new cursor is drawn on the cleared
    canvas. *)
Lemma commit_cursor_moved (old : ReactState) (c : Client)
      (x : Context2D) (snap : string) :
  touched c = untouched ->
  isDrawing (state c) = false ->
  isDrawing old = false ->
  tool old = tool (state c) ->
  color old = color (state c) ->
  lineWidth old = lineWidth (state c) ->
  eraserWidth old = eraserWidth (state c) ->
  previewMode old = previewMode (state c) ->
  historyStep old <> historyStep (state c) ->
  context c = Some x ->
  Js.index (history (state c)) (historyStep (state c)) = Some snap ->
  commit old c
  = mkClient (state c) (sockRender c) untouched (isApplyingRemoteAction c)
             (Some (call (DrawImage snap) (call ClearRect x)))
             (socket c) (outbox c).
Proof.
  intros T D D' Ht Hc Hl He Hp Hs Hx Hi.
  pose proof (index_some _ _ Hi) as B.
  unfold Canvas.commit. cbv zeta.
  rewrite T, Ht, Hc, Hl, He, Hp, D, D'.
  rewrite !String.eqb_refl, !Qeq_bool_same, !Bool.eqb_reflx.
  replace (historyStep old =? historyStep (state c)) with false
    by (symmetry; apply Z.eqb_neq; exact Hs).
  cbn [negb orb t_history t_startPos t_currentPos untouched].
  unfold restoreEffect, inHistory, restoreHistory.
  replace (0 <? Z.of_nat (List.length (history (state c)))) with true
    by (symmetry; apply Z.ltb_lt; lia).
  replace (0 <=? historyStep (state c)) with true
    by (symmetry; apply Z.leb_le; lia).
  replace (historyStep (state c) <? Z.of_nat (List.length (history (state c))))
    with true by (symmetry; apply Z.ltb_lt; lia).
  replace (historyStep (state c) <? 0) with false
    by (symmetry; apply Z.ltb_ge; lia).
  replace (Z.of_nat (List.length (history (state c))) <=? historyStep (state c))
    with false by (symmetry; apply Z.leb_gt; lia).
  cbn [andb orb]. rewrite Hi.
  unfold drawShapePreview. cbn [state withContext]. rewrite D.
  cbn [negb orb]. unfold withTouched, withContext. cbn. rewrite Hx.
  reflexivity.
Qed.

Lemma handleUndo_outbox (r : ReactState) (c : Client) :
  outbox (handleUndo r c) = outbox c.
Proof. unfold handleUndo. split_ifs; reflexivity. Qed.

Lemma handleRedo_outbox (r : ReactState) (c : Client) :
  outbox (handleRedo r c) = outbox c.
Proof. unfold handleRedo. split_ifs; reflexivity. Qed.

(** C9.  Undo and redo send nothing, in any state.  Between gestures,
    a redo with a snapshot after the cursor moves the cursor to it and
    draws that stored snapshot on the cleared canvas, and an undo does
    the same with the snapshot before the cursor; no action is applied
    or submitted again. *)
Theorem C9_undo_redo_are_local :
  forall (c : Client),
    outbox (step c Undo) = outbox c
    /\ outbox (step c Redo) = outbox c
    /\ (forall x snap,
          touched c = untouched ->
          isDrawing (state c) = false ->
          context c = Some x ->
          Js.index (history (state c)) (historyStep (state c) + 1) = Some snap ->
          historyStep (state (step c Redo)) = historyStep (state c) + 1
          /\ history (state (step c Redo)) = history (state c)
          /\ context (step c Redo)
             = Some (call (DrawImage snap) (call ClearRect x)))
    /\ (forall x snap,
          touched c = untouched ->
          isDrawing (state c) = false ->
          context c = Some x ->
          Js.index (history (state c)) (historyStep (state c) - 1) = Some snap ->
          historyStep (state (step c Undo)) = historyStep (state c) - 1
          /\ history (state (step c Undo)) = history (state c)
          /\ context (step c Undo)
             = Some (call (DrawImage snap) (call ClearRect x))).
Proof.
  intros c. split; [|split; [|split]].
  - unfold Canvas.step. rewrite commit_outbox. apply handleUndo_outbox.
  - unfold Canvas.step. rewrite commit_outbox. apply handleRedo_outbox.
  - intros x snap T D Hx Hi.
    pose proof (index_some _ _ Hi) as B.
    unfold Canvas.step. simpl handle. unfold handleRedo.
    replace (historyStep (state c)
             <? Z.of_nat (List.length (history (state c))) - 1)
      with true by (symmetry; apply Z.ltb_lt; lia).
    rewrite (@commit_cursor_moved (state c)
               (setHistoryStep (fun prevStep => prevStep + 1) c) x snap);
      try reflexivity; try assumption.
    + repeat split.
    + simpl. lia.
  - intros x snap T D Hx Hi.
    pose proof (index_some _ _ Hi) as B.
    unfold Canvas.step. simpl handle. unfold handleUndo.
    replace (0 <? historyStep (state c))
      with true by (symmetry; apply Z.ltb_lt; lia).
    rewrite (@commit_cursor_moved (state c)
               (setHistoryStep (fun prevStep => prevStep - 1) c) x snap);
      try reflexivity; try assumption.
    + repeat split.
    + simpl. lia.
Qed.

(* ================================================================== *)
(** * Claims about the text tool *)

Lemma drawShapePreview_text (r : ReactState) (c : Client) :
  tool r = "text" -> drawShapePreview fp r c = c.
Proof.
  intros H. unfold drawShapePreview. rewrite H. simpl.
  destruct (isDrawing r); reflexivity.
Qed.

(** The re-render with the text tool selected, when neither the
    settings nor the snapshot history changed: no effect touches the
    canvas. *)
Lemma commit_text (old : ReactState) (c : Client) :
  t_history (touched c) = false ->
  historyStep old = historyStep (state c) ->
  tool old = tool (state c) ->
  color old = color (state c) ->
  lineWidth old = lineWidth (state c) ->
  eraserWidth old = eraserWidth (state c) ->
  tool (state c) = "text" ->
  commit old c = withTouched (fun _ => untouched) c.
Proof.
  intros T Hs Ht Hc Hl He Htext.
  unfold Canvas.commit. cbv zeta.
  rewrite T, Hs, Ht, Hc, Hl, He.
  rewrite Z.eqb_refl, !String.eqb_refl, !Qeq_bool_same.
  cbn [negb orb]. rewrite drawShapePreview_text by exact Htext.
  destruct (_ || _ : bool); reflexivity.
Qed.

(** C10, amended.  With the text tool, a press whose prompt is cancelled
    or answered with the empty string sends nothing, saves no snapshot,
    leaves [isDrawing] and the applying-remote flag as they were, and
    makes no call that paints.  It is not without effect: unless the
    flag turns the press away, the press point becomes the start and
    the current position, and with a canvas at hand the stroke style,
    the fill style and the line width are written, in that order, with
    the current colour and width; nothing else changes.  The release
    that follows, with [isDrawing] false, returns the client
    unchanged. *)
Theorem C10_text_prompt_cancelled :
  forall (c : Client) (p : Pos) (text : JsVal),
    tool (state c) = "text" ->
    truthy text = false ->
    touched c = untouched ->
    let c' := step c (MouseDown p text) in
    outbox c' = outbox c
    /\ history (state c') = history (state c)
    /\ historyStep (state c') = historyStep (state c)
    /\ isDrawing (state c') = isDrawing (state c)
    /\ isApplyingRemoteAction c' = isApplyingRemoteAction c
    /\ globalCompositeOperation (canvasOf c')
       = globalCompositeOperation (canvasOf c)
    /\ (exists new,
          calls (canvasOf c') = calls (canvasOf c) ++ new
          /\ Forall (fun mo => paints (snd mo) = false) new)
    /\ (isApplyingRemoteAction c = true -> c' = c)
    /\ (forall x,
          isApplyingRemoteAction c = false ->
          context c = Some x ->
          let s := state c in
          let m := globalCompositeOperation x in
          c' = mkClient
                 (mkReact (isDrawing s) (tool s) (color s) (lineWidth s)
                          (eraserWidth s) p p (history s) (historyStep s)
                          (previewMode s))
                 (sockRender c) untouched false
                 (Some (mkCtx m
                          (calls x
                           ++ [ (m, SetStrokeStyle (JStr (color s)));
                                (m, SetFillStyle (JStr (color s)));
                                (m, SetLineWidth (JNum (lineWidth s))) ])))
                 (socket c) (outbox c))
    /\ (isDrawing (state c) = false ->
        forall q, step c' (MouseUp q) = c').
Proof.
  intros c p text Htool Htext T c'.
  assert (E : c' = c
              \/ c' = withTouched (fun _ => untouched)
                        (setCurrentPos (getMousePos p c)
                           (setStartPos (getMousePos p c) c))
                   /\ context c = None
              \/ exists x,
                  context c = Some x
                  /\ c' = withTouched (fun _ => untouched)
                          (withContext (fun x =>
                             call (SetLineWidth
                                     (JNum (currentLineWidth (state c))))
                               (call (SetFillStyle (JStr (color (state c))))
                                  (call (SetStrokeStyle
                                           (JStr (color (state c)))) x)))
                             (setCurrentPos (getMousePos p c)
                                (setStartPos (getMousePos p c) c)))).
  { unfold c', Canvas.step. simpl handle. unfold startDrawing.
    destruct (isApplyingRemoteAction c) eqn:A.
    - left. apply commit_idle, T.
    - right. cbv zeta.
      destruct (context c) as [x|] eqn:Hx.
      + right. exists x. split; [reflexivity|].
        replace (context (setCurrentPos (getMousePos p c)
                            (setStartPos (getMousePos p c) c)))
          with (Some x) by (simpl; rewrite Hx; reflexivity).
        rewrite Htool, Htext. simpl String.eqb. cbv iota.
        apply commit_text; try reflexivity.
        * simpl. rewrite T. reflexivity.
        * simpl. exact Htool.
      + left.
        replace (context (setCurrentPos (getMousePos p c)
                            (setStartPos (getMousePos p c) c)))
          with (@None Context2D) by (simpl; rewrite Hx; reflexivity).
        split; [|reflexivity].
        apply commit_text; try reflexivity.
        * simpl. rewrite T. reflexivity.
        * simpl. exact Htool. }
  assert (A : isApplyingRemoteAction c = true -> c' = c).
  { intros A. unfold c', Canvas.step. simpl handle. unfold startDrawing.
    rewrite A. apply commit_idle, T. }
  assert (B : forall x,
             isApplyingRemoteAction c = false ->
             context c = Some x ->
             c' = withTouched (fun _ => untouched)
                    (withContext (fun x =>
                       call (SetLineWidth
                               (JNum (currentLineWidth (state c))))
                         (call (SetFillStyle (JStr (color (state c))))
                            (call (SetStrokeStyle
                                     (JStr (color (state c)))) x)))
                       (setCurrentPos (getMousePos p c)
                          (setStartPos (getMousePos p c) c)))).
  { intros x A' Hx. unfold c', Canvas.step. simpl handle.
    unfold startDrawing. rewrite A'. cbv zeta.
    replace (context (setCurrentPos (getMousePos p c)
                        (setStartPos (getMousePos p c) c)))
      with (Some x) by (simpl; rewrite Hx; reflexivity).
    rewrite Htool, Htext. simpl String.eqb. cbv iota.
    apply commit_text; try reflexivity.
    - simpl. rewrite T. reflexivity.
    - simpl. exact Htool. }
  clearbody c'.
  assert (R : isDrawing (state c') = isDrawing (state c)
              /\ tool (state c') = "text"
              /\ touched c' = untouched).
  { destruct E as [-> | [[-> _] | (x & _ & ->)]];
      repeat split; simpl; assumption. }
  split; [|split; [|split; [|split; [|split; [|split; [|split;
    [|split; [|split]]]]]]]].
  - destruct E as [-> | [[-> _] | (x & _ & ->)]]; reflexivity.
  - destruct E as [-> | [[-> _] | (x & _ & ->)]]; reflexivity.
  - destruct E as [-> | [[-> _] | (x & _ & ->)]]; reflexivity.
  - apply R.
  - destruct E as [-> | [[-> _] | (x & _ & ->)]]; reflexivity.
  - destruct E as [-> | [[-> Hx] | (x & Hx & ->)]]; unfold canvasOf; simpl;
      rewrite ?Hx; reflexivity.
  - destruct E as [-> | [[-> Hx] | (x & Hx & ->)]]; unfold canvasOf; simpl;
      rewrite ?Hx; simpl.
    + exists []. rewrite app_nil_r. split; [reflexivity | constructor].
    + exists []. split; [reflexivity | constructor].
    + eexists. rewrite <- !app_assoc. split; [reflexivity|].
      repeat constructor.
  - exact A.
  - intros x A' Hx s m. rewrite (B x A' Hx).
    unfold s, m. clear - Hx A' Htool.
    destruct c as [[d t co lw ew sp cp h hs pm] sr tc ap cx sk ob].
    simpl in Hx, A', Htool. subst cx ap t.
    unfold withTouched, withContext, setCurrentPos, setStartPos,
      withState, getMousePos, currentLineWidth, isEraser.
    cbn. unfold call. cbn [calls globalCompositeOperation].
    rewrite <- !app_assoc. reflexivity.
  - intros D q. destruct R as (Rd & Rt & Rtouched).
    unfold Canvas.step. simpl handle.
    assert (S : stopDrawing toDataURL fp (state c') q c' = c').
    { unfold stopDrawing. rewrite Rd, D, Rt. simpl.
      destruct (isApplyingRemoteAction c'); reflexivity. }
    rewrite S. apply commit_idle, Rtouched.
Qed.

(* ================================================================== *)
(** * Claims about eraser compositing *)

Lemma withContext_mode (f : Context2D -> Context2D) (c : Client) :
  (forall x, globalCompositeOperation (f x) = globalCompositeOperation x) ->
  globalCompositeOperation (canvasOf (withContext f c))
  = globalCompositeOperation (canvasOf c).
Proof.
  intros H. unfold canvasOf. simpl. destruct (context c); simpl; auto.
Qed.

Lemma restoreHistory_mode (r : ReactState) (c : Client) :
  globalCompositeOperation (canvasOf (restoreHistory r c))
  = globalCompositeOperation (canvasOf c).
Proof.
  unfold restoreHistory.
  destruct (_ || _ : bool); [reflexivity|].
  destruct (Js.index _ _); [|reflexivity].
  apply withContext_mode. reflexivity.
Qed.

Lemma drawShapePreview_mode (r : ReactState) (c : Client) :
  globalCompositeOperation (canvasOf (drawShapePreview fp r c))
  = globalCompositeOperation (canvasOf c).
Proof.
  unfold drawShapePreview.
  destruct (_ || _ : bool); [reflexivity|].
  destruct (context c) eqn:E; [|reflexivity].
  destruct (Js.index _ _); [|reflexivity].
  destruct (inHistory r); [|reflexivity].
  destruct (String.eqb (tool r) "rectangle");
    [|destruct (String.eqb (tool r) "circle")];
    rewrite ?withContext_mode by reflexivity; reflexivity.
Qed.

(** No effect of the re-render changes the compositing mode. *)
Lemma commit_mode (old : ReactState) (c : Client) :
  globalCompositeOperation (canvasOf (commit old c))
  = globalCompositeOperation (canvasOf c).
Proof.
  unfold Canvas.commit. cbv zeta.
  change (canvasOf (withTouched ?f ?d)) with (canvasOf d).
  destruct (_ || _ : bool); [rewrite drawShapePreview_mode|];
    (destruct (_ || _ : bool);
     [unfold restoreEffect; destruct (_ && _ : bool);
      rewrite ?restoreHistory_mode|]);
    (destruct (_ || _ : bool);
     [unfold settingsEffect; apply withContext_mode; reflexivity
     | reflexivity]).
Qed.

Lemma styleWrites_do_not_paint (r : ReactState) (data : Action) (op : CtxOp) :
  In op (styleWrites r data) -> paints op = false.
Proof.
  unfold styleWrites. simpl.
  intros [<-|[<-|[<-|[<-|[<-|[]]]]]]; reflexivity.
Qed.

(** C8, the claim as worded fails.  A client holds the eraser down, so
    its canvas is in destination-out.  A remote eraser action is then
    applied: the mode afterwards is still destination-out, not
    source-over.  A remote pen action applied instead has its stroke
    made under destination-out.  And on a blank canvas, in source-over,
    [{ type: 'eraser', x: 10, y: 10, lineWidth: -4 }] is refused by the
    surface at [arc]: the interpreter is left there and the canvas stays
    in destination-out. *)
Lemma C8_subtractive_mode_outlives_eraser_action :
  globalCompositeOperation (canvasOf Examples.erasingClient) = destination_out
  /\ erases Examples.remoteEraserDraw = true
  /\ globalCompositeOperation
       (canvasOf (Canvas.step Examples.countCalls Examples.exact
                    Examples.negativeRadius Examples.erasingClient
                    (RecvDrawingAction Examples.remoteEraserDraw)))
     <> source_over
  /\ erases Examples.remotePenDraw = false
  /\ In (destination_out, Stroke)
        (callsSince (canvasOf Examples.erasingClient)
           (canvasOf (Canvas.step Examples.countCalls Examples.exact
                        Examples.negativeRadius Examples.erasingClient
                        (RecvDrawingAction Examples.remotePenDraw))))
  /\ erases Examples.badEraser = true
  /\ globalCompositeOperation blank = source_over
  /\ globalCompositeOperation
       (Canvas.applyDrawingAction Examples.negativeRadius initialState
          Examples.badEraser blank)
     = destination_out.
Proof.
  split; [reflexivity|]. split; [reflexivity|].
  split; [vm_compute; discriminate|]. split; [reflexivity|].
  split; [vm_compute; auto 20|].
  split; [reflexivity|]. split; reflexivity.
Qed.

(** C8, amended.  An action the interpreter takes for an eraser action
    has all its painting calls made under destination-out, the stroke of
    an eraser draw among them.  When its rendering completes, the mode
    afterwards is the one in effect before the action, so an action
    applied next that is not an eraser action runs under that earlier
    mode, and a run of interpreter calls that all complete ends in the
    mode it began in.  When the surface refuses the action's [arc], the
    restore is not reached and the mode stays destination-out.  The
    release that ends a local eraser gesture sets the mode to
    source-over. *)
Theorem C8_eraser_compositing :
  forall (r : ReactState) (data : Action) (x : Context2D),
    erases data = true ->
    let x' := applyDrawingAction r data x in
    globalCompositeOperation x'
    = (if raises r data then destination_out else globalCompositeOperation x)
    /\ (forall m op,
          In (m, op) (callsSince x x') -> paints op = true ->
          m = destination_out)
    /\ (is_str (a_type data) "draw" = true ->
        raises r data = false
        /\ In (destination_out, Stroke) (callsSince x x'))
    /\ (raises r data = false ->
        forall other m op,
          erases other = false ->
          In (m, op) (callsSince x' (applyDrawingAction r other x')) ->
          m = globalCompositeOperation x)
    /\ (forall actions,
          applies r actions = true ->
          globalCompositeOperation
            (fold_left (fun x a => applyDrawingAction r a x) actions x)
          = globalCompositeOperation x)
    /\ (forall c p,
          tool (state c) = "eraser" ->
          isDrawing (state c) = true ->
          isApplyingRemoteAction c = false ->
          context c <> None ->
          globalCompositeOperation (canvasOf (step c (MouseUp p)))
          = source_over).
Proof.
  intros r data x He x'.
  assert (Hm : globalCompositeOperation x'
               = if raises r data then destination_out
                 else globalCompositeOperation x).
  { unfold x'. rewrite applyDrawingAction_mode_gen, He. reflexivity. }
  split; [exact Hm|]. split; [|split; [|split; [|split]]].
  - intros m op Hin Hp. unfold x' in Hin.
    rewrite applyDrawingAction_since in Hin.
    apply in_app_or in Hin. destruct Hin as [Hin|Hin];
      apply in_map_iff in Hin; destruct Hin as (op' & E & Hin);
      inversion E; subst.
    + apply styleWrites_do_not_paint in Hin. congruence.
    + unfold renderMode. rewrite He. reflexivity.
  - intros Hd.
    assert (Hr : raises r data = false).
    { unfold Canvas.raises.
      rewrite (@is_str_other _ _ "start" Hd) by reflexivity.
      rewrite Hd. reflexivity. }
    split; [exact Hr|].
    unfold x'. rewrite applyDrawingAction_since.
    apply in_or_app. right. unfold renderMode, Canvas.shapeCalls. rewrite He.
    rewrite (@is_str_other _ _ "start" Hd) by reflexivity.
    rewrite Hd. simpl. auto.
  - intros Hr other m op Ho Hin.
    rewrite applyDrawingAction_since in Hin. unfold renderMode in Hin.
    rewrite Ho in Hin. rewrite <- map_app in Hin.
    apply in_map_iff in Hin. destruct Hin as (op' & E & _).
    inversion E. subst. rewrite Hm, Hr. reflexivity.
  - intros actions Ha. apply fold_apply_mode, Ha.
  - intros c p Ht Hd Ha Hx.
    unfold Canvas.step. rewrite commit_mode. simpl handle.
    unfold stopDrawing. rewrite Ha, Hd, Ht. simpl.
    destruct (context c) as [x0|] eqn:E; [|contradiction].
    unfold canvasOf, Canvas.saveHistory, emit.
    destruct c as [st sr tc ap cx sk ob]. simpl in E. subst cx.
    destruct sk; reflexivity.
Qed.

End ClientFacts.

(* ================================================================== *)
(** * The client claims at concrete inputs *)

Section Witnesses.

Import Canvas Examples.

Ltac by_eval := vm_compute; first [reflexivity | discriminate].


(** C5, at the failing input.  [twoGestures] holds three snapshots with
    the cursor on the last.  A relayed pen action arrives: its listener
    calls the [saveHistory] of the render the socket effect ran in,
    whose history is empty, so the push leaves a single snapshot at
    cursor 0.  The same push made by a handler of the current render (a
    local clear) keeps the three and appends a fourth. *)
Theorem C5_remote_push_replaces_history :
  history (state twoGestures)
  = ["iiiii"; "iiiiiiiiiiiiiiiii"; "iiiiiiiiiiiiiiiiiiiiiiiiiiiii"]
  /\ historyStep (state twoGestures) = 2
  /\ (let c' := step countCalls exact negativeRadius twoGestures
                  (RecvDrawingAction remotePenDraw) in
      history (state c') = ["iiiiiiiiiiiiiiiiiiiiiiiiiiiiiiiiiiiiii"]
      /\ historyStep (state c') = 0)
  /\ (let c' := step countCalls exact negativeRadius twoGestures Clear in
      List.length (history (state c')) = 4%nat
      /\ firstn 3 (history (state c')) = history (state twoGestures)
      /\ historyStep (state c') = 3).
Proof.
  split; [by_eval|]. split; [by_eval|]. split.
  - split; by_eval.
  - split; [by_eval|]. split; by_eval.
Qed.

(** C6 at [fresh]: one snapshot, cursor 0, both the first and the last
    index. *)
Lemma C6_cursor_invariant_witness :
  cursorOk (state fresh)
  /\ step countCalls exact negativeRadius fresh Undo = fresh
  /\ step countCalls exact negativeRadius fresh Redo = fresh
  /\ cursorOk (state (step countCalls exact negativeRadius fresh Clear)).
Proof.
  assert (H : cursorOk (state fresh)).
  { split; [intros E; vm_compute in E; discriminate|].
    intros _. vm_compute. split; [discriminate | reflexivity]. }
  destruct (@C6_cursor_invariant countCalls exact negativeRadius fresh H)
    as (_ & _ & _ & Hstep & Hundo & Hredo).
  split; [exact H|]. split; [|split].
  - apply Hundo; by_eval.
  - apply Hredo; by_eval.
  - apply Hstep.
Defined.



(** C8 at a remote eraser draw on a blank canvas, and at the release
    that ends the local eraser gesture of [erasingClient]. *)
Lemma C8_eraser_compositing_witness :
  erases remoteEraserDraw = true
  /\ globalCompositeOperation
       (applyDrawingAction negativeRadius initialState remoteEraserDraw blank)
     = source_over
  /\ In (destination_out, Stroke)
        (callsSince blank
           (applyDrawingAction negativeRadius initialState remoteEraserDraw
              blank))
  /\ globalCompositeOperation
       (canvasOf (step countCalls exact negativeRadius erasingClient
                    (MouseUp (mkPos 12 12))))
     = source_over.
Proof.
  assert (H : erases remoteEraserDraw = true) by by_eval.
  assert (D : is_str (a_type remoteEraserDraw) "draw" = true) by by_eval.
  assert (T : tool (state erasingClient) = "eraser") by by_eval.
  assert (G : isDrawing (state erasingClient) = true) by by_eval.
  assert (F : isApplyingRemoteAction erasingClient = false) by by_eval.
  assert (X : context erasingClient <> None) by by_eval.
  destruct (@C8_eraser_compositing countCalls exact negativeRadius
              initialState remoteEraserDraw blank H)
    as (Hmode & _ & Hdraw & _ & _ & Hstop).
  destruct (Hdraw D) as (_ & Hin).
  split; [exact H|]. split; [exact Hmode|]. split; [exact Hin|].
  exact (Hstop erasingClient (mkPos 12 12) T G F X).
Defined.

(** C9 at [undone]: the redo draws the third snapshot, the undo the
    first. *)
Lemma C9_undo_redo_are_local_witness :
  touched undone = untouched
  /\ isDrawing (state undone) = false
  /\ context undone = Some (canvasOf undone)
  /\ Js.index (history (state undone)) (historyStep (state undone) + 1)
     = Some "iiiiiiiiiiiiiiiiiiiiiiiiiiiii"
  /\ Js.index (history (state undone)) (historyStep (state undone) - 1)
     = Some "iiiii"
  /\ context (step countCalls exact negativeRadius undone Redo)
     = Some (call (DrawImage "iiiiiiiiiiiiiiiiiiiiiiiiiiiii")
                  (call ClearRect (canvasOf undone)))
  /\ context (step countCalls exact negativeRadius undone Undo)
     = Some (call (DrawImage "iiiii") (call ClearRect (canvasOf undone)))
  /\ outbox (step countCalls exact negativeRadius undone Redo) = outbox undone.
Proof.
  assert (H1 : touched undone = untouched) by by_eval.
  assert (H2 : isDrawing (state undone) = false) by by_eval.
  assert (H3 : context undone = Some (canvasOf undone)) by by_eval.
  assert (H4 : Js.index (history (state undone)) (historyStep (state undone) + 1)
               = Some "iiiiiiiiiiiiiiiiiiiiiiiiiiiii") by by_eval.
  assert (H5 : Js.index (history (state undone)) (historyStep (state undone) - 1)
               = Some "iiiii") by by_eval.
  destruct (@C9_undo_redo_are_local countCalls exact negativeRadius undone)
    as (_ & Hout & Hredo & Hundo).
  destruct (Hredo _ _ H1 H2 H3 H4) as (_ & _ & Hr).
  destruct (Hundo _ _ H1 H2 H3 H5) as (_ & _ & Hu).
  split; [exact H1|]. split; [exact H2|]. split; [exact H3|].
  split; [exact H4|]. split; [exact H5|].
  split; [exact Hr|]. split; [exact Hu | exact Hout].
Defined.

(** C10, the claim as worded fails.  With the text tool selected the
    prompt of a press at (5, 5) is cancelled.  The client is not as it
    was: the start position is now (5, 5) and three style writes reached
    the canvas.  The difference shows on the wire: with the rectangle
    tool selected next, a release at (9, 9) sends a rectangle from
    (5, 5), where without the cancelled press it sends one from
    (0, 0). *)
Lemma C10_cancelled_press_leaves_traces :
  let c' := step countCalls exact negativeRadius textClient
              (MouseDown (mkPos 5 5) JNull) in
  c' <> textClient
  /\ startPos (state textClient) = mkPos 0 0
  /\ startPos (state c') = mkPos 5 5
  /\ callsSince (canvasOf textClient) (canvasOf c')
     = [ (source_over, SetStrokeStyle (JStr "#000000"));
         (source_over, SetFillStyle (JStr "#000000"));
         (source_over, SetLineWidth (JNum 5)) ]
  /\ outbox (run countCalls exact negativeRadius c'
               [SelectTool "rectangle"; MouseUp (mkPos 9 9)])
     = [EmitDrawingAction
          (mkAction (JStr "rect") (JStr "rectangle") (JNum 5) (JNum 5)
                    (JNum 4) (JNum 4) JUndef (JStr "#000000") (JNum 5)
                    JUndef JUndef JUndef)]
  /\ outbox (run countCalls exact negativeRadius textClient
               [SelectTool "rectangle"; MouseUp (mkPos 9 9)])
     = [EmitDrawingAction
          (mkAction (JStr "rect") (JStr "rectangle") (JNum 0) (JNum 0)
                    (JNum 9) (JNum 9) JUndef (JStr "#000000") (JNum 5)
                    JUndef JUndef JUndef)].
Proof.
  cbv zeta.
  split.
  { intros E. apply (f_equal (fun c => px (startPos (state c)))) in E.
    vm_compute in E. discriminate. }
  split; [by_eval|]. split; [by_eval|]. split; [by_eval|]. split; by_eval.
Qed.

(** C10 at [textClient] with the prompt cancelled ([null]). *)
Lemma C10_text_prompt_cancelled_witness :
  tool (state textClient) = "text"
  /\ truthy JNull = false
  /\ touched textClient = untouched
  /\ outbox (step countCalls exact negativeRadius textClient
               (MouseDown (mkPos 5 5) JNull))
     = outbox textClient
  /\ history (state (step countCalls exact negativeRadius textClient
                       (MouseDown (mkPos 5 5) JNull)))
     = history (state textClient)
  /\ isDrawing (state (step countCalls exact negativeRadius textClient
                         (MouseDown (mkPos 5 5) JNull)))
     = isDrawing (state textClient)
  /\ startPos (state (step countCalls exact negativeRadius textClient
                        (MouseDown (mkPos 5 5) JNull)))
     = mkPos 5 5.
Proof.
  assert (H1 : tool (state textClient) = "text") by by_eval.
  assert (H2 : truthy JNull = false) by by_eval.
  assert (H3 : touched textClient = untouched) by by_eval.
  assert (H4 : isApplyingRemoteAction textClient = false) by by_eval.
  assert (H5 : context textClient = Some (canvasOf textClient)) by by_eval.
  destruct (@C10_text_prompt_cancelled countCalls exact negativeRadius
              textClient (mkPos 5 5) JNull H1 H2 H3)
    as (Hout & Hhist & _ & Hdraw & _ & _ & _ & _ & Hexact & _).
  pose proof (Hexact (canvasOf textClient) H4 H5) as E. cbv zeta in E.
  split; [exact H1|]. split; [exact H2|]. split; [exact H3|].
  split; [exact Hout|]. split; [exact Hhist|]. split; [exact Hdraw|].
  rewrite E. reflexivity.
Defined.

End Witnesses.

(* ================================================================== *)
(** * Further properties of the relay server *)

Section ServerExtras.

Import Server Wire.

Lemma deliveredTo_app (r : SocketId) (a b : list Delivery) :
  deliveredTo r (a ++ b) = deliveredTo r a ++ deliveredTo r b.
Proof. unfold deliveredTo. rewrite filter_app, map_app. reflexivity. Qed.

Lemma deliveredTo_absent (r s : SocketId) (m : Msg) (st : State) :
  ~ In r (sockets st) -> deliveredTo r (broadcast_emit st s m) = [].
Proof.
  unfold deliveredTo, broadcast_emit.
  induction (sockets st) as [|a l IH]; intros N; simpl; [reflexivity|].
  assert (Na : a <> r) by (intros ->; apply N; left; reflexivity).
  assert (Nl : ~ In r l) by (intros H; apply N; right; exact H).
  destruct (String.eqb a s); simpl; auto.
  destruct (String.eqb_spec a r); [contradiction|]. auto.
Qed.

Lemma deliveredTo_once (r s : SocketId) (m : Msg) (st : State) :
  NoDup (sockets st) -> In r (sockets st) ->
  deliveredTo r (broadcast_emit st s m)
  = if String.eqb s r then [] else [m].
Proof.
  unfold deliveredTo, broadcast_emit.
  induction (sockets st) as [|a l IH]; intros D I; [contradiction|].
  inversion D as [|a' l' Na Dl]; subst.
  assert (Habs : ~ In r l ->
                 map snd (filter (fun d => String.eqb (fst d) r)
                   (map (fun x => (x, m))
                      (filter (fun x => negb (String.eqb x s)) l))) = []).
  { intros N. apply (@deliveredTo_absent r s m (mkState [] l)). exact N. }
  destruct I as [->|I].
  - simpl. rewrite String.eqb_sym.
    destruct (String.eqb s r); simpl.
    + apply Habs, Na.
    + rewrite String.eqb_refl. simpl. rewrite Habs by exact Na. reflexivity.
  - assert (Nar : a <> r) by (intros ->; contradiction).
    simpl. destruct (String.eqb a s); simpl.
    + apply IH; assumption.
    + destruct (String.eqb_spec a r); [contradiction|]. apply IH; assumption.
Qed.

Lemma submission_keeps_sockets (st : State) (e : Event) :
  isSubmission e = true -> sockets (fst (step st e)) = sockets st.
Proof. destruct e; simpl; intros H; try discriminate; reflexivity. Qed.

(** Deliveries to one connected socket over a run of submissions. *)
Lemma relay_run :
  forall (st : State) (r : SocketId) (evs : list Event),
    NoDup (sockets st) ->
    In r (sockets st) ->
    forallb isSubmission evs = true ->
    deliveredTo r (snd (run st evs)) = flat_map (relayedTo r) evs.
Proof.
  intros st r evs. revert st.
  induction evs as [|e evs IH]; intros st D I S; [reflexivity|].
  simpl in S. apply andb_prop in S. destruct S as [Se S].
  rewrite run_cons. cbn [snd flat_map]. rewrite deliveredTo_app.
  rewrite IH; [|rewrite submission_keeps_sockets; assumption ..| exact S].
  f_equal.
  destruct e as [s|s data|s|s]; simpl in Se; try discriminate; simpl;
    apply (@deliveredTo_once r s _ (mkState _ (sockets st))); assumption.
Qed.

(** X2.  Live relay.  While the set of connected sockets stays as it
    is, a connected socket is sent exactly the actions the other sockets
    submit, one message each, in arrival order, a clear signal as the
    clear action; what it submits itself is left out.  The length of
    the log plays no part. *)
Theorem X2_live_relay_in_arrival_order :
  forall (st : State) (r : SocketId) (evs : list Event),
    NoDup (sockets st) ->
    In r (sockets st) ->
    forallb isSubmission evs = true ->
    deliveredTo r (snd (run st evs)) = flat_map (relayedTo r) evs.
Proof. exact relay_run. Qed.

Lemma X2_live_relay_in_arrival_order_witness :
  NoDup ["A"; "B"]
  /\ In "B" ["A"; "B"]
  /\ deliveredTo "B"
       (snd (run (mkState [] ["A"; "B"])
               [OnDrawingAction "A" Examples.remotePenDraw;
                OnDrawingAction "B" Examples.remoteEraserDraw;
                OnClearCanvas "A"]))
     = [DrawingAction Examples.remotePenDraw; DrawingAction clearAction].
Proof.
  assert (D : NoDup ["A"; "B"]).
  { constructor; [|constructor; [|constructor]]; simpl.
    - intros [H|[]]. discriminate.
    - intros []. }
  assert (I : In "B" ["A"; "B"]) by (right; left; reflexivity).
  split; [exact D|]. split; [exact I|].
  apply (@X2_live_relay_in_arrival_order (mkState [] ["A"; "B"]) "B"
           [OnDrawingAction "A" Examples.remotePenDraw;
            OnDrawingAction "B" Examples.remoteEraserDraw;
            OnClearCanvas "A"] D I eq_refl).
Defined.

Lemma in_run (st : State) (evs : list Event) (d : Delivery) :
  In d (snd (run st evs)) ->
  exists before e after,
    evs = before ++ e :: after
    /\ In d (snd (step (fst (run st before)) e)).
Proof.
  revert st. induction evs as [|e evs IH]; intros st H; [contradiction|].
  rewrite run_cons in H. cbn [snd] in H. apply in_app_or in H.
  destruct H as [H|H].
  - exists [], e, evs. split; [reflexivity | exact H].
  - destruct (IH _ H) as (b & e' & a & E & I).
    exists (e :: b), e', a. split; [rewrite E; reflexivity|].
    rewrite run_cons. exact I.
Qed.

(** X3.  Every replay the server ever sends, in any run from start-up,
    holds at least one and at most 200 actions. *)
Theorem X3_replay_size_bounded :
  forall (evs : list Event) (r : SocketId) (l : list Action),
    In (r, InitialDrawingHistory l) (snd (run init evs)) ->
    (1 <= List.length l <= 200)%nat.
Proof.
  intros evs r l H.
  destruct (in_run _ _ _ H) as (b & e & a & _ & I).
  assert (B : (List.length (drawingActionsHistory (fst (run init b))) <= 200)%nat).
  { rewrite run_history with (l := []) by reflexivity.
    rewrite lastn_length. unfold MAX_HISTORY_LENGTH. lia. }
  destruct e as [s|s data|s|s]; simpl in I.
  - destruct (drawingActionsHistory (fst (run init b))) as [|x h] eqn:E;
      simpl in I; [contradiction|].
    destruct I as [I|[]]. inversion I. subst. simpl in *. lia.
  - apply broadcast_emit_spec in I. destruct I as [I _]. discriminate.
  - apply broadcast_emit_spec in I. destruct I as [I _]. discriminate.
  - contradiction.
Qed.

Lemma X3_replay_size_bounded_witness :
  In ("B", InitialDrawingHistory [Examples.remotePenDraw])
     (snd (run init [OnDrawingAction "A" Examples.remotePenDraw;
                     Connection "B"]))
  /\ (1 <= List.length [Examples.remotePenDraw] <= 200)%nat.
Proof.
  assert (H : In ("B", InitialDrawingHistory [Examples.remotePenDraw])
                 (snd (run init [OnDrawingAction "A" Examples.remotePenDraw;
                                 Connection "B"])))
    by (left; reflexivity).
  split; [exact H|].
  exact (@X3_replay_size_bounded _ _ _ H).
Defined.

Lemma silent_for_absent (evs : list Event) (st : State) (s : SocketId) :
  ~ In s (sockets st) ->
  (forall e, In e evs -> e <> Connection s) ->
  forall d, In d (snd (run st evs)) -> fst d <> s.
Proof.
  revert st. induction evs as [|e evs IH]; intros st N C d H; [contradiction|].
  rewrite run_cons in H. cbn [snd] in H. apply in_app_or in H.
  destruct H as [H|H].
  - destruct d as [r m]. simpl.
    destruct e as [s0|s0 data|s0|s0]; simpl in H.
    + destruct (0 <? _)%nat; [|contradiction].
      destruct H as [H|[]]. inversion H. subst.
      intros ->. apply (C (Connection s)); [left|]; reflexivity.
    + apply broadcast_emit_spec in H. destruct H as (_ & I & _).
      intros ->. contradiction.
    + apply broadcast_emit_spec in H. destruct H as (_ & I & _).
      intros ->. contradiction.
    + contradiction.
  - apply (IH (fst (step st e))); [| |exact H].
    + destruct e as [s0|s0 data|s0|s0]; simpl; try exact N.
      * intros I. apply in_app_or in I. destruct I as [I|[I|[]]];
          [contradiction|]. subst.
        apply (C (Connection s)); [left|]; reflexivity.
      * intros I. apply filter_In in I. destruct I as [I _]. contradiction.
    + intros e' I. apply C. right. exact I.
Qed.

(** X1.  A disconnect leaves the log as it is and sends nothing, and
    the socket is sent nothing from then on, whatever the others
    submit, until it connects again. *)
Theorem X1_disconnect_is_silent :
  forall (st : State) (s : SocketId) (evs : list Event),
    (forall e, In e evs -> e <> Connection s) ->
    let st' := fst (step st (Disconnect s)) in
    drawingActionsHistory st' = drawingActionsHistory st
    /\ snd (step st (Disconnect s)) = []
    /\ (forall d, In d (snd (run st' evs)) -> fst d <> s).
Proof.
  intros st s evs C st'. split; [reflexivity|]. split; [reflexivity|].
  apply silent_for_absent; [|exact C].
  unfold st'. simpl. intros I. apply filter_In in I. destruct I as [_ I].
  rewrite String.eqb_refl in I. discriminate.
Qed.

Lemma X1_disconnect_is_silent_witness :
  (forall e, In e [OnDrawingAction "A" Examples.remotePenDraw] ->
             e <> Connection "B")
  /\ (forall d,
        In d (snd (run (fst (step (mkState [] ["A"; "B"]) (Disconnect "B")))
                       [OnDrawingAction "A" Examples.remotePenDraw])) ->
        fst d <> "B").
Proof.
  assert (C : forall e, In e [OnDrawingAction "A" Examples.remotePenDraw] ->
                        e <> Connection "B").
  { intros e [<-|[]]. discriminate. }
  split; [exact C|].
  apply (@X1_disconnect_is_silent (mkState [] ["A"; "B"]) "B"
           [OnDrawingAction "A" Examples.remotePenDraw] C).
Defined.

End ServerExtras.

(* ================================================================== *)
(** * Further properties of the canvas client *)

Section ClientExtras.

Import Canvas Gesture.

Variable toDataURL : Context2D -> string.
Variable fp : Doubles.
Variable arcThrows : CtxOp -> bool.

Local Abbreviation step := (step toDataURL fp arcThrows).
Local Abbreviation run := (run toDataURL fp arcThrows).
Local Abbreviation handle := (handle toDataURL fp arcThrows).
Local Abbreviation saveHistory := (saveHistory toDataURL).
Local Abbreviation applyDrawingActionOutcome :=
  (applyDrawingActionOutcome arcThrows).
Local Abbreviation applyDrawingAction := (applyDrawingAction arcThrows).
Local Abbreviation applyEach := (applyEach arcThrows).
Local Abbreviation shapeCalls := (shapeCalls arcThrows).
Local Abbreviation raises := (raises arcThrows).
Local Abbreviation applies := (applies arcThrows).
Local Abbreviation accepted := (accepted arcThrows).
Local Abbreviation rendering := (rendering arcThrows).

Ltac split_ifs :=
  repeat match goal with
         | |- context [if ?b then _ else _] => destruct b
         | |- context [match ?o with Some _ => _ | None => _ end] => destruct o
         | |- context [match ?o with Returned _ => _ | Raised _ => _ end] =>
             destruct o
         end.

Lemma eqb_neq_false (a b : string) : a <> b -> String.eqb a b = false.
Proof. intros N. destruct (String.eqb_spec a b); [contradiction | reflexivity]. Qed.

(** X4.  Between gestures, moving the pointer over the canvas changes
    nothing, and with a tool other than rectangle and circle neither
    does releasing the button or leaving the canvas. *)
Theorem X4_stray_pointer_events_ignored :
  forall (c : Client) (p : Pos),
    touched c = untouched ->
    isDrawing (state c) = false ->
    step c (MouseMove p) = c
    /\ (tool (state c) <> "rectangle" -> tool (state c) <> "circle" ->
        step c (MouseUp p) = c).
Proof.
  intros c p T D. split.
  - unfold Canvas.step. simpl Canvas.handle. unfold draw. rewrite D. simpl.
    apply commit_idle, T.
  - intros Nr Nc. unfold Canvas.step. simpl Canvas.handle.
    unfold stopDrawing. rewrite D, (eqb_neq_false Nr), (eqb_neq_false Nc).
    simpl. destruct (isApplyingRemoteAction c); apply commit_idle, T.
Qed.

(** X5.  An action that carries a colour and a line width is rendered
    the same by every receiver, whatever the colour and widths selected
    there. *)
Theorem X5_receiver_settings_do_not_matter :
  forall (r1 r2 : ReactState) (data : Action) (x : Context2D),
    truthy (a_color data) = true ->
    truthy (a_lineWidth data) = true ->
    applyDrawingAction r1 data x = applyDrawingAction r2 data x.
Proof.
  intros r1 r2 data x Hc Hw.
  unfold Canvas.applyDrawingAction, Canvas.applyDrawingActionOutcome, Js.or.
  rewrite Hc, Hw. reflexivity.
Qed.

(** What no handler changes, and what every handler keeps; the flag is
    lowered again when the surface accepts what the event applies. *)
Lemma handle_frame (e : Event) (c : Client) :
  socket (handle e c) = socket c
  /\ sockRender (handle e c) = sockRender c
  /\ (context c <> None -> context (handle e c) <> None)
  /\ (accepted (sockRender c) e = true ->
      isApplyingRemoteAction c = false ->
      isApplyingRemoteAction (handle e c) = false).
Proof.
  destruct e as [|t|p text|p|p| | | |actions|data].
  - destruct c as [st sr tc ap [x|] sk ob]; simpl; repeat split; auto;
      discriminate.
  - repeat split; auto.
  - destruct c as [st sr tc [|] [x|] [id|] ob];
      simpl; unfold startDrawing; simpl; split_ifs; simpl;
      repeat split; auto; discriminate.
  - destruct c as [st sr tc [|] [x|] [id|] ob];
      simpl; unfold draw; simpl; split_ifs; simpl;
      repeat split; auto; discriminate.
  - destruct c as [st sr tc [|] [x|] [id|] ob];
      simpl; unfold stopDrawing; simpl; split_ifs; simpl;
      repeat split; auto; discriminate.
  - simpl. unfold handleUndo. split_ifs; repeat split; auto.
  - simpl. unfold handleRedo. split_ifs; repeat split; auto.
  - destruct c as [st sr tc ap [x|] [id|] ob]; simpl;
      repeat split; auto; discriminate.
  - destruct c as [st sr tc ap [x|] sk ob]; simpl;
      unfold Canvas.onInitialDrawingHistory; simpl;
      [|repeat split; auto].
    destruct (applyEach sr actions (call ClearRect x)) as [y|y] eqn:E;
      simpl; repeat split; auto; try discriminate.
    intros Ha _. rewrite applyEach_returned in E by exact Ha. discriminate.
  - destruct c as [st sr tc ap [x|] [id|] ob]; simpl;
      unfold Canvas.onDrawingAction; simpl;
      try (split_ifs; simpl; repeat split; auto; discriminate).
    destruct (is_str (a_emitterSocketId data) id);
      [repeat split; auto; discriminate|].
    destruct (applyDrawingActionOutcome sr data x) as [y|y] eqn:E;
      simpl; repeat split; auto; try discriminate.
    intros Ha _. apply negb_true_iff in Ha.
    rewrite outcome_returned in E by exact Ha. discriminate.
Qed.

Lemma step_ready (id : string) (e : Event) (c : Client) :
  ready id c -> accepted (sockRender c) e = true -> ready id (step c e).
Proof.
  intros (Hx & Hs & Ha & _) Hacc. unfold Canvas.step.
  destruct (handle_frame e c) as (S & _ & X & A).
  destruct (commit_same fp (state c) (handle e c)) as (_ & _ & A' & S' & _).
  repeat split.
  - apply commit_keeps_canvas, X, Hx.
  - rewrite S', S. exact Hs.
  - rewrite A'. apply A; assumption.
Qed.





Lemma run_touched (evs : list Event) (c : Client) :
  touched c = untouched -> touched (run c evs) = untouched.
Proof.
  revert c. unfold Canvas.run.
  induction evs as [|e evs IH]; intros c H; simpl; [exact H|].
  apply IH. reflexivity.
Qed.






Ltac no_message :=
  exists []; rewrite ?app_nil_r;
  repeat split; auto; try (simpl; lia); try constructor;
  try (intros [l|d] Hm; discriminate).

Ltac one_message :=
  eexists; split; [reflexivity|];
  split; [simpl; lia|];
  split; [repeat constructor | intros [l|d] Hm; discriminate].

(** What an event adds to the outbox. *)
Lemma handle_outbox (e : Event) (c : Client) :
  exists new,
    outbox (handle e c) = outbox c ++ new
    /\ (List.length new <= 1)%nat
    /\ Forall (builtBy (state c)) new
    /\ (forall m, e = Wire.receive m -> new = []).
Proof.
  destruct e as [|t|p text|p|p| | | |actions|data].
  - simpl. rewrite saveHistory_outbox. no_message.
  - no_message.
  - destruct c as [st sr tc [|] [x|] [id|] ob];
      simpl; unfold startDrawing; simpl; split_ifs; simpl;
      first [solve [no_message] | solve [one_message]].
  - destruct c as [st sr tc [|] [x|] [id|] ob];
      simpl; unfold draw; simpl; split_ifs; simpl;
      first [solve [no_message] | solve [one_message]].
  - destruct c as [st sr tc [|] [x|] [id|] ob];
      simpl; unfold stopDrawing; simpl; split_ifs; simpl;
      first [solve [no_message] | solve [one_message]].
  - simpl. rewrite handleUndo_outbox. no_message.
  - simpl. rewrite handleRedo_outbox. no_message.
  - destruct c as [st sr tc ap [x|] [id|] ob]; simpl;
      first [solve [no_message] | solve [one_message]].
  - simpl. unfold Canvas.onInitialDrawingHistory.
    destruct (context c) as [x|] eqn:E;
      [destruct (applyEach _ _ _)|]; simpl;
      rewrite ?saveHistory_outbox; simpl;
      exists []; rewrite app_nil_r; repeat split; auto.
  - simpl. unfold Canvas.onDrawingAction.
    destruct (socket c); [destruct (is_str _ _)|]; simpl;
      [|destruct (context c);
        [destruct (applyDrawingActionOutcome _ _ _)|]|]; simpl;
      rewrite ?saveHistory_outbox; simpl;
      exists []; rewrite app_nil_r; repeat split; auto.
Qed.

(** X7.  Every event sends at most one message.  A drawing action it
    sends names the tool selected when the event began and carries no
    [emitterSocketId].  The two socket listeners send nothing: applying
    a relayed action or a replay never submits anything back. *)
Theorem X7_at_most_one_message_per_event :
  forall (c : Client) (e : Event),
    exists new,
      outbox (step c e) = outbox c ++ new
      /\ (List.length new <= 1)%nat
      /\ Forall (builtBy (state c)) new
      /\ (forall m, e = Wire.receive m -> new = []).
Proof.
  intros c e. unfold Canvas.step. rewrite commit_outbox.
  apply handle_outbox.
Qed.

(** X8.  A relayed action whose [emitterSocketId] is the client's own
    socket id is dropped: nothing is drawn and no snapshot is saved. *)
Theorem X8_own_action_dropped :
  forall (c : Client) (id : string) (data : Action),
    socket c = Some id ->
    a_emitterSocketId data = JStr id ->
    touched c = untouched ->
    step c (RecvDrawingAction data) = c.
Proof.
  intros c id data Hs He T. unfold Canvas.step. simpl Canvas.handle.
  unfold Canvas.onDrawingAction. rewrite Hs, He. simpl.
  rewrite String.eqb_refl. apply commit_idle, T.
Qed.


(* ------------------------------------------------------------------ *)
(** ** Gestures *)

Lemma step_fields (c : Client) (e : Event) :
  state (step c e) = state (handle e c)
  /\ outbox (step c e) = outbox (handle e c)
  /\ globalCompositeOperation (canvasOf (step c e))
     = globalCompositeOperation (canvasOf (handle e c)).
Proof.
  unfold Canvas.step. rewrite commit_state, commit_outbox, commit_mode.
  auto.
Qed.

Lemma drawActionOf_settings (r r' : ReactState) (q : Pos) :
  sameSettings r r' -> drawActionOf r' q = drawActionOf r q.
Proof.
  intros (Ht & Hc & Hl & He).
  unfold drawActionOf, penDrawAction, eraserDrawAction, currentLineWidth.
  rewrite Ht, Hc, Hl, He. reflexivity.
Qed.

(** A press with the pen or the eraser. *)
Lemma press_stroke (c : Client) (id : string) (p : Pos) (text : JsVal) :
  ready id c ->
  tool (state c) = "pen" \/ tool (state c) = "eraser" ->
  let c1 := step c (MouseDown p text) in
  isDrawing (state c1) = true
  /\ sameSettings (state c) (state c1)
  /\ history (state c1) = history (state c)
  /\ historyStep (state c1) = historyStep (state c)
  /\ outbox c1 = outbox c ++ [EmitDrawingAction (startAction (state c) p)]
  /\ globalCompositeOperation (canvasOf c1)
     = (if isEraser (tool (state c)) then destination_out
        else globalCompositeOperation (canvasOf c)).
Proof.
  intros (Hx & Hs & Ha & _) Ht c1.
  destruct (step_fields c (MouseDown p text)) as (S & O & M).
  fold c1 in S, O, M. rewrite S, O, M. clear S O M c1.
  destruct c as [[d t co lw ew sp cp h hs pm] sr tc ap [x|] sk ob];
    [|contradiction]. simpl in *. subst ap sk.
  destruct Ht as [-> | ->]; unfold startDrawing; simpl;
    repeat split; reflexivity.
Qed.

(** A move during a pen or eraser stroke. *)
Lemma move_stroke (c : Client) (id : string) (q : Pos) :
  ready id c ->
  tool (state c) = "pen" \/ tool (state c) = "eraser" ->
  isDrawing (state c) = true ->
  let c1 := step c (MouseMove q) in
  isDrawing (state c1) = true
  /\ sameSettings (state c) (state c1)
  /\ history (state c1) = history (state c)
  /\ historyStep (state c1) = historyStep (state c)
  /\ outbox c1 = outbox c ++ [EmitDrawingAction (drawActionOf (state c) q)]
  /\ globalCompositeOperation (canvasOf c1)
     = (if isEraser (tool (state c)) then destination_out else source_over).
Proof.
  intros (Hx & Hs & Ha & _) Ht Hd c1.
  destruct (step_fields c (MouseMove q)) as (S & O & M).
  fold c1 in S, O, M. rewrite S, O, M. clear S O M c1.
  destruct c as [[d t co lw ew sp cp h hs pm] sr tc ap [x|] sk ob];
    [|contradiction]. simpl in *. subst ap sk d.
  destruct Ht as [-> | ->]; unfold draw; simpl;
    repeat split; reflexivity.
Qed.

(** The release that ends a pen or eraser stroke. *)
Lemma release_stroke (c : Client) (id : string) (q : Pos) :
  ready id c ->
  tool (state c) = "pen" \/ tool (state c) = "eraser" ->
  isDrawing (state c) = true ->
  let c1 := step c (MouseUp q) in
  isDrawing (state c1) = false
  /\ (exists snap,
        history (state c1)
        = slice0 (history (state c)) (historyStep (state c) + 1) ++ [snap])
  /\ historyStep (state c1)
     = Z.of_nat (List.length (history (state c1))) - 1
  /\ outbox c1 = outbox c ++ [EmitDrawingAction (stopAction (state c))]
  /\ globalCompositeOperation (canvasOf c1)
     = (if isEraser (tool (state c)) then source_over
        else globalCompositeOperation (canvasOf c)).
Proof.
  intros (Hx & Hs & Ha & _) Ht Hd c1.
  destruct (step_fields c (MouseUp q)) as (S & O & M).
  fold c1 in S, O, M. rewrite S, O, M. clear S O M c1.
  destruct c as [[d t co lw ew sp cp h hs pm] sr tc ap [x|] sk ob];
    [|contradiction]. simpl in *. subst ap sk d.
  destruct Ht as [-> | ->]; unfold stopDrawing; simpl;
    (split; [reflexivity|]); (split; [eexists; reflexivity|]);
    repeat split; reflexivity.
Qed.

Lemma sameSettings_trans (a b c : ReactState) :
  sameSettings a b -> sameSettings b c -> sameSettings a c.
Proof.
  intros (A1 & A2 & A3 & A4) (B1 & B2 & B3 & B4).
  repeat split; congruence.
Qed.

Lemma run_snoc (c : Client) (evs : list Event) (e : Event) :
  run c (evs ++ [e]) = step (run c evs) e.
Proof. unfold Canvas.run. rewrite fold_left_app. reflexivity. Qed.

(** The moves of a pen or eraser stroke. *)
Lemma moves_stroke (moves : list Pos) (c : Client) (id : string) :
  ready id c ->
  tool (state c) = "pen" \/ tool (state c) = "eraser" ->
  isDrawing (state c) = true ->
  let c1 := run c (map MouseMove moves) in
  ready id c1
  /\ isDrawing (state c1) = true
  /\ sameSettings (state c) (state c1)
  /\ history (state c1) = history (state c)
  /\ historyStep (state c1) = historyStep (state c)
  /\ outbox c1
     = outbox c
       ++ map (fun m => EmitDrawingAction (drawActionOf (state c) m)) moves
  /\ globalCompositeOperation (canvasOf c1)
     = match moves with
       | [] => globalCompositeOperation (canvasOf c)
       | _ :: _ => if isEraser (tool (state c)) then destination_out
                   else source_over
       end.
Proof.
  revert c. induction moves as [|m moves IH]; intros c R Ht Hd.
  - simpl. rewrite app_nil_r. repeat split; auto; apply R.
  - destruct (move_stroke m R Ht Hd) as (D1 & S1 & H1 & C1 & O1 & M1).
    pose proof (step_ready (MouseMove m) R eq_refl) as R1.
    assert (T1 : tool (state (step c (MouseMove m))) = tool (state c))
      by apply S1.
    assert (Ht1 : tool (state (step c (MouseMove m))) = "pen"
                  \/ tool (state (step c (MouseMove m))) = "eraser")
      by (rewrite T1; exact Ht).
    destruct (IH _ R1 Ht1 D1) as (R2 & D2 & S2 & H2 & C2 & O2 & M2).
    cbn [map]. change (run c (MouseMove m :: map MouseMove moves))
      with (run (step c (MouseMove m)) (map MouseMove moves)).
    cbv zeta. split; [exact R2|]. split; [exact D2|].
    split; [eapply sameSettings_trans; eassumption|].
    split; [congruence|]. split; [congruence|]. split.
    + rewrite O2, O1, <- app_assoc. cbn [app]. f_equal. f_equal.
      apply map_ext. intros q. f_equal. apply drawActionOf_settings, S1.
    + rewrite M2. destruct moves; [exact M1|]. rewrite T1. reflexivity.
Qed.

(** A whole pen or eraser stroke. *)
Lemma stroke_run :
  forall (c : Client) (id : string) (p : Pos) (moves : list Pos) (q : Pos),
    ready id c ->
    tool (state c) = "pen" \/ tool (state c) = "eraser" ->
    let c' := run c (dragEvents p moves q) in
    outbox c'
    = outbox c
      ++ EmitDrawingAction (startAction (state c) p)
         :: map (fun m => EmitDrawingAction (drawActionOf (state c) m)) moves
      ++ [EmitDrawingAction (stopAction (state c))]
    /\ isDrawing (state c') = false
    /\ (exists snap,
          history (state c')
          = slice0 (history (state c)) (historyStep (state c) + 1) ++ [snap])
    /\ historyStep (state c')
       = Z.of_nat (List.length (history (state c'))) - 1
    /\ (tool (state c) = "eraser" \/ moves <> [] ->
        globalCompositeOperation (canvasOf c') = source_over)
    /\ ready id c'.
Proof.
  intros c id p moves q R Ht c'.
  destruct (press_stroke p JNull R Ht) as (D1 & S1 & H1 & C1 & O1 & M1).
  pose proof (step_ready (MouseDown p JNull) R eq_refl) as R1.
  set (c1 := step c (MouseDown p JNull)) in *.
  assert (T1 : tool (state c1) = tool (state c)) by apply S1.
  assert (Ht1 : tool (state c1) = "pen" \/ tool (state c1) = "eraser")
    by (rewrite T1; exact Ht).
  destruct (moves_stroke moves R1 Ht1 D1)
    as (R2 & D2 & S2 & H2 & C2 & O2 & M2).
  set (c2 := run c1 (map MouseMove moves)) in *.
  assert (T2 : tool (state c2) = tool (state c1)) by apply S2.
  assert (Ht2 : tool (state c2) = "pen" \/ tool (state c2) = "eraser")
    by (rewrite T2; exact Ht1).
  destruct (release_stroke q R2 Ht2 D2) as (D3 & (snap & H3) & C3 & O3 & M3).
  assert (E : c' = step c2 (MouseUp q)).
  { unfold c', dragEvents.
    change (run c (MouseDown p JNull :: map MouseMove moves ++ [MouseUp q]))
      with (run c1 (map MouseMove moves ++ [MouseUp q])).
    apply run_snoc. }
  rewrite E. clear E c'.
  split; [|split; [exact D3|split; [|split; [exact C3|split]]]].
  - rewrite O3, O2, O1, <- !app_assoc. cbn [app]. f_equal. f_equal. f_equal.
    + apply map_ext. intros m. f_equal. apply drawActionOf_settings, S1.
    + f_equal. f_equal. unfold stopAction. rewrite T2, T1. reflexivity.
  - exists snap. rewrite H3, H2, H1, C2, C1. reflexivity.
  - intros G. rewrite M3, T2, T1.
    destruct (isEraser (tool (state c))) eqn:Er; [reflexivity|].
    rewrite M2. destruct G as [G|G].
    + rewrite G in Er. discriminate.
    + destruct moves; [contradiction G; reflexivity|].
      rewrite T1, Er. reflexivity.
  - apply step_ready; [exact R2 | reflexivity].
Qed.

(** X10.  A stroke with the pen or the eraser sends a start at the
    press point, one draw for each move and a stop, in that order and
    nothing else; saves exactly one snapshot, after the cursor; and
    leaves the client not drawing.  An eraser stroke, and a pen stroke
    with at least one move, ends in source-over. *)
Theorem X10_stroke_gesture :
  forall (c : Client) (id : string) (p : Pos) (moves : list Pos) (q : Pos),
    ready id c ->
    tool (state c) = "pen" \/ tool (state c) = "eraser" ->
    let c' := run c (dragEvents p moves q) in
    outbox c'
    = outbox c
      ++ EmitDrawingAction (startAction (state c) p)
         :: map (fun m => EmitDrawingAction (drawActionOf (state c) m)) moves
      ++ [EmitDrawingAction (stopAction (state c))]
    /\ isDrawing (state c') = false
    /\ (exists snap,
          history (state c')
          = slice0 (history (state c)) (historyStep (state c) + 1) ++ [snap])
    /\ historyStep (state c')
       = Z.of_nat (List.length (history (state c'))) - 1
    /\ (tool (state c) = "eraser" \/ moves <> [] ->
        globalCompositeOperation (canvasOf c') = source_over)
    /\ ready id c'.
Proof. exact stroke_run. Qed.

(** A press with the rectangle or the circle tool. *)
Lemma press_shape (c : Client) (id : string) (p : Pos) (text : JsVal) :
  ready id c ->
  tool (state c) = "rectangle" \/ tool (state c) = "circle" ->
  let c1 := step c (MouseDown p text) in
  isDrawing (state c1) = true
  /\ startPos (state c1) = p
  /\ sameSettings (state c) (state c1)
  /\ history (state c1) = history (state c)
  /\ historyStep (state c1) = historyStep (state c)
  /\ outbox c1 = outbox c.
Proof.
  intros (Hx & Hs & Ha & _) Ht c1.
  destruct (step_fields c (MouseDown p text)) as (S & O & _).
  fold c1 in S, O. rewrite S, O. clear S O c1.
  destruct c as [[d t co lw ew sp cp h hs pm] sr tc ap [x|] sk ob];
    [|contradiction]. simpl in *. subst ap sk.
  destruct Ht as [-> | ->]; unfold startDrawing; simpl;
    repeat split; reflexivity.
Qed.

(** A move while a shape is dragged. *)
Lemma move_shape (c : Client) (id : string) (q : Pos) :
  ready id c ->
  tool (state c) = "rectangle" \/ tool (state c) = "circle" ->
  let c1 := step c (MouseMove q) in
  isDrawing (state c1) = isDrawing (state c)
  /\ startPos (state c1) = startPos (state c)
  /\ sameSettings (state c) (state c1)
  /\ history (state c1) = history (state c)
  /\ historyStep (state c1) = historyStep (state c)
  /\ outbox c1 = outbox c.
Proof.
  intros (Hx & Hs & Ha & _) Ht c1.
  destruct (step_fields c (MouseMove q)) as (S & O & _).
  fold c1 in S, O. rewrite S, O. clear S O c1.
  destruct c as [[d t co lw ew sp cp h hs pm] sr tc ap [x|] sk ob];
    [|contradiction]. simpl in *. subst ap sk.
  destruct Ht as [-> | ->]; unfold draw; destruct d; simpl;
    repeat split; reflexivity.
Qed.

(** A release with the rectangle or the circle tool; [isDrawing] is not
    asked for. *)
Lemma release_shape (c : Client) (id : string) (q : Pos) (x : Context2D) :
  ready id c ->
  context c = Some x ->
  tool (state c) = "rectangle" \/ tool (state c) = "circle" ->
  let c1 := step c (MouseUp q) in
  let r := state c in
  let styled :=
    call (SetLineWidth (JNum (lineWidth r)))
         (call (SetStrokeStyle (JStr (color r))) x) in
  let drawn :=
    if String.eqb (tool r) "rectangle" then
      call (StrokeRect (JNum (px (startPos r))) (JNum (py (startPos r)))
              (JNum (dsub fp (px q) (px (startPos r))))
              (JNum (dsub fp (py q) (py (startPos r))))) styled
    else
      call Stroke
        (call (Arc (JNum (px (startPos r))) (JNum (py (startPos r)))
                 (JNum (dsqrt fp
                          (dadd fp
                             (dsquare fp (dsub fp (px q) (px (startPos r))))
                             (dsquare fp
                                (dsub fp (py q) (py (startPos r))))))))
           (call BeginPath styled)) in
  isDrawing (state c1) = false
  /\ previewMode (state c1) = false
  /\ history (state c1)
     = slice0 (history r) (historyStep r + 1) ++ [toDataURL drawn]
  /\ historyStep (state c1)
     = Z.of_nat (List.length (history (state c1))) - 1
  /\ outbox c1
     = outbox c ++ [EmitDrawingAction (shapeFrom fp r (startPos r) q)].
Proof.
  intros (Hx & Hs & Ha & _) Ex Ht c1 r styled drawn.
  destruct (step_fields c (MouseUp q)) as (S & O & _).
  fold c1 in S, O. rewrite S, O. clear S O c1.
  unfold drawn, styled, r. clear drawn styled r.
  destruct c as [[d t co lw ew sp cp h hs pm] sr tc ap cx sk ob].
  simpl in *. subst ap sk cx.
  destruct Ht as [-> | ->]; unfold stopDrawing; destruct d; simpl;
    repeat split; reflexivity.
Qed.

(** X12.  With the rectangle or the circle tool selected, a release of
    the button or a leave of the canvas draws the shape from the last
    press point to the pointer, sends it and saves a snapshot, whether
    or not a press went before; the snapshot is taken with the shape
    drawn.  The width and height are the differences of the
    coordinates, the radius the root of the sum of their squares, each
    as the arithmetic of doubles gives it, and the same numbers are
    drawn and sent. *)
Theorem X12_shape_release_needs_no_press :
  forall (c : Client) (id : string) (q : Pos) (x : Context2D),
    ready id c ->
    context c = Some x ->
    tool (state c) = "rectangle" \/ tool (state c) = "circle" ->
    let c1 := step c (MouseUp q) in
    let r := state c in
    let styled :=
      call (SetLineWidth (JNum (lineWidth r)))
           (call (SetStrokeStyle (JStr (color r))) x) in
    let drawn :=
      if String.eqb (tool r) "rectangle" then
        call (StrokeRect (JNum (px (startPos r))) (JNum (py (startPos r)))
                (JNum (dsub fp (px q) (px (startPos r))))
                (JNum (dsub fp (py q) (py (startPos r))))) styled
      else
        call Stroke
          (call (Arc (JNum (px (startPos r))) (JNum (py (startPos r)))
                   (JNum (dsqrt fp
                            (dadd fp
                               (dsquare fp (dsub fp (px q) (px (startPos r))))
                               (dsquare fp
                                  (dsub fp (py q) (py (startPos r))))))))
             (call BeginPath styled)) in
    isDrawing (state c1) = false
    /\ previewMode (state c1) = false
    /\ history (state c1)
       = slice0 (history r) (historyStep r + 1) ++ [toDataURL drawn]
    /\ historyStep (state c1)
       = Z.of_nat (List.length (history (state c1))) - 1
    /\ outbox c1
       = outbox c ++ [EmitDrawingAction (shapeFrom fp r (startPos r) q)].
Proof. intros c id q x R Ex Ht. exact (release_shape q R Ex Ht). Qed.

Lemma shapeFrom_settings (r r' : ReactState) (p q : Pos) :
  sameSettings r r' -> shapeFrom fp r' p q = shapeFrom fp r p q.
Proof.
  intros (Ht & Hc & Hl & He). unfold shapeFrom, rectFrom, circleFrom.
  rewrite Ht, Hc, Hl. reflexivity.
Qed.

(** The moves of a shape drag. *)
Lemma moves_shape (moves : list Pos) (c : Client) (id : string) :
  ready id c ->
  tool (state c) = "rectangle" \/ tool (state c) = "circle" ->
  let c1 := run c (map MouseMove moves) in
  ready id c1
  /\ startPos (state c1) = startPos (state c)
  /\ sameSettings (state c) (state c1)
  /\ history (state c1) = history (state c)
  /\ historyStep (state c1) = historyStep (state c)
  /\ outbox c1 = outbox c.
Proof.
  revert c. induction moves as [|m moves IH]; intros c R Ht.
  - simpl. repeat split; auto; apply R.
  - destruct (move_shape m R Ht) as (_ & P1 & S1 & H1 & C1 & O1).
    pose proof (step_ready (MouseMove m) R eq_refl) as R1.
    set (c1 := step c (MouseMove m)) in *.
    assert (T1 : tool (state c1) = tool (state c)) by apply S1.
    assert (Ht1 : tool (state c1) = "rectangle" \/ tool (state c1) = "circle")
      by (rewrite T1; exact Ht).
    destruct (IH _ R1 Ht1) as (R2 & P2 & S2 & H2 & C2 & O2).
    cbn [map]. change (run c (MouseMove m :: map MouseMove moves))
      with (run c1 (map MouseMove moves)).
    cbv zeta. split; [exact R2|]. split; [congruence|].
    split; [eapply sameSettings_trans; eassumption|].
    repeat split; congruence.
Qed.

(** X11.  A drag with the rectangle or the circle tool sends one
    message, however many moves it has: the shape from the press point
    to the release point, in the colour and line width selected, its
    width, height or radius computed from the two points in the
    arithmetic of doubles.  It saves one snapshot, after the cursor, and
    leaves the client not drawing. *)
Theorem X11_shape_gesture :
  forall (c : Client) (id : string) (p : Pos) (moves : list Pos) (q : Pos),
    ready id c ->
    tool (state c) = "rectangle" \/ tool (state c) = "circle" ->
    let c' := run c (dragEvents p moves q) in
    outbox c' = outbox c ++ [EmitDrawingAction (shapeFrom fp (state c) p q)]
    /\ isDrawing (state c') = false
    /\ previewMode (state c') = false
    /\ (exists snap,
          history (state c')
          = slice0 (history (state c)) (historyStep (state c) + 1) ++ [snap])
    /\ historyStep (state c')
       = Z.of_nat (List.length (history (state c'))) - 1.
Proof.
  intros c id p moves q R Ht c'.
  destruct (press_shape p JNull R Ht) as (_ & P1 & S1 & H1 & C1 & O1).
  pose proof (step_ready (MouseDown p JNull) R eq_refl) as R1.
  set (c1 := step c (MouseDown p JNull)) in *.
  assert (T1 : tool (state c1) = tool (state c)) by apply S1.
  assert (Ht1 : tool (state c1) = "rectangle" \/ tool (state c1) = "circle")
    by (rewrite T1; exact Ht).
  destruct (moves_shape moves R1 Ht1) as (R2 & P2 & S2 & H2 & C2 & O2).
  set (c2 := run c1 (map MouseMove moves)) in *.
  assert (T2 : tool (state c2) = tool (state c1)) by apply S2.
  assert (Ht2 : tool (state c2) = "rectangle" \/ tool (state c2) = "circle")
    by (rewrite T2; exact Ht1).
  destruct (context c2) as [x2|] eqn:E2; [|destruct R2 as [K _]; contradiction].
  destruct (release_shape q R2 E2 Ht2) as (D3 & V3 & H3 & C3 & O3).
  assert (E : c' = step c2 (MouseUp q)).
  { unfold c', dragEvents.
    change (run c (MouseDown p JNull :: map MouseMove moves ++ [MouseUp q]))
      with (run c1 (map MouseMove moves ++ [MouseUp q])).
    apply run_snoc. }
  rewrite E. clear E c'.
  split; [|split; [exact D3|split; [exact V3|split; [|exact C3]]]].
  - rewrite O3, O2, O1, P2, P1. f_equal. f_equal. f_equal.
    apply shapeFrom_settings. eapply sameSettings_trans; eassumption.
  - eexists. rewrite H3, H2, H1, C2, C1. reflexivity.
Qed.

(** X13.  With the text tool, a press whose prompt returns a non-empty
    string draws it at the press point in 16px Arial, saves one
    snapshot, taken with the text drawn, and sends one text action with
    the string, the point, the colour and that font; [isDrawing] is left
    as it was. *)
Theorem X13_text_placed :
  forall (c : Client) (id : string) (p : Pos) (text : JsVal) (x : Context2D),
    ready id c ->
    context c = Some x ->
    tool (state c) = "text" ->
    truthy text = true ->
    let c1 := step c (MouseDown p text) in
    let r := state c in
    let drawn :=
      call (FillText text (JNum (px p)) (JNum (py p)))
        (call (SetFont (JStr "16px Arial"))
           (call (SetLineWidth (JNum (lineWidth r)))
              (call (SetFillStyle (JStr (color r)))
                 (call (SetStrokeStyle (JStr (color r))) x)))) in
    outbox c1 = outbox c ++ [EmitDrawingAction (textAction r text p)]
    /\ a_font (textAction r text p) = JStr "16px Arial"
    /\ isDrawing (state c1) = isDrawing r
    /\ history (state c1)
       = slice0 (history r) (historyStep r + 1) ++ [toDataURL drawn]
    /\ historyStep (state c1)
       = Z.of_nat (List.length (history (state c1))) - 1.
Proof.
  intros c id p text x (Hx & Hs & Ha & _) Ex Ht Htext c1 r drawn.
  destruct (step_fields c (MouseDown p text)) as (S & O & _).
  fold c1 in S, O. rewrite S, O. clear S O c1.
  unfold drawn, r. clear drawn r.
  destruct c as [[d t co lw ew sp cp h hs pm] sr tc ap cx sk ob].
  simpl in *. subst ap sk cx t.
  unfold startDrawing. simpl. rewrite Htext. simpl.
  repeat split; reflexivity.
Qed.

(* ------------------------------------------------------------------ *)
(** ** Undo and redo *)

Lemma index_in_range {A} (l : list A) (i : Z) :
  0 <= i < Z.of_nat (List.length l) -> exists a, Js.index l i = Some a.
Proof.
  intros H. unfold Js.index.
  destruct (Z.ltb_spec i 0) as [L|L]; [lia|].
  destruct (nth_error l (Z.to_nat i)) eqn:E; [eauto|].
  apply nth_error_None in E. lia.
Qed.

(** X14.  Between gestures, an undo followed by a redo brings the
    state back as it was, sends nothing, and leaves on the canvas the
    snapshot the cursor stood on, drawn last. *)
Theorem X14_undo_then_redo :
  forall (c : Client) (x : Context2D),
    touched c = untouched ->
    isDrawing (state c) = false ->
    context c = Some x ->
    cursorOk (state c) ->
    0 < historyStep (state c) ->
    let c' := step (step c Undo) Redo in
    state c' = state c
    /\ outbox c' = outbox c
    /\ exists before here,
        Js.index (history (state c)) (historyStep (state c) - 1) = Some before
        /\ Js.index (history (state c)) (historyStep (state c)) = Some here
        /\ context c'
           = Some (call (DrawImage here)
                     (call ClearRect
                        (call (DrawImage before) (call ClearRect x)))).
Proof.
  intros c x T D Hx [Hemp Hok] Hpos c'.
  assert (Hne : history (state c) <> [])
    by (intros E; specialize (Hemp E); lia).
  specialize (Hok Hne).
  destruct (@index_in_range _ (history (state c)) (historyStep (state c) - 1))
    as [before Hb]; [lia|].
  destruct (@index_in_range _ (history (state c)) (historyStep (state c)))
    as [here Hh]; [lia|].
  assert (E1 : step c Undo
               = mkClient (state (setHistoryStep (fun s => s - 1) c))
                          (sockRender c) untouched (isApplyingRemoteAction c)
                          (Some (call (DrawImage before) (call ClearRect x)))
                          (socket c) (outbox c)).
  { unfold Canvas.step. simpl Canvas.handle. unfold handleUndo.
    replace (0 <? historyStep (state c)) with true
      by (symmetry; apply Z.ltb_lt; lia).
    apply (@commit_cursor_moved fp (state c)
             (setHistoryStep (fun s => s - 1) c) x before);
      try reflexivity; try assumption.
    simpl. lia. }
  unfold c'. clear c'. rewrite E1.
  remember (mkClient (state (setHistoryStep (fun s => s - 1) c))
                     (sockRender c) untouched (isApplyingRemoteAction c)
                     (Some (call (DrawImage before) (call ClearRect x)))
                     (socket c) (outbox c)) as c1 eqn:Ec1.
  assert (S1 : state c1 = state (setHistoryStep (fun s => s - 1) c))
    by (rewrite Ec1; reflexivity).
  assert (T1 : touched c1 = untouched) by (rewrite Ec1; reflexivity).
  assert (X1 : context c1
               = Some (call (DrawImage before) (call ClearRect x)))
    by (rewrite Ec1; reflexivity).
  assert (O1 : outbox c1 = outbox c) by (rewrite Ec1; reflexivity).
  assert (Hs1 : historyStep (state c1) = historyStep (state c) - 1)
    by (rewrite S1; reflexivity).
  assert (Hh1 : history (state c1) = history (state c))
    by (rewrite S1; reflexivity).
  assert (D1 : isDrawing (state c1) = false)
    by (rewrite S1; exact D).
  clear Ec1.
  assert (E2 : step c1 Redo
               = mkClient (state (setHistoryStep (fun s => s + 1) c1))
                          (sockRender c1) untouched (isApplyingRemoteAction c1)
                          (Some (call (DrawImage here)
                                   (call ClearRect
                                      (call (DrawImage before)
                                         (call ClearRect x)))))
                          (socket c1) (outbox c1)).
  { unfold Canvas.step. simpl Canvas.handle. unfold handleRedo.
    replace (historyStep (state c1)
             <? Z.of_nat (List.length (history (state c1))) - 1)
      with true by (symmetry; apply Z.ltb_lt; rewrite Hs1, Hh1; lia).
    apply (@commit_cursor_moved fp (state c1)
             (setHistoryStep (fun s => s + 1) c1)
             (call (DrawImage before) (call ClearRect x)) here);
      try reflexivity; try assumption.
    - simpl. lia.
    - simpl. rewrite Hs1, Hh1.
      replace (historyStep (state c) - 1 + 1) with (historyStep (state c))
        by lia.
      exact Hh. }
  rewrite E2. simpl.
  split; [|split; [exact O1|]].
  - rewrite S1. clear.
    destruct c as [[d t co lw ew sp cp h hs pm] sr tc ap cx sk ob]. simpl.
    f_equal. lia.
  - exists before, here. auto.
Qed.

Lemma undo_fields (c : Client) :
  history (state (step c Undo)) = history (state c)
  /\ historyStep (state (step c Undo))
     = (if 0 <? historyStep (state c) then historyStep (state c) - 1
        else historyStep (state c))
  /\ outbox (step c Undo) = outbox c.
Proof.
  destruct (step_fields c Undo) as (S & O & _). rewrite S, O.
  simpl. unfold handleUndo.
  destruct (0 <? historyStep (state c)); repeat split; reflexivity.
Qed.

Lemma redo_fields (c : Client) :
  history (state (step c Redo)) = history (state c)
  /\ historyStep (state (step c Redo))
     = (if historyStep (state c)
           <? Z.of_nat (List.length (history (state c))) - 1
        then historyStep (state c) + 1
        else historyStep (state c))
  /\ outbox (step c Redo) = outbox c.
Proof.
  destruct (step_fields c Redo) as (S & O & _). rewrite S, O.
  simpl. unfold handleRedo.
  destruct (_ <? _); repeat split; reflexivity.
Qed.

(** X15.  Repeated undo stops at the first snapshot and repeated redo
    at the last: from cursor k, n undos leave the cursor at
    max (k - n) 0, and n redos at min (k + n) (length - 1); the history
    is unchanged and nothing is sent. *)
Theorem X15_undo_redo_saturate :
  forall (n : nat) (c : Client),
    0 <= historyStep (state c) <= Z.of_nat (List.length (history (state c))) - 1 ->
    (historyStep (state (run c (repeat Undo n)))
     = Z.max (historyStep (state c) - Z.of_nat n) 0
     /\ history (state (run c (repeat Undo n))) = history (state c)
     /\ outbox (run c (repeat Undo n)) = outbox c)
    /\ (historyStep (state (run c (repeat Redo n)))
        = Z.min (historyStep (state c) + Z.of_nat n)
                (Z.of_nat (List.length (history (state c))) - 1)
        /\ history (state (run c (repeat Redo n))) = history (state c)
        /\ outbox (run c (repeat Redo n)) = outbox c).
Proof.
  induction n as [|n IH]; intros c H.
  - simpl. split; (split; [lia | split; reflexivity]).
  - destruct (undo_fields c) as (Uh & Us & Uo).
    destruct (redo_fields c) as (Rh & Rs & Ro).
    change (run c (repeat Undo (S n)))
      with (run (step c Undo) (repeat Undo n)).
    change (run c (repeat Redo (S n)))
      with (run (step c Redo) (repeat Redo n)).
    split.
    + destruct (IH (step c Undo)) as [(A & B & C) _].
      { rewrite Uh, Us. destruct (Z.ltb_spec 0 (historyStep (state c))); lia. }
      rewrite A, B, C, Us, Uh, Uo.
      split; [|split; reflexivity].
      destruct (Z.ltb_spec 0 (historyStep (state c))); lia.
    + destruct (IH (step c Redo)) as [_ (A & B & C)].
      { rewrite Rh, Rs. destruct (Z.ltb_spec (historyStep (state c))
          (Z.of_nat (List.length (history (state c))) - 1)); lia. }
      rewrite A, B, C, Rs, Rh, Ro.
      split; [|split; reflexivity].
      destruct (Z.ltb_spec (historyStep (state c))
                  (Z.of_nat (List.length (history (state c))) - 1)); lia.
Qed.

(* ------------------------------------------------------------------ *)
(** ** The interpreter on relayed actions *)

(** X16.  An action whose type is missing or is none of the eight the
    interpreter knows paints nothing: it only writes style properties,
    at most six, and the compositing mode is as before. *)
Theorem X16_unknown_type_paints_nothing :
  forall (r : ReactState) (data : Action) (x : Context2D),
    knownType (a_type data) = false ->
    let x' := applyDrawingAction r data x in
    Forall (fun mo => isStyleWrite (snd mo) = true) (callsSince x x')
    /\ Forall (fun mo => paints (snd mo) = false) (callsSince x x')
    /\ (List.length (callsSince x x') <= 6)%nat
    /\ globalCompositeOperation x' = globalCompositeOperation x.
Proof.
  intros r data x K x'. unfold x'.
  unfold knownType in K.
  repeat (apply orb_false_elim in K; destruct K as [K ?]).
  assert (R : raises r data = false).
  { unfold Canvas.raises.
    repeat match goal with
           | H : is_str _ _ = false |- _ => rewrite ?H; clear H
           end.
    reflexivity. }
  rewrite applyDrawingAction_since, applyDrawingAction_mode by exact R.
  unfold Canvas.shapeCalls, styleWrites.
  repeat match goal with
         | H : is_str _ _ = false |- _ => rewrite H; clear H
         end.
  rewrite app_nil_r.
  destruct (erases data); simpl; repeat split; repeat constructor; lia.
Qed.

Lemma fold_apply_calls (r : ReactState) (actions : list Action) (x : Context2D) :
  applies r actions = true ->
  calls (fold_left (fun x a => applyDrawingAction r a x) actions x)
  = calls x
    ++ flat_map
         (fun a =>
            map (pair (globalCompositeOperation x)) (styleWrites r a)
            ++ map (pair (renderMode a x)) (shapeCalls r a))
         actions.
Proof.
  intros H. rewrite fold_apply_eq by exact H. reflexivity.
Qed.

(** The actions of a stroke have no [arc]. *)
Lemma stroke_applies (sender receiver : ReactState) (p : Pos)
      (moves : list Pos) :
  applies receiver (strokeActions sender p moves) = true.
Proof.
  unfold Canvas.applies, strokeActions. apply forallb_forall.
  intros a [<-|Ha]; [reflexivity|].
  apply in_app_or in Ha. destruct Ha as [Ha|[<-|[]]]; [|reflexivity].
  apply in_map_iff in Ha. destruct Ha as (q & <- & _).
  unfold drawActionOf. destruct (String.eqb (tool sender) "pen"); reflexivity.
Qed.

Lemma pathAndPaint_app (a b : list (string * CtxOp)) :
  pathAndPaint (a ++ b) = pathAndPaint a ++ pathAndPaint b.
Proof. apply filter_app. Qed.

Lemma pathAndPaint_styleWrites (m : string) (r : ReactState) (a : Action) :
  pathAndPaint (map (pair m) (styleWrites r a)) = [].
Proof. reflexivity. Qed.

(** X18.  A peer that applies the actions of a pen or eraser stroke,
    in order, draws one path: it begins at the press point, goes
    through the moves with a stroke after each, and is closed.  A pen
    stroke is drawn in the mode the peer's canvas was in, an eraser
    stroke in destination-out; the canvas ends in the mode it was in. *)
Theorem X18_peer_draws_the_stroke :
  forall (sender receiver : ReactState) (p : Pos) (moves : list Pos)
         (x : Context2D),
    tool sender = "pen" \/ tool sender = "eraser" ->
    let x' := fold_left (fun x a => applyDrawingAction receiver a x)
                        (strokeActions sender p moves) x in
    let mode := if isEraser (tool sender) then destination_out
                else globalCompositeOperation x in
    pathAndPaint (callsSince x x') = map (pair mode) (strokePath p moves)
    /\ globalCompositeOperation x' = globalCompositeOperation x.
Proof.
  intros sender receiver p moves x Ht x' mode.
  pose proof (stroke_applies sender receiver p moves) as A.
  split; [|apply fold_apply_mode, A].
  unfold x'.
  rewrite (@callsSince_app _ _ _ (@fold_apply_calls receiver _ x A)).
  clear A.
  unfold strokeActions, strokePath.
  cbn [flat_map]. rewrite flat_map_app. cbn [flat_map].
  rewrite app_nil_r, !pathAndPaint_app, !pathAndPaint_styleWrites.
  cbn [app].
  assert (M : forall q,
             pathAndPaint
               (map (pair (globalCompositeOperation x))
                    (styleWrites receiver (drawActionOf sender q))
                ++ map (pair (renderMode (drawActionOf sender q) x))
                       (shapeCalls receiver (drawActionOf sender q)))
             = map (pair mode)
                   [LineTo (JNum (px q)) (JNum (py q)); Stroke]).
  { intros q. unfold mode, drawActionOf, penDrawAction, eraserDrawAction.
    destruct Ht as [E | E]; rewrite !E; reflexivity. }
  assert (F : pathAndPaint
                (flat_map
                   (fun a =>
                      map (pair (globalCompositeOperation x))
                          (styleWrites receiver a)
                      ++ map (pair (renderMode a x)) (shapeCalls receiver a))
                   (map (drawActionOf sender) moves))
              = map (pair mode)
                    (flat_map
                       (fun q => [LineTo (JNum (px q)) (JNum (py q)); Stroke])
                       moves)).
  { induction moves as [|q moves IH]; [reflexivity|].
    cbn [map flat_map]. rewrite pathAndPaint_app, M, IH, map_app.
    reflexivity. }
  rewrite F. unfold mode, startAction, stopAction.
  destruct Ht as [E | E]; rewrite !E; cbn; rewrite map_app; reflexivity.
Qed.

(** X17.  A clear, end to end.  The client clears its canvas, saves a
    snapshot of the cleared canvas and sends the clear signal.  The
    server appends the clear action to its log like any other action,
    keeping what the log held, and sends it to every other connected
    socket.  A receiver's interpreter makes one painting call for it, a
    clear of the whole canvas, as its last call. *)
Theorem X17_clear_end_to_end :
  forall (c : Client) (id : string) (x : Context2D) (st : Server.State),
    ready id c ->
    context c = Some x ->
    (outbox (step c Clear) = outbox c ++ [EmitClearCanvas]
     /\ history (state (step c Clear))
        = slice0 (history (state c)) (historyStep (state c) + 1)
          ++ [toDataURL (call ClearRect x)])
    /\ (Server.drawingActionsHistory
          (fst (Server.step st (Wire.submit id EmitClearCanvas)))
        = Server.push_bounded (Server.drawingActionsHistory st) clearAction
        /\ forall peer,
            In peer (Server.sockets st) -> peer <> id ->
            In (peer, Server.DrawingAction clearAction)
               (snd (Server.step st (Wire.submit id EmitClearCanvas))))
    /\ (forall r y,
          exists styles,
            callsSince y (applyDrawingAction r clearAction y)
            = styles ++ [(globalCompositeOperation y, ClearRect)]
            /\ Forall (fun mo => paints (snd mo) = false) styles).
Proof.
  intros c id x st (_ & Hs & _ & _) Ex.
  split; [|split].
  - destruct (step_fields c Clear) as (S & O & _). rewrite S, O.
    simpl. unfold handleClear. rewrite Ex.
    rewrite emit_state. unfold emit.
    rewrite (@saveHistory_history toDataURL (state c)
               (withContext (call ClearRect) c) (call ClearRect x))
      by (simpl; rewrite Ex; reflexivity).
    assert (Sk : socket (saveHistory (state c)
                           (withContext (call ClearRect) c)) = Some id).
    { unfold Canvas.saveHistory. simpl. rewrite Ex. simpl. exact Hs. }
    rewrite Sk. simpl. rewrite saveHistory_outbox. auto.
  - split; [reflexivity|]. intros peer I N. simpl.
    apply broadcast_emit_spec. auto.
  - intros r y. rewrite applyDrawingAction_since.
    exists (map (pair (globalCompositeOperation y)) (styleWrites r clearAction)).
    split; [reflexivity|]. repeat constructor.
Qed.

(* ------------------------------------------------------------------ *)
(** ** Shape preview and tool selection *)

(** X19.  While a rectangle is dragged, each move puts the canvas in
    source-over, draws the snapshot under the cursor on the cleared
    canvas and strokes the rectangle from the press point to the
    pointer over it, its width and height the differences of the
    coordinates as the arithmetic of doubles gives them, so earlier
    previews do not pile up.  Nothing is sent and no snapshot is
    saved. *)
Theorem X19_rectangle_preview_is_local :
  forall (c : Client) (id : string) (q : Pos) (x : Context2D) (src : string),
    ready id c ->
    context c = Some x ->
    tool (state c) = "rectangle" ->
    isDrawing (state c) = true ->
    previewMode (state c) = true ->
    Js.index (history (state c)) (historyStep (state c)) = Some src ->
    let r := state c in
    let c1 := step c (MouseMove q) in
    context c1
    = Some
        (call (StrokeRect (JNum (px (startPos r))) (JNum (py (startPos r)))
                 (JNum (dsub fp (px q) (px (startPos r))))
                 (JNum (dsub fp (py q) (py (startPos r)))))
           (call (SetLineWidth (JNum (lineWidth r)))
              (call (SetStrokeStyle (JStr (color r)))
                 (call (DrawImage src)
                    (call ClearRect
                       (setComposite source_over
                          (call (SetLineWidth (JNum (lineWidth r)))
                             (call (SetStrokeStyle (JStr (color r))) x))))))))
    /\ outbox c1 = outbox c
    /\ history (state c1) = history r
    /\ historyStep (state c1) = historyStep r
    /\ currentPos (state c1) = q.
Proof.
  intros c id q x src (_ & Hs & Ha & Ht) Ex Htool Hd Hp Hi r c1.
  pose proof (index_some _ _ Hi) as B.
  unfold c1, r. clear c1 r.
  destruct c as [[d t co lw ew sp cp h hs pm] sr tc ap cx sk ob].
  simpl in *. subst ap sk cx t d pm tc.
  unfold Canvas.step, Canvas.commit. simpl.
  rewrite Z.eqb_refl, !String.eqb_refl, !Qeq_bool_same. simpl.
  unfold drawShapePreview, inHistory. simpl. rewrite Hi.
  replace (0 <=? hs) with true by (symmetry; apply Z.leb_le; lia).
  replace (hs <? Z.of_nat (List.length h)) with true
    by (symmetry; apply Z.ltb_lt; lia).
  simpl. repeat split; reflexivity.
Qed.

(** X20.  Selecting a tool between gestures writes the style
    properties of the context, the line width being the eraser width
    for the eraser and the line width otherwise; it paints nothing,
    sends nothing and saves nothing.  Selecting the tool that is
    already selected changes nothing at all. *)
Theorem X20_select_tool :
  forall (c : Client) (t : string) (x : Context2D),
    touched c = untouched ->
    isDrawing (state c) = false ->
    context c = Some x ->
    let c1 := step c (SelectTool t) in
    tool (state c1) = t
    /\ outbox c1 = outbox c
    /\ history (state c1) = history (state c)
    /\ historyStep (state c1) = historyStep (state c)
    /\ (t = tool (state c) -> c1 = c)
    /\ (t <> tool (state c) ->
        context c1
        = Some
            (call (SetFont (JStr "16px Arial"))
               (call (SetFillStyle (JStr (color (state c))))
                  (call (SetLineWidth
                           (JNum (if isEraser t then eraserWidth (state c)
                                  else lineWidth (state c))))
                     (call (SetStrokeStyle (JStr (color (state c))))
                        (call (SetLineCap (JStr "round")) x)))))).
Proof.
  intros c t x T D Ex c1. unfold c1. clear c1.
  destruct c as [[d t0 co lw ew sp cp h hs pm] sr tc ap cx sk ob].
  simpl in *. subst tc d cx.
  unfold Canvas.step, Canvas.commit. simpl.
  rewrite Z.eqb_refl, !String.eqb_refl, !Qeq_bool_same, !Bool.eqb_reflx.
  simpl. unfold drawShapePreview. simpl.
  split; [destruct (String.eqb t0 t); reflexivity|].
  split; [destruct (String.eqb t0 t); reflexivity|].
  split; [destruct (String.eqb t0 t); reflexivity|].
  split; [destruct (String.eqb t0 t); reflexivity|].
  split.
  - intros ->. rewrite String.eqb_refl. reflexivity.
  - intros N. rewrite (eqb_neq_false (fun E => N (eq_sym E))). simpl.
    reflexivity.
Qed.

(* ------------------------------------------------------------------ *)
(** ** From one client to another *)

Lemma relayed_to_other (a b : string) (msgs : list Emit) :
  a <> b ->
  flat_map (Wire.relayedTo b) (map (Wire.submit a) msgs)
  = map (fun m => match m with
                  | EmitDrawingAction data => Server.DrawingAction data
                  | EmitClearCanvas => Server.DrawingAction clearAction
                  end) msgs.
Proof.
  intros N. induction msgs as [|m msgs IH]; [reflexivity|].
  cbn [map flat_map]. rewrite IH.
  destruct m; simpl; rewrite (eqb_neq_false N); reflexivity.
Qed.

Lemma relayed_to_self (a : string) (msgs : list Emit) :
  flat_map (Wire.relayedTo a) (map (Wire.submit a) msgs) = [].
Proof.
  induction msgs as [|m msgs IH]; [reflexivity|].
  cbn [map flat_map]. rewrite IH.
  destruct m; simpl; rewrite String.eqb_refl; reflexivity.
Qed.

Lemma submit_is_submission (a : string) (msgs : list Emit) :
  forallb Wire.isSubmission (map (Wire.submit a) msgs) = true.
Proof.
  induction msgs as [|m msgs IH]; [reflexivity|].
  cbn [map forallb]. rewrite IH. destruct m; reflexivity.
Qed.

(** X21.  A stroke from client to client.  What a client sends during
    a pen or eraser stroke, handled by the server in the order sent,
    reaches every other connected socket as the start, the draws and
    the stop of that stroke, one message each, in order; the sending
    socket is sent none of it. *)
Theorem X21_stroke_reaches_peers :
  forall (c : Client) (a b : string) (p : Pos) (moves : list Pos) (q : Pos)
         (st : Server.State),
    ready a c ->
    tool (state c) = "pen" \/ tool (state c) = "eraser" ->
    NoDup (Server.sockets st) ->
    In a (Server.sockets st) ->
    In b (Server.sockets st) ->
    a <> b ->
    let sent := skipn (List.length (outbox c))
                      (outbox (run c (dragEvents p moves q))) in
    let out := snd (Server.run st (map (Wire.submit a) sent)) in
    Wire.deliveredTo b out
    = map Server.DrawingAction (strokeActions (state c) p moves)
    /\ Wire.deliveredTo a out = [].
Proof.
  intros c a b p moves q st R Ht D Ia Ib N sent out.
  destruct (stroke_run p moves q R Ht) as (O & _).
  assert (E : sent
              = EmitDrawingAction (startAction (state c) p)
                :: map (fun m => EmitDrawingAction (drawActionOf (state c) m))
                       moves
                ++ [EmitDrawingAction (stopAction (state c))]).
  { unfold sent. rewrite O, skipn_app, skipn_all, Nat.sub_diag. reflexivity. }
  unfold out. clearbody sent. subst sent. split.
  - rewrite (@relay_run st b _ D Ib (submit_is_submission a _)).
    rewrite (@relayed_to_other a b _ N). unfold strokeActions.
    cbn [map]. rewrite !map_app, !map_map. reflexivity.
  - rewrite (@relay_run st a _ D Ia (submit_is_submission a _)).
    apply relayed_to_self.
Qed.

(* ------------------------------------------------------------------ *)
(** ** What is never sent, and the client without a canvas *)

Ltac typed_none :=
  exists []; rewrite ?app_nil_r; split; [reflexivity | constructor].

Ltac typed_one :=
  eexists; split; [reflexivity | repeat constructor].

Lemma handle_sent_types (e : Event) (c : Client) :
  exists new,
    outbox (handle e c) = outbox c ++ new
    /\ Forall (fun m => match m with
                        | EmitDrawingAction data => sentType (a_type data) = true
                        | EmitClearCanvas => e = Clear
                        end) new.
Proof.
  destruct e as [|t|p text|p|p| | | |actions|data].
  - simpl. rewrite saveHistory_outbox. typed_none.
  - typed_none.
  - destruct c as [st sr tc [|] [x|] [id|] ob];
      simpl; unfold startDrawing; simpl; split_ifs; simpl;
      first [solve [typed_none] | solve [typed_one]].
  - destruct c as [st sr tc [|] [x|] [id|] ob];
      simpl; unfold draw; simpl; split_ifs; simpl;
      first [solve [typed_none] | solve [typed_one]].
  - destruct c as [st sr tc [|] [x|] [id|] ob];
      simpl; unfold stopDrawing; simpl; split_ifs; simpl;
      first [solve [typed_none] | solve [typed_one]].
  - simpl. rewrite handleUndo_outbox. typed_none.
  - simpl. rewrite handleRedo_outbox. typed_none.
  - destruct c as [st sr tc ap [x|] [id|] ob]; simpl;
      first [solve [typed_none] | solve [typed_one]].
  - destruct (handle_outbox (RecvInitialDrawingHistory actions) c)
      as (new & O & _ & _ & K).
    rewrite (K (Server.InitialDrawingHistory actions) eq_refl) in O.
    exists []. split; [exact O | constructor].
  - destruct (handle_outbox (RecvDrawingAction data) c)
      as (new & O & _ & _ & K).
    rewrite (K (Server.DrawingAction data) eq_refl) in O.
    exists []. split; [exact O | constructor].
Qed.

(** X22.  Every drawing action a client sends has one of the six
    types start, draw, stop, rect, circle and text; an action of type
    eraser or clear is never sent, and the clear signal is sent by the
    clear button only. *)
Theorem X22_sent_action_types :
  forall (c : Client) (e : Event),
    exists new,
      outbox (step c e) = outbox c ++ new
      /\ Forall (fun m => match m with
                          | EmitDrawingAction data =>
                              sentType (a_type data) = true
                          | EmitClearCanvas => e = Clear
                          end) new.
Proof.
  intros c e. unfold Canvas.step. rewrite commit_outbox.
  apply handle_sent_types.
Qed.

Lemma commit_without_canvas (old : ReactState) (c : Client) :
  context c = None -> context (Canvas.commit fp old c) = None.
Proof.
  intros H. unfold Canvas.commit, settingsEffect, restoreEffect,
    restoreHistory, drawShapePreview. cbv zeta.
  destruct c as [st sr tc ap cx sk ob]. simpl in H. subst cx.
  repeat match goal with
         | |- context [if ?b then _ else _] => destruct b
         | |- context [match ?o with Some _ => _ | None => _ end] =>
             destruct o
         end; reflexivity.
Qed.

(** X23.  A client without a canvas sends nothing, saves no snapshot
    and gets no canvas, whatever the event. *)
Theorem X23_nothing_without_canvas :
  forall (c : Client) (e : Event),
    context c = None ->
    holdings (step c e) = holdings c.
Proof.
  intros c e H. unfold holdings.
  destruct (step_fields c e) as (S & O & _). rewrite S, O.
  assert (K : context (handle e c) = None
              /\ history (state (handle e c)) = history (state c)
              /\ outbox (handle e c) = outbox c).
  { destruct c as [st sr tc ap cx sk ob]. simpl in H. subst cx.
    destruct e as [|t|p text|p|p| | | |actions|data]; simpl;
      try (repeat split; reflexivity).
    - unfold startDrawing. simpl. destruct ap; repeat split; reflexivity.
    - unfold draw. simpl. split_ifs; repeat split; reflexivity.
    - unfold stopDrawing. simpl. split_ifs; repeat split; reflexivity.
    - unfold handleUndo. simpl. split_ifs; repeat split; reflexivity.
    - unfold handleRedo. simpl. split_ifs; repeat split; reflexivity.
    - unfold onDrawingAction. simpl. split_ifs; repeat split; reflexivity. }
  destruct K as (A & B & D).
  unfold Canvas.step. rewrite (commit_without_canvas _ _ A), B, D, H.
  reflexivity.
Qed.

End ClientExtras.

(* ================================================================== *)
(** * Changing the colour or a width *)

Section ControlFacts.

Import Canvas Gesture Controls.

Variable toDataURL : Context2D -> string.
Variable fp : Doubles.
Variable arcThrows : CtxOp -> bool.

Local Abbreviation applies := (applies arcThrows).
Local Abbreviation rendering := (rendering arcThrows).




(** The same value again: the client is as it was. *)
Lemma changeSetting_same (c : Client) (s : Setting) (newId : string) :
  sameValue s (state c) = true -> changeSetting fp s newId c = c.
Proof. intros H. unfold changeSetting. rewrite H. reflexivity. Qed.

End ControlFacts.

(* ================================================================== *)
(** * The further properties at concrete inputs *)

Section ExtraWitnesses.

Import Canvas Gesture Examples MoreExamples.

Ltac by_eval := vm_compute; first [reflexivity | discriminate].

Ltac is_ready := repeat split; vm_compute; first [reflexivity | discriminate].

(** X4 at [fresh]. *)
Lemma X4_stray_pointer_events_ignored_witness :
  touched Examples.fresh = untouched
  /\ isDrawing (state Examples.fresh) = false
  /\ Canvas.step Examples.countCalls Examples.exact
       Examples.negativeRadius Examples.fresh
       (MouseMove (mkPos 7 7)) = Examples.fresh
  /\ Canvas.step Examples.countCalls Examples.exact
       Examples.negativeRadius Examples.fresh
       (MouseUp (mkPos 7 7)) = Examples.fresh.
Proof.
  assert (T : touched Examples.fresh = untouched)
    by (vm_compute; reflexivity).
  assert (D : isDrawing (state Examples.fresh) = false)
    by (vm_compute; reflexivity).
  destruct (@X4_stray_pointer_events_ignored Examples.countCalls
              Examples.exact Examples.negativeRadius Examples.fresh (mkPos 7 7) T D) as (M & U).
  split; [exact T|]. split; [exact D|]. split; [exact M|].
  apply U; vm_compute; discriminate.
Defined.

(** X5 at the start action of a pen stroke, under two settings. *)
Lemma X5_receiver_settings_do_not_matter_witness :
  truthy (a_color (startAction initialState (mkPos 1 1))) = true
  /\ truthy (a_lineWidth (startAction initialState (mkPos 1 1))) = true
  /\ applyDrawingAction negativeRadius initialState (startAction initialState (mkPos 1 1)) blank
     = applyDrawingAction negativeRadius otherSettings (startAction initialState (mkPos 1 1)) blank.
Proof.
  assert (H1 : truthy (a_color (startAction initialState (mkPos 1 1))) = true)
    by by_eval.
  assert (H2 : truthy (a_lineWidth (startAction initialState (mkPos 1 1))) = true)
    by by_eval.
  split; [exact H1|]. split; [exact H2|].
  exact (@X5_receiver_settings_do_not_matter negativeRadius initialState otherSettings
           (startAction initialState (mkPos 1 1)) blank H1 H2).
Defined.


(** X8 at [fresh] and an action naming its own socket. *)
Lemma X8_own_action_dropped_witness :
  socket fresh = Some "A"
  /\ a_emitterSocketId ownAction = JStr "A"
  /\ touched fresh = untouched
  /\ Canvas.step countCalls exact negativeRadius fresh (RecvDrawingAction ownAction) = fresh.
Proof.
  assert (H1 : socket fresh = Some "A") by by_eval.
  assert (H2 : a_emitterSocketId ownAction = JStr "A") by by_eval.
  assert (H3 : touched fresh = untouched) by by_eval.
  split; [exact H1|]. split; [exact H2|]. split; [exact H3|].
  exact (@X8_own_action_dropped countCalls exact negativeRadius fresh "A" ownAction H1 H2 H3).
Defined.


(** X10 at [fresh] with the pen and two moves. *)
Lemma X10_stroke_gesture_witness :
  ready "A" fresh
  /\ (tool (state fresh) = "pen" \/ tool (state fresh) = "eraser")
  /\ isDrawing
       (state (Canvas.run countCalls exact negativeRadius fresh
                 (dragEvents (mkPos 1 1) [mkPos 2 2; mkPos 3 3] (mkPos 3 3))))
     = false.
Proof.
  assert (R : ready "A" fresh) by is_ready.
  assert (T : tool (state fresh) = "pen" \/ tool (state fresh) = "eraser")
    by (left; by_eval).
  split; [exact R|]. split; [exact T|].
  destruct (@X10_stroke_gesture countCalls exact negativeRadius fresh "A" (mkPos 1 1)
              [mkPos 2 2; mkPos 3 3] (mkPos 3 3) R T) as (_ & K & _).
  exact K.
Defined.

(** X11 at [rectClient] with one move. *)
Lemma X11_shape_gesture_witness :
  ready "A" rectClient
  /\ (tool (state rectClient) = "rectangle"
      \/ tool (state rectClient) = "circle")
  /\ outbox (Canvas.run countCalls exact negativeRadius rectClient
               (dragEvents (mkPos 1 1) [mkPos 2 2] (mkPos 4 5)))
     = outbox rectClient
       ++ [EmitDrawingAction
             (shapeFrom exact (state rectClient) (mkPos 1 1) (mkPos 4 5))].
Proof.
  assert (R : ready "A" rectClient) by is_ready.
  assert (T : tool (state rectClient) = "rectangle"
              \/ tool (state rectClient) = "circle") by (left; by_eval).
  split; [exact R|]. split; [exact T|].
  destruct (@X11_shape_gesture countCalls exact negativeRadius rectClient "A" (mkPos 1 1)
              [mkPos 2 2] (mkPos 4 5) R T) as (K & _).
  exact K.
Defined.

(** X12 at [rectClient], where no press went before. *)
Lemma X12_shape_release_needs_no_press_witness :
  ready "A" rectClient
  /\ context rectClient = Some (canvasOf rectClient)
  /\ (tool (state rectClient) = "rectangle"
      \/ tool (state rectClient) = "circle")
  /\ isDrawing (state rectClient) = false
  /\ outbox (Canvas.step countCalls exact negativeRadius rectClient (MouseUp (mkPos 4 5)))
     = outbox rectClient
       ++ [EmitDrawingAction
             (shapeFrom exact (state rectClient)
                (startPos (state rectClient)) (mkPos 4 5))].
Proof.
  assert (R : ready "A" rectClient) by is_ready.
  assert (X : context rectClient = Some (canvasOf rectClient)) by by_eval.
  assert (T : tool (state rectClient) = "rectangle"
              \/ tool (state rectClient) = "circle") by (left; by_eval).
  assert (D : isDrawing (state rectClient) = false) by by_eval.
  split; [exact R|]. split; [exact X|]. split; [exact T|]. split; [exact D|].
  destruct (@X12_shape_release_needs_no_press countCalls exact negativeRadius rectClient
              "A" (mkPos 4 5) (canvasOf rectClient) R X T)
    as (_ & _ & _ & _ & K).
  exact K.
Defined.

(** X13 at [textClient] with the prompt answered. *)
Lemma X13_text_placed_witness :
  ready "A" textClient
  /\ context textClient = Some (canvasOf textClient)
  /\ tool (state textClient) = "text"
  /\ truthy (JStr "hi") = true
  /\ outbox (Canvas.step countCalls exact negativeRadius textClient
               (MouseDown (mkPos 5 5) (JStr "hi")))
     = outbox textClient
       ++ [EmitDrawingAction
             (textAction (state textClient) (JStr "hi") (mkPos 5 5))].
Proof.
  assert (R : ready "A" textClient) by is_ready.
  assert (X : context textClient = Some (canvasOf textClient)) by by_eval.
  assert (T : tool (state textClient) = "text") by by_eval.
  assert (H : truthy (JStr "hi") = true) by by_eval.
  split; [exact R|]. split; [exact X|]. split; [exact T|]. split; [exact H|].
  destruct (@X13_text_placed countCalls exact negativeRadius textClient "A" (mkPos 5 5)
              (JStr "hi") (canvasOf textClient) R X T H) as (K & _).
  exact K.
Defined.

(** X14 at [undone]. *)
Lemma X14_undo_then_redo_witness :
  touched undone = untouched
  /\ isDrawing (state undone) = false
  /\ context undone = Some (canvasOf undone)
  /\ cursorOk (state undone)
  /\ 0 < historyStep (state undone)
  /\ state (Canvas.step countCalls exact negativeRadius
              (Canvas.step countCalls exact negativeRadius undone Undo) Redo)
     = state undone.
Proof.
  assert (H1 : touched undone = untouched) by by_eval.
  assert (H2 : isDrawing (state undone) = false) by by_eval.
  assert (H3 : context undone = Some (canvasOf undone)) by by_eval.
  assert (H4 : cursorOk (state undone)).
  { split; [intros E; vm_compute in E; discriminate|].
    intros _. vm_compute. split; [discriminate | reflexivity]. }
  assert (H5 : 0 < historyStep (state undone)) by by_eval.
  split; [exact H1|]. split; [exact H2|]. split; [exact H3|].
  split; [exact H4|]. split; [exact H5|].
  destruct (@X14_undo_then_redo countCalls exact negativeRadius undone (canvasOf undone)
              H1 H2 H3 H4 H5) as (K & _).
  exact K.
Defined.

(** X15 at [twoGestures] with five steps. *)
Lemma X15_undo_redo_saturate_witness :
  0 <= historyStep (state twoGestures)
    <= Z.of_nat (List.length (history (state twoGestures))) - 1
  /\ historyStep
       (state (Canvas.run countCalls exact negativeRadius twoGestures (repeat Undo 5)))
     = Z.max (historyStep (state twoGestures) - Z.of_nat 5) 0.
Proof.
  assert (H : 0 <= historyStep (state twoGestures)
              <= Z.of_nat (List.length (history (state twoGestures))) - 1)
    by (split; vm_compute; discriminate).
  split; [exact H|].
  destruct (@X15_undo_redo_saturate countCalls exact negativeRadius 5%nat twoGestures H)
    as ((K & _) & _).
  exact K.
Defined.

(** X16 at the empty object. *)
Lemma X16_unknown_type_paints_nothing_witness :
  knownType (a_type emptyAction) = false
  /\ Forall (fun mo => paints (snd mo) = false)
            (callsSince blank (applyDrawingAction negativeRadius initialState emptyAction blank)).
Proof.
  assert (H : knownType (a_type emptyAction) = false) by by_eval.
  split; [exact H|].
  destruct (@X16_unknown_type_paints_nothing negativeRadius initialState emptyAction blank H)
    as (_ & K & _).
  exact K.
Defined.

(** X17 at [fresh] and a server with sockets A and B. *)
Lemma X17_clear_end_to_end_witness :
  ready "A" fresh
  /\ context fresh = Some (canvasOf fresh)
  /\ outbox (Canvas.step countCalls exact negativeRadius fresh Clear)
     = outbox fresh ++ [EmitClearCanvas].
Proof.
  assert (R : ready "A" fresh) by is_ready.
  assert (X : context fresh = Some (canvasOf fresh)) by by_eval.
  split; [exact R|]. split; [exact X|].
  destruct (@X17_clear_end_to_end countCalls exact negativeRadius fresh "A"
              (canvasOf fresh) twoSockets R X) as ((K & _) & _).
  exact K.
Defined.

(** X18 at a pen stroke with one move, applied under other settings. *)
Lemma X18_peer_draws_the_stroke_witness :
  (tool initialState = "pen" \/ tool initialState = "eraser")
  /\ globalCompositeOperation
       (fold_left (fun x a => applyDrawingAction negativeRadius otherSettings a x)
          (strokeActions initialState (mkPos 1 1) [mkPos 2 2]) blank)
     = globalCompositeOperation blank.
Proof.
  assert (T : tool initialState = "pen" \/ tool initialState = "eraser")
    by (left; reflexivity).
  split; [exact T|].
  destruct (@X18_peer_draws_the_stroke negativeRadius initialState otherSettings (mkPos 1 1)
              [mkPos 2 2] blank T) as (_ & K).
  exact K.
Defined.

(** X19 at [dragging]. *)
Lemma X19_rectangle_preview_is_local_witness :
  ready "A" dragging
  /\ context dragging = Some (canvasOf dragging)
  /\ tool (state dragging) = "rectangle"
  /\ isDrawing (state dragging) = true
  /\ previewMode (state dragging) = true
  /\ Js.index (history (state dragging)) (historyStep (state dragging))
     = Some "iiiii"
  /\ outbox (Canvas.step countCalls exact negativeRadius dragging (MouseMove (mkPos 6 7)))
     = outbox dragging.
Proof.
  assert (R : ready "A" dragging) by is_ready.
  assert (X : context dragging = Some (canvasOf dragging)) by by_eval.
  assert (T : tool (state dragging) = "rectangle") by by_eval.
  assert (D : isDrawing (state dragging) = true) by by_eval.
  assert (P : previewMode (state dragging) = true) by by_eval.
  assert (I : Js.index (history (state dragging)) (historyStep (state dragging))
              = Some "iiiii") by by_eval.
  split; [exact R|]. split; [exact X|]. split; [exact T|]. split; [exact D|].
  split; [exact P|]. split; [exact I|].
  destruct (@X19_rectangle_preview_is_local countCalls exact negativeRadius dragging "A"
              (mkPos 6 7) (canvasOf dragging) "iiiii" R X T D P I)
    as (_ & K & _).
  exact K.
Defined.

(** X20 at [fresh], selecting the eraser. *)
Lemma X20_select_tool_witness :
  touched fresh = untouched
  /\ isDrawing (state fresh) = false
  /\ context fresh = Some (canvasOf fresh)
  /\ tool (state (Canvas.step countCalls exact negativeRadius fresh (SelectTool "eraser")))
     = "eraser".
Proof.
  assert (H1 : touched fresh = untouched) by by_eval.
  assert (H2 : isDrawing (state fresh) = false) by by_eval.
  assert (H3 : context fresh = Some (canvasOf fresh)) by by_eval.
  split; [exact H1|]. split; [exact H2|]. split; [exact H3|].
  destruct (@X20_select_tool countCalls exact negativeRadius fresh "eraser"
              (canvasOf fresh) H1 H2 H3) as (K & _).
  exact K.
Defined.

(** X21 at a pen stroke of [fresh], relayed to socket B. *)
Lemma X21_stroke_reaches_peers_witness :
  ready "A" fresh
  /\ (tool (state fresh) = "pen" \/ tool (state fresh) = "eraser")
  /\ NoDup (Server.sockets twoSockets)
  /\ In "A" (Server.sockets twoSockets)
  /\ In "B" (Server.sockets twoSockets)
  /\ "A" <> "B"
  /\ Wire.deliveredTo "A"
       (snd (Server.run twoSockets
               (map (Wire.submit "A")
                  (skipn (List.length (outbox fresh))
                     (outbox (Canvas.run countCalls exact negativeRadius fresh
                                (dragEvents (mkPos 1 1) [mkPos 2 2]
                                   (mkPos 2 2))))))))
     = [].
Proof.
  assert (R : ready "A" fresh) by is_ready.
  assert (T : tool (state fresh) = "pen" \/ tool (state fresh) = "eraser")
    by (left; by_eval).
  assert (D : NoDup (Server.sockets twoSockets)).
  { simpl. constructor; [|constructor; [|constructor]]; simpl.
    - intros [H|[]]. discriminate.
    - intros []. }
  assert (Ia : In "A" (Server.sockets twoSockets)) by (left; reflexivity).
  assert (Ib : In "B" (Server.sockets twoSockets))
    by (right; left; reflexivity).
  assert (N : "A" <> "B") by discriminate.
  split; [exact R|]. split; [exact T|]. split; [exact D|].
  split; [exact Ia|]. split; [exact Ib|]. split; [exact N|].
  destruct (@X21_stroke_reaches_peers countCalls exact negativeRadius fresh "A" "B"
              (mkPos 1 1) [mkPos 2 2] (mkPos 2 2) twoSockets R T D Ia Ib N)
    as (_ & K).
  exact K.
Defined.

(** X23 at [noCanvas] and a clear. *)
Lemma X23_nothing_without_canvas_witness :
  context noCanvas = None
  /\ holdings (Canvas.step countCalls exact negativeRadius noCanvas Clear)
     = holdings noCanvas.
Proof.
  assert (H : context noCanvas = None) by reflexivity.
  split; [exact H|].
  exact (@X23_nothing_without_canvas countCalls exact negativeRadius noCanvas Clear H).
Defined.


End ExtraWitnesses.

